(** * The ONNX importer of the Relax frontend: a model of
    [python/tvm/relax/frontend/onnx_frontend.py] and the properties of its
    version resolver, attribute parser, symbol table and import driver. *)

From Stdlib Require Import PrimFloat Ascii.
From Stdlib Require SpecFloat.
From stdpp Require Import gmap strings list sorting pretty.

Local Open Scope string_scope.
Local Open Scope list_scope.
Local Open Scope Z_scope.
Local Set Warnings "-register-all,-clear-no-such-hyp".

(** ** Python exceptions and results *)

(** The exceptions the importer raises, by class; the payload is the message
    (or the missing key of a [KeyError]). *)
Inductive Exn : Type :=
  | ValueError (msg : string)
  | NotImplementedError (msg : string)
  | OpNotImplemented (msg : string)
  | OpAttributeInvalid (msg : string)
  | AssertionError (msg : string)
  | KeyError (key : string)
  | IndexError (msg : string)
  | AttributeError (msg : string)
  | TypeError (msg : string)
  | OverflowError (msg : string).

(** The outcome of a Python call: a returned value or a raised exception. *)
Inductive result (A : Type) : Type :=
  | Ok (a : A)
  | Raise (e : Exn).
Arguments Ok {A} a.
Arguments Raise {A} e.

Global Instance result_ret : MRet result := @Ok.
Global Instance result_bind : MBind result := λ A B k r,
  match r with
  | Ok a => k a
  | Raise e => Raise e
  end.

Global Instance result_fmap : FMap result := λ A B f r,
  match r with
  | Ok a => Ok (f a)
  | Raise e => Raise e
  end.

(** Code that mutates an object and may raise: the mutation made before a
    [raise] stays in the object, so the state is returned in both cases. *)
Definition SE (S A : Type) : Type := S → result A * S.

Global Instance SE_ret {S} : MRet (SE S) := λ A a s, (Ok a, s).
Global Instance SE_bind {S} : MBind (SE S) := λ A B k m s,
  match m s with
  | (Ok a, s') => k a s'
  | (Raise e, s') => (Raise e, s')
  end.

Global Instance SE_fmap {S} : FMap (SE S) := λ A B f m s,
  match m s with
  | (Ok a, s') => (Ok (f a), s')
  | (Raise e, s') => (Raise e, s')
  end.

Definition se_raise {S A} (e : Exn) : SE S A := λ s, (Raise e, s).
Definition se_lift {S A} (r : result A) : SE S A := λ s, (r, s).
Definition se_get {S} : SE S S := λ s, (Ok s, s).
Definition se_gets {S A} (f : S → A) : SE S A := λ s, (Ok (f s), s).
Definition se_modify {S} (f : S → S) : SE S unit := λ s, (Ok tt, f s).

(** A [for x in l: body(x)] loop. *)
Fixpoint se_for {S A} (l : list A) (body : A → SE S unit) : SE S unit :=
  match l with
  | [] => mret tt
  | x :: l' => body x ≫= λ _, se_for l' body
  end.

(** A relation that holds between the state a computation starts in and the
    state it ends in, whether it returns or raises. *)
Definition se_keeps {S A} (R : relation S) (m : SE S A) : Prop :=
  ∀ s r s', m s = (r, s') → R s s'.

(** ** Python lists *)

Module PyList.

  (** [l[i]] for an integer [i]: a negative index counts from the end, an
      index outside [-len(l), len(l))] raises [IndexError]. *)
Definition getitem {A} (l : list A) (i : Z) : result A :=
    let n := Z.of_nat (length l) in
    let j := if decide (i < 0) then i + n else i in
    if decide (0 ≤ j < n) then
      match l !! Z.to_nat j with
      | Some x => Ok x
      | None => Raise (IndexError "list index out of range")
      end
    else Raise (IndexError "list index out of range").

  (** [enumerate(l)] *)
Definition enumerate {A} (l : list A) : list (Z * A) :=
    imap (λ i x, (Z.of_nat i, x)) l.

  (** [max(l)] of a list of integers; [ValueError] on the empty list. *)
Definition max (l : list Z) : result Z :=
    match l with
    | [] => Raise (ValueError "max() arg is an empty sequence")
    | x :: l' => Ok (foldl Z.max x l')
    end.

  (** [sorted(l)] of a list of integers. The sorted permutation of a list of
      integers is unique, so the result does not depend on the algorithm. *)
Definition sorted (l : list Z) : list Z := merge_sort Z.le l.

End PyList.

(** ** OnnxOpConverter.get_converter *)

(** A converter class, seen through its [_impl_v<N>] class methods: the map
    from each [N] to the method. [dir(cls)] filtered on ["_impl_v"] and
    parsed with [int] is the list of keys of this map. *)
Record ConverterClass (I : Type) : Type := {
  cls_name : string;
  cls_impl : gmap Z I;
}.
Arguments cls_name {I} _.
Arguments cls_impl {I} _.

Section get_converter.
  Context {I : Type}.

  (** [[int(d.replace("_impl_v", "")) for d in dir(cls) if "_impl_v" in d]] *)
Definition declared_versions (cls : ConverterClass I) : list Z :=
    (map_to_list (cls_impl cls)).*1.

  (** [[i for i, v in enumerate(versions) if v == opset]] *)
Definition positions_of (opset : Z) (versions : list Z) : list Z :=
    (filter (λ p, p.2 = opset) (PyList.enumerate versions)).*1.

  (** The version number [get_converter] settles on, before it looks the
      method up. *)
Definition select_version (cls : ConverterClass I) (opset : Z) : result Z :=
    let versions := declared_versions cls in
    let versions := PyList.sorted (versions ++ [opset]) in
    idx ← PyList.max (positions_of opset versions);
    PyList.getitem versions (idx - 1).

  (** [hasattr(cls, "_impl_v{}".format(version))] is the membership of
      [version] in the class's method map, [getattr] the lookup. *)
Definition get_converter (cls : ConverterClass I) (opset : Z) : result I :=
    version ← select_version cls opset;
    match cls_impl cls !! version with
    | Some impl => Ok impl
    | None =>
        Raise (NotImplementedError
                 ("opset version " +:+ pretty version +:+ " of " +:+
                  cls_name cls +:+ " not implemented"))
    end.

  (** [get_converter(opset)] settles on version [m] and returns the class's
      method [_impl_v<m>]. *)
Definition selects (cls : ConverterClass I) (opset m : Z) : Prop :=
    select_version cls opset = Ok m ∧
    ∃ impl, cls_impl cls !! m = Some impl ∧ get_converter cls opset = Ok impl.

End get_converter.

(** ** onnx_input *)

(** What a Python subscript can be: an integer, a [slice(start, stop, step)]
    or an object of another type (given by the name of its type). *)
Inductive Subscript : Type :=
  | SubInt (i : Z)
  | SubSlice (start stop step : option Z)
  | SubOther (type_name : string).

Module onnx_input.
  (** An [onnx_input] holds the value of each input position, [None] for a
      position the node leaves blank. *)
  Abbreviation t A := (list (option A)).

  Section onnx_input.
    Context {A : Type}.

    (** The [isinstance(item, int)] branch of [__getitem__]. *)
Definition getitem_int (self : t A) (item : Z) : result (option A) :=
      if decide (item < Z.of_nat (length self)) then PyList.getitem self item
      else Ok None.

    (** [slice.indices(len)] followed by the enumeration of the sub-range:
        [list(range(stop)[item])]. *)
Definition clamp_index (len step i : Z) : Z :=
      let i := if decide (i < 0) then i + len else i in
      if decide (0 < step) then Z.max 0 (Z.min len i)
      else Z.max (-1) (Z.min (len - 1) i).

Definition range_slice (stop : Z) (item_start item_stop item_step : option Z)
        : result (list Z) :=
      let len := Z.max 0 stop in
      let step := default 1 item_step in
      if decide (step = 0) then Raise (ValueError "slice step cannot be zero")
      else
        let lo := match item_start with
                  | Some i => clamp_index len step i
                  | None => if decide (0 < step) then 0 else len - 1
                  end in
        let hi := match item_stop with
                  | Some i => clamp_index len step i
                  | None => if decide (0 < step) then len else -1
                  end in
        let count :=
          if decide (0 < step) then
            (if decide (lo < hi) then (hi - lo - 1) `div` step + 1 else 0)
          else
            (if decide (hi < lo) then (lo - hi - 1) `div` (- step) + 1 else 0) in
        Ok ((λ k : nat, lo + Z.of_nat k * step) <$> seq 0 (Z.to_nat count)).

Definition getitem (self : t A) (item : Subscript) : result (option A + list (option A)) :=
      match item with
      | SubSlice start stop step =>
          let stop' := match stop with
                       | None => Z.of_nat (length self)
                       | Some stop => stop
                       end in
          indices ← range_slice stop' start stop step;
          inr <$> mapM (getitem_int self) indices
      | SubInt i => inl <$> getitem_int self i
      | SubOther type_name =>
          Raise (TypeError ("list indices must be integers or slices, not " +:+ type_name))
      end.

  End onnx_input.
End onnx_input.

(** ** The ONNX protobuf messages the importer reads *)

(** [TensorProto]: a named constant tensor. The element values are kept for
    integer tensors (shapes, repeat counts, slice bounds), the only ones
    whose elements the importer itself reads. *)
Record TensorProto : Type := {
  t_name : string;
  t_dims : list Z;
  t_data_type : Z;
  t_data : list Z;
}.

(** One entry of [type.tensor_type.shape.dim]. *)
Record Dimension : Type := {
  dim_param : string;
  dim_value : option Z;
}.

(** [ValueInfoProto]: a graph input or output. *)
Record ValueInfoProto : Type := {
  vi_name : string;
  vi_dim : list Dimension;
  vi_elem_type : Z;
}.

(** [AttributeProto], [NodeProto] and [GraphProto]: an attribute may hold
    graphs, whose nodes hold attributes. A field read with [HasField] is an
    [option], a repeated field a list; bytes are strings. *)
Inductive AttributeProto : Type :=
  | Build_AttributeProto
      (name : string)
      (f : option float) (i : option Z) (s : option string)
      (g : option GraphProto) (t : option TensorProto)
      (floats : list float) (ints : list Z) (strings : list string)
      (tensors : list TensorProto) (graphs : list GraphProto)
with NodeProto : Type :=
  | Build_NodeProto
      (name : string) (op_type : string)
      (input : list string) (output : list string)
      (attribute : list AttributeProto)
with GraphProto : Type :=
  | Build_GraphProto
      (node : list NodeProto)
      (initializer : list TensorProto)
      (input : list ValueInfoProto) (output : list ValueInfoProto).

Definition a_name (a : AttributeProto) : string :=
  let 'Build_AttributeProto name _ _ _ _ _ _ _ _ _ _ := a in name.
Definition a_f (a : AttributeProto) : option float :=
  let 'Build_AttributeProto _ f _ _ _ _ _ _ _ _ _ := a in f.
Definition a_i (a : AttributeProto) : option Z :=
  let 'Build_AttributeProto _ _ i _ _ _ _ _ _ _ _ := a in i.
Definition a_s (a : AttributeProto) : option string :=
  let 'Build_AttributeProto _ _ _ s _ _ _ _ _ _ _ := a in s.
Definition a_g (a : AttributeProto) : option GraphProto :=
  let 'Build_AttributeProto _ _ _ _ g _ _ _ _ _ _ := a in g.
Definition a_t (a : AttributeProto) : option TensorProto :=
  let 'Build_AttributeProto _ _ _ _ _ t _ _ _ _ _ := a in t.
Definition a_floats (a : AttributeProto) : list float :=
  let 'Build_AttributeProto _ _ _ _ _ _ floats _ _ _ _ := a in floats.
Definition a_ints (a : AttributeProto) : list Z :=
  let 'Build_AttributeProto _ _ _ _ _ _ _ ints _ _ _ := a in ints.
Definition a_strings (a : AttributeProto) : list string :=
  let 'Build_AttributeProto _ _ _ _ _ _ _ _ strings _ _ := a in strings.
Definition a_tensors (a : AttributeProto) : list TensorProto :=
  let 'Build_AttributeProto _ _ _ _ _ _ _ _ _ tensors _ := a in tensors.
Definition a_graphs (a : AttributeProto) : list GraphProto :=
  let 'Build_AttributeProto _ _ _ _ _ _ _ _ _ _ graphs := a in graphs.

Definition n_name (n : NodeProto) : string :=
  let 'Build_NodeProto name _ _ _ _ := n in name.
Definition n_op_type (n : NodeProto) : string :=
  let 'Build_NodeProto _ op_type _ _ _ := n in op_type.
Definition n_input (n : NodeProto) : list string :=
  let 'Build_NodeProto _ _ input _ _ := n in input.
Definition n_output (n : NodeProto) : list string :=
  let 'Build_NodeProto _ _ _ output _ := n in output.
Definition n_attribute (n : NodeProto) : list AttributeProto :=
  let 'Build_NodeProto _ _ _ _ attribute := n in attribute.

Definition g_node (g : GraphProto) : list NodeProto :=
  let 'Build_GraphProto node _ _ _ := g in node.
Definition g_initializer (g : GraphProto) : list TensorProto :=
  let 'Build_GraphProto _ initializer _ _ := g in initializer.
Definition g_input (g : GraphProto) : list ValueInfoProto :=
  let 'Build_GraphProto _ _ input _ := g in input.
Definition g_output (g : GraphProto) : list ValueInfoProto :=
  let 'Build_GraphProto _ _ _ output := g in output.

(** [OperatorSetIdProto] and [ModelProto] *)
Record OperatorSetIdProto : Type := {
  os_domain : string;
  os_version : Z;
}.

Record ModelProto : Type := {
  ir_version : Z;
  opset_import : list OperatorSetIdProto;
  graph : GraphProto;
}.

(** ** Attribute values and the attribute dictionary *)

(** What [_parse_attr] stores under an attribute's name, and the
    [tvm_custom] dictionary [_construct_nodes] adds. *)
Inductive AttrValue : Type :=
  | AFloat (f : float)
  | AInt (i : Z)
  | ABytes (s : string)
  | AGraph (g : GraphProto)
  | ATensor (t : TensorProto)
  | AFloats (l : list float)
  | AInts (l : list Z)
  | AStrings (l : list string)
  | ATensors (l : list TensorProto)
  | ATvmCustom (name : string) (num_outputs : nat).

Abbreviation Attrs := (gmap string AttrValue).

(** ** _parse_attr *)

(** The body of the loop over the attributes: one [AttributeProto] is copied
    into [attrs]. *)
Definition parse_one_attr (a : AttributeProto) (attrs : Attrs) : result Attrs :=
  (* for f in ["f", "i", "s", "g"] *)
  let attrs := match a_f a with Some v => <[a_name a := AFloat v]> attrs | None => attrs end in
  let attrs := match a_i a with Some v => <[a_name a := AInt v]> attrs | None => attrs end in
  let attrs := match a_s a with Some v => <[a_name a := ABytes v]> attrs | None => attrs end in
  let attrs := match a_g a with Some v => <[a_name a := AGraph v]> attrs | None => attrs end in
  (* for f in ["floats", "ints", "strings"] *)
  let repeated (is_empty : bool) (v : AttrValue) (attrs : Attrs) : result Attrs :=
    if is_empty then Ok attrs
    else match attrs !! a_name a with
         | Some _ => Raise (AssertionError "Only one type of attr is allowed")
         | None => Ok (<[a_name a := v]> attrs)
         end in
  attrs ← repeated (bool_decide (a_floats a = [])) (AFloats (a_floats a)) attrs;
  attrs ← repeated (bool_decide (a_ints a = [])) (AInts (a_ints a)) attrs;
  attrs ← repeated (bool_decide (a_strings a = [])) (AStrings (a_strings a)) attrs;
  (* for f in ["t"] *)
  let attrs := match a_t a with Some v => <[a_name a := ATensor v]> attrs | None => attrs end in
  (* for f in ["tensors"] *)
  attrs ← repeated (bool_decide (a_tensors a = [])) (ATensors (a_tensors a)) attrs;
  (* for f in ["graphs"] *)
  match a_graphs a with
  | _ :: _ => Raise (NotImplementedError "Field graphs is not supported in relax.")
  | [] =>
      match attrs !! a_name a with
      | None => Raise (ValueError "Cannot parse attribute")
      | Some _ => Ok attrs
      end
  end.

Fixpoint parse_attr_loop (attr_proto : list AttributeProto) (attrs : Attrs)
    : result Attrs :=
  match attr_proto with
  | [] => Ok attrs
  | a :: rest => attrs ← parse_one_attr a attrs; parse_attr_loop rest attrs
  end.

Definition _parse_attr (attr_proto : list AttributeProto) : result Attrs :=
  parse_attr_loop attr_proto ∅.

(** ** Relax expressions *)

(** A numpy or TVM array: element type name, shape and flat elements. *)
Record NDArray : Type := {
  nd_dtype : string;
  nd_shape : list Z;
  nd_data : list Z;
}.

(** A dimension of a shape: a [tir.IntImm] (which has a [.value]) or a
    symbolic [tir.Var]. *)
Inductive PrimExpr : Type :=
  | IntImm (value : Z)
  | TirVar (name : string) (dtype : string).

Inductive StructInfo : Type :=
  | TensorStructInfo (shape : option (list PrimExpr)) (dtype : option string)
  | TupleStructInfo (fields : list StructInfo)
  | ShapeStructInfo (ndim : Z)
  | ObjectStructInfo.

(** What [ndarray.tolist()] returns: a number for an array of no dimension,
    a list of numbers for one dimension, a list of lists beyond. *)
Inductive PyValue : Type :=
  | PyInt (z : Z)
  | PyList (items : list PyValue).

(** [array.tolist()]. An array has as many elements as the product of its
    shape: the element of an array of no dimension, and else the list of the
    [tolist()] of the sub-arrays along the first dimension. *)
Fixpoint nested (shape : list Z) (data : list Z) : PyValue :=
  match shape with
  | [] => PyInt (default 0 (head data))
  | n :: shape =>
      let size := Z.to_nat (foldr Z.mul 1 shape) in
      PyList ((λ k, nested shape (take size (drop (k * size) data))) <$> seq 0 (Z.to_nat n))
  end.

Definition tolist (array : NDArray) : PyValue :=
  nested (nd_shape array) (nd_data array).

(** [value == x] for a number [x], [len(value)] and [x in value] *)
Definition py_eq (x : Z) (value : PyValue) : bool :=
  match value with
  | PyInt z => bool_decide (z = x)
  | PyList _ => false
  end.

(** Relax expressions, and the arguments an operator application takes: an
    expression, [None], a value of Python (a number, a list) or a string. *)
Inductive Expr : Type :=
  | Var (name_hint : string) (struct_info : StructInfo)
  | Constant (data : NDArray)
  | Tuple (fields : list Expr)
  | TupleGetItem (tuple_value : Expr) (index : nat)
  | Call (op : string) (args : list Arg) (kwargs : list (string * Arg))
         (struct_info : StructInfo)
with Arg : Type :=
  | ArgExpr (e : Expr)
  | ArgNone
  | ArgPy (value : PyValue)
  | ArgStr (s : string).

Definition arg_of (e : option Expr) : Arg :=
  match e with
  | Some e => ArgExpr e
  | None => ArgNone
  end.

(** [isinstance(e, relax.Constant)], [isinstance(e, relax.Var)] and
    [isinstance(e, relax.Tuple)] *)
Definition is_Constant (e : option Expr) : bool :=
  match e with Some (Constant _) => true | _ => false end.
Definition is_Var (e : Expr) : bool :=
  match e with Var _ _ => true | _ => false end.
Definition is_Tuple (e : Expr) : bool :=
  match e with Tuple _ => true | _ => false end.

(** [e.struct_info] of a normalised expression. *)
Fixpoint struct_info (e : Expr) : StructInfo :=
  match e with
  | Var _ si => si
  | Constant data => TensorStructInfo (Some (IntImm <$> nd_shape data)) (Some (nd_dtype data))
  | Tuple fields => TupleStructInfo (struct_info <$> fields)
  | TupleGetItem t i =>
      match struct_info t with
      | TupleStructInfo fields => default ObjectStructInfo (fields !! i)
      | _ => ObjectStructInfo
      end
  | Call _ _ _ si => si
  end.

(** [relax.const(value, dtype)] of an array *)
Definition relax_const (value : NDArray) (dtype : string) : Expr :=
  Constant {| nd_dtype := dtype; nd_shape := nd_shape value; nd_data := nd_data value |}.

(** ** The program under construction *)

(** Modelled from the spec: [relax.BlockBuilder] (python/tvm/relax, not
    under src/). The spec gives its effect: the importer "emits one function
    whose parameter list is the ordered free-variable list, body is every
    binding created along the way, and return is the final output value(s)".
    A builder is the list of bindings emitted so far and the function, once
    emitted; an emitted binding is named by a fresh variable. *)
Record Function : Type := {
  fn_params : list Expr;
  fn_body : list (Expr * Expr);
  fn_ret : Expr;
}.

Record IRModule : Type := {
  mod_functions : list (string * Function);
}.

Record BlockBuilder : Type := {
  bb_bindings : list (Expr * Expr);
  bb_functions : list (string * Function);
}.

Module BlockBuilder.

Definition create : BlockBuilder :=
    {| bb_bindings := []; bb_functions := [] |}.

  (** [bb.emit(value)]: binds [value] to a fresh variable, which it returns. *)
Definition emit (value : Expr) (bb : BlockBuilder) : Expr * BlockBuilder :=
    let var := Var ("lv" +:+ pretty (length (bb_bindings bb))) (struct_info value) in
    (var, {| bb_bindings := bb_bindings bb ++ [(var, value)];
             bb_functions := bb_functions bb |}).

  (** [bb.emit_output(value)] *)
Definition emit_output (value : Expr) (bb : BlockBuilder) : Expr * BlockBuilder :=
    let var := Var ("gv" +:+ pretty (length (bb_bindings bb))) (struct_info value) in
    (var, {| bb_bindings := bb_bindings bb ++ [(var, value)];
             bb_functions := bb_functions bb |}).

  (** [bb.emit_func_output(output, params)], closing [bb.function(name)] *)
Definition emit_func_output (name : string) (output : Expr) (params : list Expr)
      (bb : BlockBuilder) : BlockBuilder :=
    {| bb_bindings := [];
       bb_functions := bb_functions bb ++
         [(name, {| fn_params := params; fn_body := bb_bindings bb; fn_ret := output |})] |}.

  (** [bb.get()] *)
Definition get (bb : BlockBuilder) : IRModule :=
    {| mod_functions := bb_functions bb |}.

  (** [bb.normalize(expr)]: the expression with its struct info deduced. An
      expression of this model carries its struct info; [None] is not an
      expression. *)
Definition normalize (expr : option Expr) : result Expr :=
    match expr with
    | Some e => Ok e
    | None => Raise (TypeError "expected an Expr, got None")
    end.

End BlockBuilder.

(** ** The converters *)

(** What a converter works on besides its inputs: the block builder and the
    node's attribute dictionary, both of which it may update. *)
Record ConvState : Type := {
  cs_bb : BlockBuilder;
  cs_attr : Attrs;
}.

(** An [_impl_v<N>] method, from the inputs; it returns an expression or
    [None]. *)
Definition Impl : Type := onnx_input.t Expr → SE ConvState (option Expr).

(** What the importer takes from outside this file. *)
Record Externals : Type := {
  (** [onnx.numpy_helper.to_array], applied by [get_numpy] to the object it
      is given *)
  to_array : AttrValue → result NDArray;
  (** [onnx.mapping.TENSOR_TYPE_TO_NP_TYPE], as the names of the types *)
  TENSOR_TYPE_TO_NP_TYPE : gmap Z string;
  (** the struct info TVM deduces for the result of a TE function applied to
      the given arguments, or the error it raises *)
  te_infer : string → list Arg → list (string * Arg) → result StructInfo;
  (** the body of the [_impl_v<N>] method of a converter class of the source
      on which no property below depends, by class name and [N] *)
  native_impl : string → Z → Impl;
  (** the [_impl_v<N>] methods of a converter class of the Relay frontend,
      each taken through the bridge of [_convert_operator]
      ([_relay_input_adapter], the method, [_relay_output_adapter]) *)
  relay_impl : string → gmap Z Impl;
  (** [NameSupply.fresh_name]: the name a supply returns for a prefix, after
      the requests it has served since it was created *)
  supply_fresh_name : list string → string → string;
  (** [int(_np.prod(data_shape) / new_product)]: numpy's product of a list
      of numbers, its division by a number of Python and the integer Python
      makes of the quotient, or the error raised *)
  np_prod_div : list Z → Z → result Z;
  (** [c.isalpha()] of a character beyond ASCII, by its code point: the
      letters of the Unicode database of the interpreter *)
  unicode_isalpha : N → bool;
  (** [tvm.target.Target(target)] of a string: the target object, known by
      a string, or the error raised for a string that describes no target *)
  Target : string → result string;
}.

(** ** The name supply *)

(** A [NameSupply] is known by the prefixes requested from it so far: what
    [fresh_name] returns is a function of them and of the prefix. *)
Module NameSupply.

Definition t : Type := list string.

Definition create : t := [].

Definition fresh_name (ext : Externals) (prefix : string) (supply : t) : string * t :=
    (supply_fresh_name ext supply prefix, supply ++ [prefix]).

End NameSupply.

Definition get_numpy (ext : Externals) (tensor_proto : AttrValue) : result NDArray :=
  to_array ext tensor_proto.

(** [get_type(elem_type)] for an integer [elem_type] *)
Definition get_type (ext : Externals) (elem_type : Z) : result string :=
  match TENSOR_TYPE_TO_NP_TYPE ext !! elem_type with
  | Some np_type => Ok np_type
  | None => Raise (KeyError (pretty elem_type))
  end.

(** [bb.emit_te(func, *args, **kwargs)] *)
Definition emit_te (ext : Externals) (func : string) (args : list Arg)
    (kwargs : list (string * Arg)) : SE ConvState Expr :=
  λ st,
    match te_infer ext func args kwargs with
    | Raise e => (Raise e, st)
    | Ok si =>
        let '(var, bb) := BlockBuilder.emit (Call func args kwargs si) (cs_bb st) in
        (Ok var, {| cs_bb := bb; cs_attr := cs_attr st |})
    end.

(** [x.data.numpy().tolist()] where [x] is an input *)
Definition data_tolist (x : option Expr) : result PyValue :=
  match x with
  | Some (Constant data) => Ok (tolist data)
  | Some _ => Raise (AttributeError "object has no attribute 'data'")
  | None => Raise (AttributeError "'NoneType' object has no attribute 'data'")
  end.

(** [len(value)] *)
Definition py_len (value : PyValue) : result nat :=
  match value with
  | PyList items => Ok (length items)
  | PyInt _ => Raise (TypeError "object of type 'int' has no len()")
  end.

(** [[dim.value for dim in data.struct_info.shape.values]] *)
Definition shape_values (data : option Expr) : result (list Z) :=
  match data with
  | None => Raise (AttributeError "'NoneType' object has no attribute 'struct_info'")
  | Some e =>
      match struct_info e with
      | TensorStructInfo (Some dims) _ =>
          mapM (λ dim, match dim with
                       | IntImm value => Ok value
                       | TirVar _ _ =>
                           Raise (AttributeError "'Var' object has no attribute 'value'")
                       end) dims
      | _ => Raise (AttributeError "object has no attribute 'values'")
      end
  end.

Module Identity.
Definition _impl_v1 : Impl := λ inputs,
    se_lift (onnx_input.getitem_int inputs 0).
End Identity.

Module Reshape.
  (** The loop over [new_shape] that multiplies its positive entries. *)
Definition new_product (new_shape : list PyValue) : result Z :=
    foldl (λ new_product dim,
             new_product ← new_product;
             match dim with
             | PyInt dim => Ok (if decide (dim > 0) then new_product * dim else new_product)
             | PyList _ =>
                 Raise (TypeError "'>' not supported between instances of 'list' and 'int'")
             end)
          (Ok 1) new_shape.

Definition _impl_v13 (ext : Externals) : Impl := λ inputs,
    data ← se_lift (onnx_input.getitem_int inputs 0);
    shape ← se_lift (onnx_input.getitem_int inputs 1);
    if negb (is_Constant shape) then
      se_lift (onnx_input.getitem_int inputs 0)
    else
      new_shape ← se_lift (data_tolist shape);
      new_shape ←
        (match new_shape with
         | PyInt _ => se_raise (TypeError "argument of type 'int' is not iterable")
         | PyList dims =>
             if existsb (py_eq (-1)) dims then
               if bool_decide (length (filter (λ dim, py_eq (-1) dim = true) dims) ≠ 1%nat) then
                 se_raise (ValueError "Reshape with multiple -1 is not supported.")
               else
                 data_shape ← se_lift (shape_values data);
                 new_product ← se_lift (new_product dims);
                 quotient ← se_lift (np_prod_div ext data_shape new_product);
                 mret (PyList ((λ dim, if py_eq (-1) dim then PyInt quotient else dim)
                                 <$> dims))
             else mret new_shape
         end);
      Some <$> emit_te ext "topi.reshape" [arg_of data; ArgPy new_shape] [].
End Reshape.

Module Constant.
  (** [_np.asarray([0]).astype("int64")] *)
Definition zero : NDArray :=
    {| nd_dtype := "int64"; nd_shape := [1]; nd_data := [0] |}.

Definition _impl_v13 (ext : Externals) : Impl := λ inputs st,
    match cs_attr st !! "value" with
    | None => (Raise (ValueError "no value in Constant"), st)
    | Some value =>
        (* value = attr.pop("value") *)
        let st := {| cs_bb := cs_bb st; cs_attr := delete "value" (cs_attr st) |} in
        let np_value :=
          match value with
          | ABytes _ => Ok zero
          | _ => get_numpy ext value
          end in
        match np_value with
        | Raise e => (Raise e, st)
        | Ok np_value =>
            let dtype := nd_dtype np_value in
            (Ok (Some (relax_const np_value dtype)), st)
        end
    end.
End Constant.

Module Slice.
Definition _impl_v13 (ext : Externals) : Impl := λ inputs,
    data ← se_lift (onnx_input.getitem_int inputs 0);
    starts ← se_lift (onnx_input.getitem_int inputs 1);
    ends ← se_lift (onnx_input.getitem_int inputs 2);
    axes ← se_lift (onnx_input.getitem_int inputs 3);
    steps ← se_lift (onnx_input.getitem_int inputs 4);
    if negb (forallb (λ param, is_Constant param || bool_decide (param = None))
                     [starts; ends; axes; steps]) then
      se_raise (ValueError "Only constant Slice parameters are currently supported.")
    else
      starts ← se_lift (data_tolist starts);
      ends ← se_lift (data_tolist ends);
      axes ← (match axes with
              | Some _ => se_lift (data_tolist axes)
              | None =>
                  n ← se_lift (py_len starts);
                  mret (PyList (PyInt <$> (Z.of_nat <$> seq 0 n)))
              end);
      steps ← (match steps with
               | Some _ => se_lift (data_tolist steps)
               | None =>
                   n ← se_lift (py_len axes);
                   mret (PyList (replicate n (PyInt 1)))
               end);
      Some <$> emit_te ext "topi.strided_slice"
                 [arg_of data; ArgPy starts; ArgPy ends]
                 [("strides", ArgPy steps); ("axes", ArgPy axes)].
End Slice.

Module Tile.
Definition _impl_v13 (ext : Externals) : Impl := λ inputs,
    reps ← se_lift (onnx_input.getitem_int inputs 1);
    if is_Constant reps then
      reps ← se_lift (data_tolist reps);
      data ← se_lift (onnx_input.getitem_int inputs 0);
      Some <$> emit_te ext "topi.tile" [arg_of data; ArgPy reps] []
    else
      se_raise (ValueError "Dynamic reps for Tile are supported yet.").
End Tile.

(** ** _get_convert_map *)

(** Whether the class of a catalog entry derives from the converter base
    class of this file or from the one of the Relay frontend
    ([RelayOnnxOpConverter]). *)
Inductive ConverterBase : Type :=
  | RelaxConverter
  | RelayConverter.

Definition converter (name : string) (impls : list (Z * Impl)) : ConverterBase * ConverterClass Impl :=
  (RelaxConverter, {| cls_name := name; cls_impl := list_to_map impls |}).

(** A converter class of the source whose methods are taken from outside. *)
Definition native (ext : Externals) (name : string) (versions : list Z)
    : ConverterBase * ConverterClass Impl :=
  converter name ((λ v, (v, native_impl ext name v)) <$> versions).

Definition relay (ext : Externals) (name : string) : ConverterBase * ConverterClass Impl :=
  (RelayConverter, {| cls_name := name; cls_impl := relay_impl ext name |}).

Definition _get_convert_map (ext : Externals)
    : gmap string (ConverterBase * ConverterClass Impl) :=
  list_to_map [
    ("MatMul", relay ext "MatMul");
    ("Concat", native ext "Concat" [13]);
    ("Add", native ext "Add" [13]);
    ("Mul", native ext "Mul" [13]);
    ("Cast", native ext "Cast" [13]);
    ("Gather", native ext "Gather" [13]);
    ("Gemm", native ext "Gemm" [13]);
    ("Reshape", converter "Reshape" [(13, Reshape._impl_v13 ext)]);
    ("Div", native ext "Div" [14]);
    ("Sigmoid", native ext "Sigmoid" [13]);
    ("Softmax", native ext "Softmax" [13]);
    ("Transpose", native ext "Transpose" [13]);
    ("Unsqueeze", native ext "Unsqueeze" [13]);
    ("Gelu", native ext "Gelu" [1]);
    ("BiasGelu", native ext "BiasGelu" [1]);
    ("Where", native ext "Where" [16]);
    ("Clip", native ext "Clip" [13]);
    ("Equal", native ext "Equal" [13]);
    ("Shape", native ext "Shape" [13]);
    ("Not", native ext "Not" [13]);
    ("Tanh", native ext "Tanh" [13]);
    ("Sqrt", native ext "Sqrt" [13]);
    ("Relu", native ext "Relu" [13]);
    ("Conv", relay ext "Conv");
    ("Pow", native ext "Pow" [13]);
    ("Erf", native ext "Erf" [13]);
    ("CumSum", native ext "CumSum" [13]);
    ("Squeeze", native ext "Squeeze" [13]);
    ("Constant", converter "Constant" [(13, Constant._impl_v13 ext)]);
    ("Sub", native ext "Sub" [13]);
    ("Sin", native ext "Sin" [7]);
    ("Cos", native ext "Cos" [7]);
    ("Neg", native ext "Neg" [13]);
    ("Abs", native ext "Abs" [13]);
    ("Min", native ext "Min" [13]);
    ("Max", native ext "Max" [13]);
    ("Log", native ext "Log" [13]);
    ("Less", native ext "Less" [13]);
    ("LessOrEqual", native ext "LessOrEqual" [13]);
    ("LayerNormalization", relay ext "LayerNormalization");
    ("SkipLayerNormalization", relay ext "SkipLayerNormalization");
    ("EmbedLayerNormalization", relay ext "EmbedLayerNormalization");
    ("InstanceNormalization", relay ext "InstanceNorm");
    ("ReduceMax", relay ext "ReduceMax");
    ("ReduceMin", relay ext "ReduceMin");
    ("ReduceSum", relay ext "ReduceSum");
    ("ReduceMean", relay ext "ReduceMean");
    ("ReduceProd", relay ext "ReduceProd");
    ("ReduceLogSumExp", relay ext "ReduceLogSumExp");
    ("ReduceLogSum", relay ext "ReduceLogSum");
    ("ReduceSumSquare", relay ext "ReduceSumSquare");
    ("ReduceL1", relay ext "ReduceL1");
    ("ReduceL2", relay ext "ReduceL2");
    ("Expand", native ext "Expand" [13]);
    ("ConstantOfShape", native ext "ConstantOfShape" [9]);
    ("Slice", converter "Slice" [(13, Slice._impl_v13 ext)]);
    ("Attention", native ext "Attention" [1]);
    ("Pad", native ext "Pad" [11]);
    ("Split", native ext "Split" [1; 13]);
    ("Tile", converter "Tile" [(13, Tile._impl_v13 ext)]);
    ("BatchNormalization", relay ext "BatchNorm");
    ("GlobalAveragePool", relay ext "GlobalAveragePool");
    ("Flatten", relay ext "Flatten");
    ("MaxPool", relay ext "MaxPool");
    ("Identity", converter "Identity" [(1, Identity._impl_v1)]);
    ("Resize", native ext "Resize" [18]);
    ("Einsum", native ext "Einsum" [12]);
    ("Range", native ext "Range" [12])
  ].

(** ** ONNXGraphImporter *)

(** The [dtype] argument: one type name or a dictionary from input names. *)
Inductive DtypeArg : Type :=
  | DtypeStr (dtype : string)
  | DtypeDict (dtypes : gmap string string).

(** A Python dictionary whose order of insertion is read back. *)
Fixpoint dict_set {V} (k : string) (v : V) (d : list (string * V)) : list (string * V) :=
  match d with
  | [] => [(k, v)]
  | (k', v') :: d' =>
      if decide (k' = k) then (k, v) :: d' else (k', v') :: dict_set k v d'
  end.

Record ONNXGraphImporter : Type := {
  _nodes : gmap string Expr;
  _inputs : list (string * Expr);
  _num_input : Z;
  _shape : gmap string (list PrimExpr);
  _input_names : list string;
  _dtype : DtypeArg;
  opset : option Z;
  _target : string;
  _name_supply : NameSupply.t;
  _sanitize : bool;
  bb : BlockBuilder;
}.

(** [ONNXGraphImporter.__init__] *)
Definition ONNXGraphImporter_init (shape : option (gmap string (list PrimExpr)))
    (dtype : DtypeArg) (target : string) (sanitize : bool) : ONNXGraphImporter :=
  {| _nodes := ∅;
     _inputs := [];
     _num_input := 0;
     _shape := default ∅ shape;
     _input_names := [];
     _dtype := dtype;
     opset := None;
     _target := target;
     _name_supply := NameSupply.create;
     _sanitize := sanitize;
     bb := BlockBuilder.create |}.

Definition set_nodes (f : gmap string Expr → gmap string Expr) (self : ONNXGraphImporter)
    : ONNXGraphImporter :=
  {| _nodes := f (_nodes self); _inputs := _inputs self; _num_input := _num_input self;
     _shape := _shape self; _input_names := _input_names self; _dtype := _dtype self;
     opset := opset self; _target := _target self; _name_supply := _name_supply self;
     _sanitize := _sanitize self; bb := bb self |}.

Definition set_inputs (f : list (string * Expr) → list (string * Expr))
    (self : ONNXGraphImporter) : ONNXGraphImporter :=
  {| _nodes := _nodes self; _inputs := f (_inputs self); _num_input := _num_input self;
     _shape := _shape self; _input_names := _input_names self; _dtype := _dtype self;
     opset := opset self; _target := _target self; _name_supply := _name_supply self;
     _sanitize := _sanitize self; bb := bb self |}.

(** [self._num_input += 1; self._input_names.append(i_name)] *)
Definition count_input (i_name : string) (self : ONNXGraphImporter) : ONNXGraphImporter :=
  {| _nodes := _nodes self; _inputs := _inputs self; _num_input := _num_input self + 1;
     _shape := _shape self; _input_names := _input_names self ++ [i_name];
     _dtype := _dtype self;
     opset := opset self; _target := _target self; _name_supply := _name_supply self;
     _sanitize := _sanitize self; bb := bb self |}.

Definition set_opset (v : Z) (self : ONNXGraphImporter) : ONNXGraphImporter :=
  {| _nodes := _nodes self; _inputs := _inputs self; _num_input := _num_input self;
     _shape := _shape self; _input_names := _input_names self; _dtype := _dtype self;
     opset := Some v; _target := _target self; _name_supply := _name_supply self;
     _sanitize := _sanitize self; bb := bb self |}.

Definition set_name_supply (supply : NameSupply.t) (self : ONNXGraphImporter)
    : ONNXGraphImporter :=
  {| _nodes := _nodes self; _inputs := _inputs self; _num_input := _num_input self;
     _shape := _shape self; _input_names := _input_names self; _dtype := _dtype self;
     opset := opset self; _target := _target self; _name_supply := supply;
     _sanitize := _sanitize self; bb := bb self |}.

Definition set_bb (b : BlockBuilder) (self : ONNXGraphImporter) : ONNXGraphImporter :=
  {| _nodes := _nodes self; _inputs := _inputs self; _num_input := _num_input self;
     _shape := _shape self; _input_names := _input_names self; _dtype := _dtype self;
     opset := opset self; _target := _target self; _name_supply := _name_supply self;
     _sanitize := _sanitize self; bb := b |}.

(** A method of the importer: it reads and updates [self] and may raise. *)
Abbreviation Method := (SE ONNXGraphImporter).

(** [self._nodes[name]] *)
Definition nodes_getitem (name : string) : Method Expr := λ self,
  match _nodes self !! name with
  | Some e => (Ok e, self)
  | None => (Raise (KeyError name), self)
  end.

(** *** Strings *)

(** A [str] of Python is held as the bytes of its UTF-8 encoding: equality,
    concatenation and the replacement of one ASCII character by another are
    the same on the bytes as on the characters. [code_points] reads the
    characters of the string, as code points. *)
Definition continuation (b : ascii) : N := N.land (Ascii.N_of_ascii b) 63.

Fixpoint code_points (s : string) : list N :=
  match s with
  | EmptyString => []
  | String b0 rest =>
      let n0 := Ascii.N_of_ascii b0 in
      if (n0 <? 192)%N then n0 :: code_points rest
      else if (n0 <? 224)%N then
        match rest with
        | String b1 rest => ((n0 - 192) * 64 + continuation b1)%N :: code_points rest
        | EmptyString => [n0]
        end
      else if (n0 <? 240)%N then
        match rest with
        | String b1 (String b2 rest) =>
            (((n0 - 224) * 64 + continuation b1) * 64 + continuation b2)%N
              :: code_points rest
        | _ => [n0]
        end
      else
        match rest with
        | String b1 (String b2 (String b3 rest)) =>
            ((((n0 - 240) * 64 + continuation b1) * 64 + continuation b2) * 64
             + continuation b3)%N :: code_points rest
        | _ => [n0]
        end
  end.

(** [c.isspace()]: the white space of Unicode, which [str.strip()] removes. *)
Definition isspace (c : N) : bool :=
  bool_decide (9 ≤ c ≤ 13 ∨ 28 ≤ c ≤ 32 ∨ c = 133 ∨ c = 160 ∨ c = 5760 ∨
               8192 ≤ c ≤ 8202 ∨ c = 8232 ∨ c = 8233 ∨ c = 8239 ∨ c = 8287 ∨
               c = 12288)%N.

(** [c.isalpha()]: the letters of ASCII, and beyond ASCII the letters of the
    Unicode database. *)
Definition isalpha (ext : Externals) (c : N) : bool :=
  if (c <? 128)%N then bool_decide (65 ≤ c ≤ 90 ∨ 97 ≤ c ≤ 122)%N
  else unicode_isalpha ext c.

(** [not name.strip()]: nothing is left of [name] without its white space. *)
Definition blank (name : string) : bool :=
  forallb isspace (code_points name).

(** [name.replace(".", "_")] *)
Fixpoint replace_dots (name : string) : string :=
  match name with
  | EmptyString => EmptyString
  | String c rest =>
      String (if decide (c = "."%char) then "_"%char else c) (replace_dots rest)
  end.

(** *** get_info *)

(** The name, shape, type and shape names of a [ValueInfoProto]; a dimension
    without a value becomes a fresh symbolic variable [dyn]. *)
Definition get_info (ext : Externals) (info_proto : ValueInfoProto)
    : result (string * list PrimExpr * option string * list (string + Z)) :=
  let dims := (λ dim,
    if decide (dim_value dim = None ∨ dim_value dim = Some 0)
    then (TirVar "dyn" "int64", inl (dim_param dim))
    else (IntImm (default 0 (dim_value dim)), inr (default 0 (dim_value dim))))
    <$> vi_dim info_proto in
  let shape := dims.*1 in
  let shape_name := dims.*2 in
  let name := vi_name info_proto in
  dtype ← (if decide (vi_elem_type info_proto ≠ 0)
           then Some <$> get_type ext (vi_elem_type info_proto)
           else Ok None);
  Ok (name, shape, dtype, shape_name).

Section methods.
  Context (ext : Externals).

  (** *** _parse_array, _parse_graph_initializers *)

  (** [ndarray.reshape(dims)] *)
Definition reshape (array : NDArray) (dims : list Z) : result NDArray :=
    if decide (foldr Z.mul 1 (nd_shape array) = foldr Z.mul 1 dims) then
      Ok {| nd_dtype := nd_dtype array; nd_shape := dims; nd_data := nd_data array |}
    else Raise (ValueError "cannot reshape array").

Definition _parse_array (tensor_proto : TensorProto) : result NDArray :=
    np_array ← get_numpy ext (ATensor tensor_proto);
    reshape np_array (t_dims tensor_proto).

  (** The body of the loop of [_parse_graph_initializers]. *)
Definition parse_initializer (init_tensor : TensorProto) : Method unit :=
    if blank (t_name init_tensor) then
      se_raise (ValueError "Tensor's name is required.")
    else
      array ← se_lift (_parse_array init_tensor);
      se_modify (set_nodes (<[t_name init_tensor := Constant array]>)).

Definition _parse_graph_initializers (graph : GraphProto) : Method unit :=
    se_for (g_initializer graph) parse_initializer.

  (** *** _sanitize_name, _new_var, _parse_graph_input *)

  (** [self._name_supply.fresh_name(prefix)] *)
Definition fresh_name (prefix : string) : Method string := λ self,
    let '(name, supply) := NameSupply.fresh_name ext prefix (_name_supply self) in
    (Ok name, set_name_supply supply self).

  (** The warning on a renamed input has no effect on the importer. *)
Definition _sanitize_name (name : string) : Method string :=
    if decide (name = "") then fresh_name "empty_"
    else
      let new_name := replace_dots name in
      match code_points new_name with
      | c :: _ =>
          if negb (isalpha ext c) && bool_decide (c ≠ 95%N)
          then fresh_name ("input_" +:+ new_name)
          else fresh_name new_name
      | [] => se_raise (IndexError "string index out of range")
      end.

Definition _new_var (var_name : string) (shape : list PrimExpr) (dtype : option string)
      : Expr :=
    Var var_name (TensorStructInfo (Some shape) dtype).

  (** The type of the variable of an input: the one of the [dtype]
      dictionary of the importer for this name, else the one of the graph. *)
Definition input_dtype (self : ONNXGraphImporter) (i_name : string)
      (d_type : option string) : option string :=
    match _dtype self with
    | DtypeDict dtypes =>
        match dtypes !! i_name with
        | Some dtype => Some dtype
        | None => d_type
        end
    | DtypeStr _ => d_type
    end.

  (** The body of the loop of [_parse_graph_input]. The warning on unknown
      dimensions has no effect on the importer. *)
Definition parse_input (i : ValueInfoProto) : Method unit :=
    '(i_name, i_shape, d_type, i_shape_name) ← se_lift (get_info ext i);
    self ← se_get;
    (if decide (_nodes self !! i_name = None) then
       se_modify (count_input i_name);;
       let i_shape := default i_shape (_shape self !! i_name) in
       let dtype := input_dtype self i_name d_type in
       var_name ← (if _sanitize self then _sanitize_name i_name else mret i_name);
       se_modify (set_nodes (<[i_name := _new_var var_name i_shape dtype]>))
     else mret tt);;
    value ← nodes_getitem i_name;
    se_modify (set_inputs (dict_set i_name value)).

Definition _parse_graph_input (graph : GraphProto) : Method unit :=
    se_for (g_input graph) parse_input.

  (** *** _check_for_unsupported_ops *)

  (** The set of the operators of the graph that are not supported; the
      message lists it in the order of [elements]. *)
Definition unsupported_ops (graph : GraphProto) : gset string :=
    let convert_map := _get_convert_map ext in
    foldl (λ unsupported_ops node,
             let op_name := n_op_type node in
             if bool_decide (convert_map !! op_name = None) && bool_decide (op_name ≠ "Constant")
             then unsupported_ops ∪ {[op_name]}
             else unsupported_ops)
          ∅ (g_node graph).

Definition _check_for_unsupported_ops (graph : GraphProto) : Method unit :=
    let unsupported_ops := unsupported_ops graph in
    if decide (unsupported_ops ≠ ∅) then
      let msg := "The following operators are not supported for frontend ONNX: " in
      let msg := msg +:+ String.concat ", " (elements unsupported_ops) in
      se_raise (OpNotImplemented msg)
    else mret tt.

  (** *** _convert_operator *)

  (** Runs a converter method on the importer's block builder and the
      attribute dictionary of the node. *)
Definition call_impl (op_function : Impl) (inputs : onnx_input.t Expr) (attrs : Attrs)
      : Method (option Expr) := λ self,
    let '(sym, st) := op_function inputs {| cs_bb := bb self; cs_attr := attrs |} in
    (sym, set_bb (cs_bb st) self).

Definition _convert_operator (op_name : string) (inputs : onnx_input.t Expr)
      (attrs : Attrs) (opset : Z) : Method (option Expr) :=
    let convert_map := _get_convert_map ext in
    match convert_map !! op_name with
    | Some (_, convert_class) =>
        op_function ← se_lift (get_converter convert_class opset);
        call_impl op_function inputs attrs
    | None =>
        se_raise (NotImplementedError ("Operator " +:+ op_name +:+ " not implemented."))
    end.

  (** [_convert_operator] on an importer whose [opset] is still [None]: the
      operator is looked up first, and [get_converter(None)] fails where it
      sorts the versions with [None], unless the class has no version. *)
Definition convert_without_opset (op_name : string) : Method (option Expr) :=
    let convert_map := _get_convert_map ext in
    match convert_map !! op_name with
    | Some (_, convert_class) =>
        if decide (cls_impl convert_class = ∅) then
          se_raise (NotImplementedError
                      ("opset version None of " +:+ cls_name convert_class +:+
                       " not implemented"))
        else
          se_raise (TypeError
                      "'<' not supported between instances of 'NoneType' and 'int'")
    | None =>
        se_raise (NotImplementedError ("Operator " +:+ op_name +:+ " not implemented."))
    end.

  (** *** _construct_nodes *)

  (** What the loop below stores for an input name: [None] for the empty
      name, the binding of the name otherwise. *)
Definition input_value (self : ONNXGraphImporter) (name : string) : option Expr :=
    if decide (name ≠ "") then _nodes self !! name else None.

  (** The loop that fills the [onnx_input] of a node. *)
Fixpoint collect_inputs (names : list string) (inputs : onnx_input.t Expr)
      : Method (onnx_input.t Expr) :=
    match names with
    | [] => mret inputs
    | i :: rest =>
        if decide (i ≠ "") then
          value ← nodes_getitem i;
          collect_inputs rest (inputs ++ [Some value])
        else collect_inputs rest (inputs ++ [None])
    end.

  (** [self.bb.emit(value)] *)
Definition bb_emit (value : Expr) : Method Expr := λ self,
    let '(var, b) := BlockBuilder.emit value (bb self) in
    (Ok var, set_bb b self).

  (** [self.bb.emit_output(value)] *)
Definition bb_emit_output (value : Expr) : Method Expr := λ self,
    let '(var, b) := BlockBuilder.emit_output value (bb self) in
    (Ok var, set_bb b self).

  (** [op[i]] of a [relax.Tuple] *)
Definition tuple_getitem (op : Expr) (i : nat) : result Expr :=
    match op with
    | Tuple fields =>
        match fields !! i with
        | Some e => Ok e
        | None => Raise (IndexError "Tuple index out of range")
        end
    | _ => Raise (TypeError "object is not subscriptable")
    end.

  (** The end of the loop of [_construct_nodes]: the declared outputs of the
      node are bound in [self._nodes], by plain assignments. *)
Definition bind_outputs (outputs : list string) (op : Expr) (outputs_num : nat)
      : Method unit :=
    if decide (outputs_num = 1%nat) then
      k ← se_lift (PyList.getitem outputs 0);
      se_modify (set_nodes (<[k := op]>))
    else
      se_for (zip outputs (seq 0 (length outputs))) (λ '(k, i),
        value ← se_lift (tuple_getitem op i);
        se_modify (set_nodes (<[k := value]>))).

  (** The assignments [nodes[k] = v] for the pairs of [bindings], in order. *)
Definition insert_all (bindings : list (string * Expr)) (nodes : gmap string Expr)
      : gmap string Expr :=
    foldl (λ nodes kv, <[kv.1 := kv.2]> nodes) nodes bindings.

  (** The body of the loop of [_construct_nodes]. *)
Definition construct_node (node : NodeProto) : Method unit :=
    let op_name := n_op_type node in
    attr ← se_lift (_parse_attr (n_attribute node));
    inputs ← collect_inputs (n_input node) [];
    let i_name := n_name node in
    let outputs := n_output node in
    let attr := <["tvm_custom" := ATvmCustom i_name (length outputs)]> attr in
    self ← se_get;
    op ← (match opset self with
          | Some opset => _convert_operator op_name inputs attr opset
          | None => convert_without_opset op_name
          end);
    op ← se_lift (BlockBuilder.normalize op);
    '(op, outputs_num) ←
      (match op with
       | Tuple fields => mret (op, length fields)
       | _ =>
           match struct_info op with
           | TupleStructInfo fields =>
               tuple_items ← mapM (λ i, bb_emit (TupleGetItem op i)) (seq 0 (length fields));
               mret (Tuple tuple_items, length tuple_items)
           | _ => mret (op, 1%nat)
           end
       end);
    if decide (length outputs ≤ outputs_num)%nat then
      bind_outputs outputs op outputs_num
    else
      se_raise (AssertionError "Missing outputs during conversion.").

Definition _construct_nodes (graph : GraphProto) : Method unit :=
    se_for (g_node graph) construct_node.

  (** *** from_onnx *)

Definition ONNXGraphImporter_from_onnx (graph : GraphProto) (opset : Z) : Method IRModule :=
    se_modify (set_opset opset);;
    _parse_graph_initializers graph;;
    _parse_graph_input graph;;
    _check_for_unsupported_ops graph;;
    _construct_nodes graph;;
    outputs ← mapM (λ i, nodes_getitem (vi_name i)) (g_output graph);
    outputs ← (match outputs with
               | [output] => mret output
               | _ => mret (Tuple outputs)
               end);
    self ← se_get;
    let param_list := (filter (λ kv, is_Var kv.2) (_inputs self)).*2 in
    output_var ← bb_emit_output outputs;
    se_modify (λ self,
      set_bb (BlockBuilder.emit_func_output "main" output_var param_list (bb self)) self);;
    se_gets (λ self, BlockBuilder.get (bb self)).

  (** *** What a stage leaves of the importer *)

  (** Between two states of the importer: the block builder is the same, and
      the names bound are those bound before or among [names]. *)
Definition only_binds (names : list string) : relation ONNXGraphImporter :=
    λ self self',
      bb self' = bb self ∧
      ∀ k, is_Some (_nodes self' !! k) → is_Some (_nodes self !! k) ∨ k ∈ names.

  (** Between two states of the importer: the opset is the same. *)
Definition same_opset : relation ONNXGraphImporter :=
    λ self self', opset self' = opset self.

  (** The import of [graph] gets to [node], after the nodes [pre], with the
      importer in state [self']: the stages before [_construct_nodes] and the
      conversion of [pre] have completed. *)
Definition reaches (graph : GraphProto) (opset : Z) (self : ONNXGraphImporter)
      (pre : list NodeProto) (node : NodeProto) (self' : ONNXGraphImporter) : Prop :=
    ∃ post s1 s2,
      g_node graph = pre ++ node :: post ∧
      _parse_graph_initializers graph (set_opset opset self) = (Ok tt, s1) ∧
      _parse_graph_input graph s1 = (Ok tt, s2) ∧
      unsupported_ops graph = ∅ ∧
      se_for pre construct_node s2 = (Ok tt, self').

End methods.

(** ** from_onnx *)

(** The opset the model declares for the default domain, [1] without one. *)
Fixpoint opset_in_model (opset_import : list OperatorSetIdProto) : Z :=
  match opset_import with
  | [] => 1
  | opset_identifier :: rest =>
      if bool_decide (os_domain opset_identifier ∈ ["ai.onnx"; ""])
      then os_version opset_identifier
      else opset_in_model rest
  end.

(** The [target] argument: a string or a [Target] object, an object being
    known by a string. *)
Inductive TargetArg : Type :=
  | TargetStr (target : string)
  | TargetObj (target : string).

(** The entry point. The model checker of [onnx] and the opset warning only
    print warnings. The importer is returned next to the result, with what
    the import left in it. *)
Definition from_onnx (ext : Externals) (model : ModelProto)
    (shape : option (gmap string (list PrimExpr))) (dtype : DtypeArg)
    (opset : option Z) (target : TargetArg) (sanitize_input_names : bool)
    : result IRModule * option ONNXGraphImporter :=
  if decide (ir_version model < 3) then
    (Raise (ValueError "Model IR version not supported. Must be at least after 1.1.0."), None)
  else
    match (match target with
           | TargetStr target => Target ext target
           | TargetObj target => Ok target
           end) with
    | Raise e => (Raise e, None)
    | Ok target =>
        let g := ONNXGraphImporter_init shape dtype target sanitize_input_names in
        let graph := graph model in
        let opset_in_model := opset_in_model (opset_import model) in
        let opset := default opset_in_model opset in
        let '(r, g) := ONNXGraphImporter_from_onnx ext graph opset g in
        (r, Some g)
    end.

(** ** An instance to run the importer *)

(** Externals to evaluate the importer on concrete graphs: [to_array] reads
    the fields of a [TensorProto] and rejects any other object, the type
    table is the one of ONNX for the numeric types, a TE result has no
    deduced shape, the name supply is [spec_fresh_name] below; the converters
    taken from outside are not available. The quotient of [Reshape] is
    computed as numpy does for a divisor within 64 bits: the product of the
    64-bit integers with wrap-around, then the division of numbers of type
    double and the integer part. The letters beyond ASCII are those of
    [unicode_letters]. Of the target strings, this instance knows [llvm]
    and refuses any other. *)
Definition onnx_type_table : gmap Z string :=
  list_to_map [(1, "float32"); (2, "uint8"); (3, "int8"); (4, "uint16"); (5, "int16");
               (6, "int32"); (7, "int64"); (9, "bool"); (10, "float16"); (11, "float64");
               (12, "uint32"); (13, "uint64")].

(** Modelled from the spec: [NameSupply.fresh_name] (tvm.ir.supply, not under
    src/). The spec says of it that an empty name becomes [empty_N], that an
    input with the empty name becomes [empty_0] on first occurrence and
    [empty_1] on a second, and that duplicates are disambiguated by an
    incrementing suffix supply: the supply appends to the requested prefix
    the number of times this prefix was requested before. *)
Definition spec_fresh_name (requested : list string) (prefix : string) : string :=
  prefix +:+ pretty (length (filter (λ p, p = prefix) requested)).

(** The letters beyond ASCII, as ranges of code points: the characters of
    the categories Lu, Ll, Lt, Lm and Lo of Unicode 14.0, the database of
    Python 3.11. *)
Definition unicode_letters : list (N * N) :=
  [(170, 170); (181, 181); (186, 186); (192, 214); (216, 246); (248, 705); (710, 721);
   (736, 740); (748, 748); (750, 750); (880, 884); (886, 887); (890, 893); (895, 895);
   (902, 902); (904, 906); (908, 908); (910, 929); (931, 1013); (1015, 1153); (1162, 1327);
   (1329, 1366); (1369, 1369); (1376, 1416); (1488, 1514); (1519, 1522); (1568, 1610);
   (1646, 1647); (1649, 1747); (1749, 1749); (1765, 1766); (1774, 1775); (1786, 1788);
   (1791, 1791); (1808, 1808); (1810, 1839); (1869, 1957); (1969, 1969); (1994, 2026);
   (2036, 2037); (2042, 2042); (2048, 2069); (2074, 2074); (2084, 2084); (2088, 2088);
   (2112, 2136); (2144, 2154); (2160, 2183); (2185, 2190); (2208, 2249); (2308, 2361);
   (2365, 2365); (2384, 2384); (2392, 2401); (2417, 2432); (2437, 2444); (2447, 2448);
   (2451, 2472); (2474, 2480); (2482, 2482); (2486, 2489); (2493, 2493); (2510, 2510);
   (2524, 2525); (2527, 2529); (2544, 2545); (2556, 2556); (2565, 2570); (2575, 2576);
   (2579, 2600); (2602, 2608); (2610, 2611); (2613, 2614); (2616, 2617); (2649, 2652);
   (2654, 2654); (2674, 2676); (2693, 2701); (2703, 2705); (2707, 2728); (2730, 2736);
   (2738, 2739); (2741, 2745); (2749, 2749); (2768, 2768); (2784, 2785); (2809, 2809);
   (2821, 2828); (2831, 2832); (2835, 2856); (2858, 2864); (2866, 2867); (2869, 2873);
   (2877, 2877); (2908, 2909); (2911, 2913); (2929, 2929); (2947, 2947); (2949, 2954);
   (2958, 2960); (2962, 2965); (2969, 2970); (2972, 2972); (2974, 2975); (2979, 2980);
   (2984, 2986); (2990, 3001); (3024, 3024); (3077, 3084); (3086, 3088); (3090, 3112);
   (3114, 3129); (3133, 3133); (3160, 3162); (3165, 3165); (3168, 3169); (3200, 3200);
   (3205, 3212); (3214, 3216); (3218, 3240); (3242, 3251); (3253, 3257); (3261, 3261);
   (3293, 3294); (3296, 3297); (3313, 3314); (3332, 3340); (3342, 3344); (3346, 3386);
   (3389, 3389); (3406, 3406); (3412, 3414); (3423, 3425); (3450, 3455); (3461, 3478);
   (3482, 3505); (3507, 3515); (3517, 3517); (3520, 3526); (3585, 3632); (3634, 3635);
   (3648, 3654); (3713, 3714); (3716, 3716); (3718, 3722); (3724, 3747); (3749, 3749);
   (3751, 3760); (3762, 3763); (3773, 3773); (3776, 3780); (3782, 3782); (3804, 3807);
   (3840, 3840); (3904, 3911); (3913, 3948); (3976, 3980); (4096, 4138); (4159, 4159);
   (4176, 4181); (4186, 4189); (4193, 4193); (4197, 4198); (4206, 4208); (4213, 4225);
   (4238, 4238); (4256, 4293); (4295, 4295); (4301, 4301); (4304, 4346); (4348, 4680);
   (4682, 4685); (4688, 4694); (4696, 4696); (4698, 4701); (4704, 4744); (4746, 4749);
   (4752, 4784); (4786, 4789); (4792, 4798); (4800, 4800); (4802, 4805); (4808, 4822);
   (4824, 4880); (4882, 4885); (4888, 4954); (4992, 5007); (5024, 5109); (5112, 5117);
   (5121, 5740); (5743, 5759); (5761, 5786); (5792, 5866); (5873, 5880); (5888, 5905);
   (5919, 5937); (5952, 5969); (5984, 5996); (5998, 6000); (6016, 6067); (6103, 6103);
   (6108, 6108); (6176, 6264); (6272, 6276); (6279, 6312); (6314, 6314); (6320, 6389);
   (6400, 6430); (6480, 6509); (6512, 6516); (6528, 6571); (6576, 6601); (6656, 6678);
   (6688, 6740); (6823, 6823); (6917, 6963); (6981, 6988); (7043, 7072); (7086, 7087);
   (7098, 7141); (7168, 7203); (7245, 7247); (7258, 7293); (7296, 7304); (7312, 7354);
   (7357, 7359); (7401, 7404); (7406, 7411); (7413, 7414); (7418, 7418); (7424, 7615);
   (7680, 7957); (7960, 7965); (7968, 8005); (8008, 8013); (8016, 8023); (8025, 8025);
   (8027, 8027); (8029, 8029); (8031, 8061); (8064, 8116); (8118, 8124); (8126, 8126);
   (8130, 8132); (8134, 8140); (8144, 8147); (8150, 8155); (8160, 8172); (8178, 8180);
   (8182, 8188); (8305, 8305); (8319, 8319); (8336, 8348); (8450, 8450); (8455, 8455);
   (8458, 8467); (8469, 8469); (8473, 8477); (8484, 8484); (8486, 8486); (8488, 8488);
   (8490, 8493); (8495, 8505); (8508, 8511); (8517, 8521); (8526, 8526); (8579, 8580);
   (11264, 11492); (11499, 11502); (11506, 11507); (11520, 11557); (11559, 11559);
   (11565, 11565); (11568, 11623); (11631, 11631); (11648, 11670); (11680, 11686);
   (11688, 11694); (11696, 11702); (11704, 11710); (11712, 11718); (11720, 11726);
   (11728, 11734); (11736, 11742); (11823, 11823); (12293, 12294); (12337, 12341);
   (12347, 12348); (12353, 12438); (12445, 12447); (12449, 12538); (12540, 12543);
   (12549, 12591); (12593, 12686); (12704, 12735); (12784, 12799); (13312, 19903);
   (19968, 42124); (42192, 42237); (42240, 42508); (42512, 42527); (42538, 42539);
   (42560, 42606); (42623, 42653); (42656, 42725); (42775, 42783); (42786, 42888);
   (42891, 42954); (42960, 42961); (42963, 42963); (42965, 42969); (42994, 43009);
   (43011, 43013); (43015, 43018); (43020, 43042); (43072, 43123); (43138, 43187);
   (43250, 43255); (43259, 43259); (43261, 43262); (43274, 43301); (43312, 43334);
   (43360, 43388); (43396, 43442); (43471, 43471); (43488, 43492); (43494, 43503);
   (43514, 43518); (43520, 43560); (43584, 43586); (43588, 43595); (43616, 43638);
   (43642, 43642); (43646, 43695); (43697, 43697); (43701, 43702); (43705, 43709);
   (43712, 43712); (43714, 43714); (43739, 43741); (43744, 43754); (43762, 43764);
   (43777, 43782); (43785, 43790); (43793, 43798); (43808, 43814); (43816, 43822);
   (43824, 43866); (43868, 43881); (43888, 44002); (44032, 55203); (55216, 55238);
   (55243, 55291); (63744, 64109); (64112, 64217); (64256, 64262); (64275, 64279);
   (64285, 64285); (64287, 64296); (64298, 64310); (64312, 64316); (64318, 64318);
   (64320, 64321); (64323, 64324); (64326, 64433); (64467, 64829); (64848, 64911);
   (64914, 64967); (65008, 65019); (65136, 65140); (65142, 65276); (65313, 65338);
   (65345, 65370); (65382, 65470); (65474, 65479); (65482, 65487); (65490, 65495);
   (65498, 65500); (65536, 65547); (65549, 65574); (65576, 65594); (65596, 65597);
   (65599, 65613); (65616, 65629); (65664, 65786); (66176, 66204); (66208, 66256);
   (66304, 66335); (66349, 66368); (66370, 66377); (66384, 66421); (66432, 66461);
   (66464, 66499); (66504, 66511); (66560, 66717); (66736, 66771); (66776, 66811);
   (66816, 66855); (66864, 66915); (66928, 66938); (66940, 66954); (66956, 66962);
   (66964, 66965); (66967, 66977); (66979, 66993); (66995, 67001); (67003, 67004);
   (67072, 67382); (67392, 67413); (67424, 67431); (67456, 67461); (67463, 67504);
   (67506, 67514); (67584, 67589); (67592, 67592); (67594, 67637); (67639, 67640);
   (67644, 67644); (67647, 67669); (67680, 67702); (67712, 67742); (67808, 67826);
   (67828, 67829); (67840, 67861); (67872, 67897); (67968, 68023); (68030, 68031);
   (68096, 68096); (68112, 68115); (68117, 68119); (68121, 68149); (68192, 68220);
   (68224, 68252); (68288, 68295); (68297, 68324); (68352, 68405); (68416, 68437);
   (68448, 68466); (68480, 68497); (68608, 68680); (68736, 68786); (68800, 68850);
   (68864, 68899); (69248, 69289); (69296, 69297); (69376, 69404); (69415, 69415);
   (69424, 69445); (69488, 69505); (69552, 69572); (69600, 69622); (69635, 69687);
   (69745, 69746); (69749, 69749); (69763, 69807); (69840, 69864); (69891, 69926);
   (69956, 69956); (69959, 69959); (69968, 70002); (70006, 70006); (70019, 70066);
   (70081, 70084); (70106, 70106); (70108, 70108); (70144, 70161); (70163, 70187);
   (70272, 70278); (70280, 70280); (70282, 70285); (70287, 70301); (70303, 70312);
   (70320, 70366); (70405, 70412); (70415, 70416); (70419, 70440); (70442, 70448);
   (70450, 70451); (70453, 70457); (70461, 70461); (70480, 70480); (70493, 70497);
   (70656, 70708); (70727, 70730); (70751, 70753); (70784, 70831); (70852, 70853);
   (70855, 70855); (71040, 71086); (71128, 71131); (71168, 71215); (71236, 71236);
   (71296, 71338); (71352, 71352); (71424, 71450); (71488, 71494); (71680, 71723);
   (71840, 71903); (71935, 71942); (71945, 71945); (71948, 71955); (71957, 71958);
   (71960, 71983); (71999, 71999); (72001, 72001); (72096, 72103); (72106, 72144);
   (72161, 72161); (72163, 72163); (72192, 72192); (72203, 72242); (72250, 72250);
   (72272, 72272); (72284, 72329); (72349, 72349); (72368, 72440); (72704, 72712);
   (72714, 72750); (72768, 72768); (72818, 72847); (72960, 72966); (72968, 72969);
   (72971, 73008); (73030, 73030); (73056, 73061); (73063, 73064); (73066, 73097);
   (73112, 73112); (73440, 73458); (73648, 73648); (73728, 74649); (74880, 75075);
   (77712, 77808); (77824, 78894); (82944, 83526); (92160, 92728); (92736, 92766);
   (92784, 92862); (92880, 92909); (92928, 92975); (92992, 92995); (93027, 93047);
   (93053, 93071); (93760, 93823); (93952, 94026); (94032, 94032); (94099, 94111);
   (94176, 94177); (94179, 94179); (94208, 100343); (100352, 101589); (101632, 101640);
   (110576, 110579); (110581, 110587); (110589, 110590); (110592, 110882); (110928, 110930);
   (110948, 110951); (110960, 111355); (113664, 113770); (113776, 113788); (113792, 113800);
   (113808, 113817); (119808, 119892); (119894, 119964); (119966, 119967); (119970, 119970);
   (119973, 119974); (119977, 119980); (119982, 119993); (119995, 119995); (119997, 120003);
   (120005, 120069); (120071, 120074); (120077, 120084); (120086, 120092); (120094, 120121);
   (120123, 120126); (120128, 120132); (120134, 120134); (120138, 120144); (120146, 120485);
   (120488, 120512); (120514, 120538); (120540, 120570); (120572, 120596); (120598, 120628);
   (120630, 120654); (120656, 120686); (120688, 120712); (120714, 120744); (120746, 120770);
   (120772, 120779); (122624, 122654); (123136, 123180); (123191, 123197); (123214, 123214);
   (123536, 123565); (123584, 123627); (124896, 124902); (124904, 124907); (124909, 124910);
   (124912, 124926); (124928, 125124); (125184, 125251); (125259, 125259); (126464, 126467);
   (126469, 126495); (126497, 126498); (126500, 126500); (126503, 126503); (126505, 126514);
   (126516, 126519); (126521, 126521); (126523, 126523); (126530, 126530); (126535, 126535);
   (126537, 126537); (126539, 126539); (126541, 126543); (126545, 126546); (126548, 126548);
   (126551, 126551); (126553, 126553); (126555, 126555); (126557, 126557); (126559, 126559);
   (126561, 126562); (126564, 126564); (126567, 126570); (126572, 126578); (126580, 126583);
   (126585, 126588); (126590, 126590); (126592, 126601); (126603, 126619); (126625, 126627);
   (126629, 126633); (126635, 126651); (131072, 173791); (173824, 177976); (177984, 178205);
   (178208, 183969); (183984, 191456); (194560, 195101); (196608, 201546)]%N.

(** The number of type [double] nearest to an integer, and the integer part
    of a number of type [double]. *)
Definition float_of_int (z : Z) : SpecFloat.spec_float :=
  match z with
  | Z0 => SpecFloat.S754_zero false
  | Zpos _ => SpecFloat.binary_normalize 53 1024 z 0 false
  | Zneg _ => SpecFloat.binary_normalize 53 1024 z 0 true
  end.

Definition int_of_float (f : SpecFloat.spec_float) : result Z :=
  match f with
  | SpecFloat.S754_zero _ => Ok 0
  | SpecFloat.S754_finite s m e =>
      let a := if decide (0 ≤ e) then Z.pos m * 2 ^ e else Z.pos m `quot` 2 ^ (- e) in
      Ok (if s then - a else a)
  | SpecFloat.S754_infinity _ => Raise (OverflowError "cannot convert float infinity to integer")
  | SpecFloat.S754_nan => Raise (ValueError "cannot convert float NaN to integer")
  end.

(** The value of a 64-bit integer after wrap-around. *)
Definition wrap_int64 (z : Z) : Z :=
  (z + 2 ^ 63) `mod` 2 ^ 64 - 2 ^ 63.

Definition eval_externals : Externals :=
  {| to_array := λ v,
       match v with
       | ATensor t =>
           match onnx_type_table !! t_data_type t with
           | Some dtype => Ok {| nd_dtype := dtype; nd_shape := t_dims t; nd_data := t_data t |}
           | None => Raise (KeyError (pretty (t_data_type t)))
           end
       | _ => Raise (AttributeError "object has no attribute 'HasField'")
       end;
     TENSOR_TYPE_TO_NP_TYPE := onnx_type_table;
     te_infer := λ _ _ _, Ok (TensorStructInfo None None);
     native_impl := λ name _ _, se_raise (NotImplementedError name);
     relay_impl := λ _, ∅;
     supply_fresh_name := spec_fresh_name;
     np_prod_div := λ data_shape new_product,
       let total_elements :=
         match data_shape with
         | [] => float_of_int 1
         | _ => float_of_int (foldl (λ acc dim, wrap_int64 (acc * dim)) 1 data_shape)
         end in
       int_of_float (SpecFloat.SFdiv 53 1024 total_elements (float_of_int new_product));
     unicode_isalpha := λ c,
       existsb (λ range, (range.1 <=? c)%N && (c <=? range.2)%N) unicode_letters;
     Target := λ target,
       if decide (target = "llvm") then Ok "llvm"
       else Raise (ValueError ("Target kind " +:+ target +:+ " is not defined")) |}.

(** A converter class with the methods [_impl_v1], [_impl_v7] and
    [_impl_v13], each known by its name. *)
Definition family_1_7_13 : ConverterClass string :=
  {| cls_name := "Family"; cls_impl := {[1 := "v1"; 7 := "v7"; 13 := "v13"]} |}.

(** An attribute with only its name set. *)
Definition empty_attribute (name : string) : AttributeProto :=
  Build_AttributeProto name None None None None None [] [] [] [] [].

Definition empty_graph : GraphProto := Build_GraphProto [] [] [] [].

(** An attribute of a control-flow node whose only populated field is the
    single graph [g], and one whose only populated field is [graphs]. *)
Definition body_attribute : AttributeProto :=
  Build_AttributeProto "body" None None None (Some empty_graph) None [] [] [] [] [].

Definition graphs_attribute : AttributeProto :=
  Build_AttributeProto "branches" None None None None None [] [] [] [] [empty_graph].

(** ** Example models *)

(** The initializer [w], an [int64] vector, and a [float32] graph input or
    output of two elements. *)
Definition tensor_w : TensorProto :=
  {| t_name := "w"; t_dims := [2]; t_data_type := 7; t_data := [1; 2] |}.

Definition float_value (name : string) : ValueInfoProto :=
  {| vi_name := name;
     vi_dim := [{| dim_param := ""; dim_value := Some 2 |}];
     vi_elem_type := 1 |}.

Definition model_of (graph : GraphProto) : ModelProto :=
  {| ir_version := 8;
     opset_import := [{| os_domain := ""; os_version := 13 |}];
     graph := graph |}.

(** The entry point with its default arguments. *)
Definition import (model : ModelProto) : result IRModule * option ONNXGraphImporter :=
  from_onnx eval_externals model None (DtypeStr "float32") None (TargetStr "llvm") true.

(** [y = Identity(w)] for the initializer [w]. *)
Definition identity_model : ModelProto :=
  model_of (Build_GraphProto
    [Build_NodeProto "n0" "Identity" ["w"] ["y"] []]
    [tensor_w] [] [float_value "y"]).

(** A node of an operator that is not in the catalog, in a graph whose
    initializer has a blank name. *)
Definition unnamed_initializer_model : ModelProto :=
  model_of (Build_GraphProto
    [Build_NodeProto "n0" "Foo" ["a"] ["y"] []]
    [{| t_name := " "; t_dims := [2]; t_data_type := 7; t_data := [1; 2] |}]
    [float_value "a"] [float_value "y"]).

(** A node of an operator that is not in the catalog, after a node that is. *)
Definition unsupported_graph : GraphProto :=
  Build_GraphProto
    [Build_NodeProto "n0" "Identity" ["a"] ["z"] [];
     Build_NodeProto "n1" "Foo" ["z"] ["y"] []]
    [tensor_w] [float_value "a"] [float_value "y"].

(** A node whose output has the name of the initializer [w]. *)
Definition collision_model : ModelProto :=
  model_of (Build_GraphProto
    [Build_NodeProto "n0" "Identity" ["a"] ["w"] []]
    [tensor_w] [float_value "a"] [float_value "w"]).

(** Two graph inputs named with the empty string. *)
Definition two_blank_inputs_model : ModelProto :=
  model_of (Build_GraphProto [] [] [float_value ""; float_value ""] [float_value ""]).

(** [y = Reshape(a, s)] and [y = Tile(a, s)] where the shape and the repeat
    counts [s] are a graph input. *)
Definition dynamic_reshape_model : ModelProto :=
  model_of (Build_GraphProto
    [Build_NodeProto "n0" "Reshape" ["a"; "s"] ["y"] []]
    [] [float_value "a"; float_value "s"] [float_value "y"]).

Definition dynamic_tile_graph : GraphProto :=
  Build_GraphProto
    [Build_NodeProto "n0" "Tile" ["a"; "s"] ["y"] []]
    [] [float_value "a"; float_value "s"] [float_value "y"].

(** The variable the importer makes for the [float32] input [name]. *)
Definition float_var (var_name : string) : Expr :=
  Var var_name (TensorStructInfo (Some [IntImm 2]) (Some "float32")).

(** A module whose [main] returns the value [value] bound to the output
    variable, with the parameters [params]. *)
Definition returning (params : list Expr) (value : Expr) : IRModule :=
  let output := Var "gv0" (struct_info value) in
  {| mod_functions :=
       [("main", {| fn_params := params; fn_body := [(output, value)]; fn_ret := output |})] |}.

(** ** What the loop of [_parse_graph_input] keeps *)

(** The state [s] of the importer after the inputs [seen] were read from the
    state [self0]: the inputs registered are the ones read, each once; the
    names counted are the ones that had no binding in [self0]; a registered
    input is bound to its value, which is the binding of [self0] when there
    was one and else a variable made from an input of this name; the other
    names keep their binding. *)
Definition inputs_parsed (ext : Externals) (self0 : ONNXGraphImporter)
    (seen : list ValueInfoProto) (s : ONNXGraphImporter) : Prop :=
  (_shape s = _shape self0 ∧ _dtype s = _dtype self0 ∧ _sanitize s = _sanitize self0) ∧
  (NoDup (_inputs s).*1 ∧ ∀ k, k ∈ (_inputs s).*1 ↔ k ∈ vi_name <$> seen) ∧
  (NoDup (_input_names s) ∧
   ∀ k, k ∈ _input_names s ↔ k ∈ vi_name <$> seen ∧ _nodes self0 !! k = None) ∧
  _num_input s = _num_input self0 + Z.of_nat (length (_input_names s)) ∧
  (∀ k v, (k, v) ∈ _inputs s →
     _nodes s !! k = Some v ∧
     match _nodes self0 !! k with
     | Some e => v = e
     | None =>
         ∃ i shape dtype shape_name var_name,
           i ∈ seen ∧ get_info ext i = Ok (k, shape, dtype, shape_name) ∧
           v = _new_var var_name (default shape (_shape self0 !! k))
                 (input_dtype self0 k dtype) ∧
           (_sanitize self0 = false → var_name = k)
     end) ∧
  (∀ k, k ∉ vi_name <$> seen → _nodes s !! k = _nodes self0 !! k).

(** ** The outputs of a converted node *)

(** The number of outputs [_construct_nodes] counts for the result [op] of a
    converter without emitting anything: the number of fields of a tuple
    expression, [1] for an expression that is not of a tuple type; an
    expression of a tuple type that is not a tuple expression is unpacked
    first. *)
Definition result_arity (op : Expr) : option nat :=
  match op with
  | Tuple fields => Some (length fields)
  | _ =>
      match struct_info op with
      | TupleStructInfo _ => None
      | _ => Some 1%nat
      end
  end.

(** ** What an import keeps *)

(** Between two states of the importer: the names bound are still bound, and
    the settings the importer was made with are the same. *)
Definition import_keeps : relation ONNXGraphImporter :=
  λ self self',
    (∀ k, is_Some (_nodes self !! k) → is_Some (_nodes self' !! k)) ∧
    _shape self' = _shape self ∧ _dtype self' = _dtype self ∧
    _target self' = _target self ∧ _sanitize self' = _sanitize self.

(** * Properties *)

(** * The version resolver *)

Section resolver.
  Context {I : Type}.
  Implicit Types (cls : ConverterClass I) (opset v m : Z) (l A B : list Z).

Lemma filter_none (P : Z → Prop) `{!∀ x, Decision (P x)} l :
    (∀ x, x ∈ l → ¬ P x) → filter P l = [].
  Proof.
    induction l as [|x l IH]; intros Hl; [done|].
    rewrite filter_cons_False by (apply Hl; by left).
    apply IH. intros y Hy. apply Hl. by right.
  Qed.

Lemma filter_all (P : Z → Prop) `{!∀ x, Decision (P x)} l :
    (∀ x, x ∈ l → P x) → filter P l = l.
  Proof.
    induction l as [|x l IH]; intros Hl; [done|].
    rewrite filter_cons_True by (apply Hl; by left).
    f_equal. apply IH. intros y Hy. apply Hl. by right.
  Qed.

Lemma elem_of_declared_versions cls v :
    v ∈ declared_versions cls ↔ v ∈ dom (cls_impl cls).
  Proof.
    unfold declared_versions. rewrite elem_of_dom, list_elem_of_fmap. split.
    - intros [[k x] [-> Hin]]. apply elem_of_map_to_list in Hin. by exists x.
    - intros [x Hx]. exists (v, x). split; [done|]. by apply elem_of_map_to_list.
  Qed.

  (** Where the requested opset lands in the sorted list: after the
      versions at or below it, before the versions above it. *)
Lemma sorted_insert_split l opset :
    PyList.sorted (l ++ [opset]) =
      PyList.sorted (filter (λ v, v ≤ opset) l) ++
      opset :: PyList.sorted (filter (λ v, ¬ v ≤ opset) l).
  Proof.
    unfold PyList.sorted.
    apply (StronglySorted_unique Z.le).
    - apply StronglySorted_merge_sort; apply _.
    - apply StronglySorted_app. split_and!.
      + intros x1 x2 H1 H2.
        rewrite merge_sort_Permutation in H1. apply list_elem_of_filter in H1 as [H1 _].
        apply elem_of_cons in H2 as [->|H2]; [done|].
        rewrite merge_sort_Permutation in H2. apply list_elem_of_filter in H2 as [H2 _].
        lia.
      + apply StronglySorted_merge_sort; apply _.
      + apply StronglySorted_cons. split.
        * apply Forall_forall. intros x Hx.
          rewrite merge_sort_Permutation in Hx. apply list_elem_of_filter in Hx as [Hx _].
          lia.
        * apply StronglySorted_merge_sort; apply _.
    - rewrite !merge_sort_Permutation.
      rewrite <-(filter_app_complement (λ v, v ≤ opset) l) at 1.
      rewrite <-!app_assoc. f_equiv. by rewrite <-Permutation_cons_append.
  Qed.

Lemma getitem_nonneg {X} (xs : list X) (i : Z) (x : X) :
    0 ≤ i → xs !! Z.to_nat i = Some x → PyList.getitem xs i = Ok x.
  Proof.
    intros Hi Hx. unfold PyList.getitem.
    apply lookup_lt_Some in Hx as Hlt. cbv zeta.
    destruct (decide (i < 0)) as [|_]; [lia|].
    destruct (decide _) as [_|]; [|lia]. by rewrite Hx.
  Qed.

Lemma getitem_negative {X} (xs : list X) (i : Z) (x : X) :
    i < 0 → 0 ≤ i + Z.of_nat (length xs) →
    xs !! Z.to_nat (i + Z.of_nat (length xs)) = Some x →
    PyList.getitem xs i = Ok x.
  Proof.
    intros Hi Hlo Hx. unfold PyList.getitem.
    apply lookup_lt_Some in Hx as Hlt. cbv zeta.
    destruct (decide (i < 0)) as [_|]; [|lia].
    destruct (decide _) as [_|]; [|lia]. by rewrite Hx.
  Qed.

Lemma elem_of_positions_of opset l i :
    i ∈ positions_of opset l ↔ ∃ n : nat, i = Z.of_nat n ∧ l !! n = Some opset.
  Proof.
    unfold positions_of, PyList.enumerate. rewrite list_elem_of_fmap. split.
    - intros [[j x] [-> Hin]]. apply list_elem_of_filter in Hin as [Hx Hin].
      simpl in Hx. subst x.
      apply list_elem_of_lookup in Hin as [n Hn].
      rewrite list_lookup_imap in Hn.
      destruct (l !! n) as [y|] eqn:Hy; simplify_eq/=. eauto.
    - intros (n & -> & Hn). exists (Z.of_nat n, opset). split; [done|].
      apply list_elem_of_filter. split; [done|].
      apply list_elem_of_lookup. exists n. by rewrite list_lookup_imap, Hn.
  Qed.

Lemma foldl_max_spec l x :
    foldl Z.max x l ∈ x :: l ∧ Forall (λ y, y ≤ foldl Z.max x l) (x :: l).
  Proof.
    revert x. induction l as [|y l IH]; intros x; simpl.
    - split; [by left|]. repeat constructor. lia.
    - destruct (IH (x `max` y)) as [Hin Hall]. clear IH. split.
      + apply elem_of_cons in Hin as [Hin|Hin]; [|by do 2 right].
        rewrite Hin. destruct (Z.max_spec x y) as [[_ ->]|[_ ->]];
          [right; left|left]; done.
      + apply Forall_cons in Hall as [H1 Hall].
        repeat constructor; [lia..|done].
  Qed.

  (** [max] of the positions of a value returns its last position. *)
Lemma max_positions_of opset l (n : nat) :
    l !! n = Some opset →
    (∀ k : nat, (n < k)%nat → l !! k ≠ Some opset) →
    PyList.max (positions_of opset l) = Ok (Z.of_nat n).
  Proof.
    intros Hn Hlast.
    assert (Z.of_nat n ∈ positions_of opset l) as Hin
      by (apply elem_of_positions_of; eauto).
    destruct (positions_of opset l) as [|x ps] eqn:Hps; [set_solver|].
    simpl. f_equal.
    destruct (foldl_max_spec ps x) as [Hmax Hall].
    rewrite Forall_forall in Hall. specialize (Hall _ Hin).
    rewrite <-Hps in Hmax.
    apply elem_of_positions_of in Hmax as (k & Hk & Hlk).
    destruct (decide (n < k)%nat) as [Hlt|]; [by destruct (Hlast k Hlt)|]. lia.
  Qed.

Lemma max_positions_of_split A B opset :
    Forall (λ v, opset < v) B →
    PyList.max (positions_of opset (A ++ opset :: B)) = Ok (Z.of_nat (length A)).
  Proof.
    intros HB. apply max_positions_of.
    - by rewrite list_lookup_middle.
    - intros k Hk Hlk.
      rewrite lookup_app_r in Hlk by lia.
      destruct (k - length A)%nat as [|j] eqn:Hj; [lia|]. simpl in Hlk.
      rewrite Forall_forall in HB.
      apply list_elem_of_lookup_2 in Hlk. apply HB in Hlk. lia.
  Qed.

  (** The element before position [length A] of [A ++ opset :: B], in
      Python's indexing: the last of [A], and from the other end of the list
      when [A] is empty. *)
Lemma getitem_before_split A B opset :
    PyList.getitem (A ++ opset :: B) (Z.of_nat (length A) - 1) =
      Ok (match last A with
          | Some m => m
          | None => default opset (last B)
          end).
  Proof.
    destruct (last A) as [m|] eqn:Hlast.
    - rewrite last_lookup in Hlast.
      apply lookup_lt_Some in Hlast as Hlt.
      apply getitem_nonneg; [lia|].
      rewrite lookup_app_l by lia.
      by replace (Z.to_nat (Z.of_nat (length A) - 1)) with (pred (length A)) by lia.
    - apply last_None in Hlast. subst A. simpl.
      apply getitem_negative; simpl; [lia..|].
      rewrite last_lookup. destruct B as [|b0 B']; [done|]. simpl.
      replace (Z.to_nat (Z.of_nat 0 - 1 + Z.of_nat (S (S (length B')))))
        with (S (length B')) by lia.
      simpl.
      destruct (lookup_lt_is_Some_2 (b0 :: B') (length B')) as [y Hy]; [simpl; lia|].
      by rewrite Hy.
  Qed.

  (** The version [get_converter] settles on, in terms of the declared
      versions at or below the opset and of those above it, both sorted. *)
Lemma select_version_split cls opset :
    select_version cls opset =
      Ok (match last (PyList.sorted (filter (λ v, v ≤ opset) (declared_versions cls))) with
          | Some m => m
          | None =>
              default opset
                (last (PyList.sorted (filter (λ v, ¬ v ≤ opset) (declared_versions cls))))
          end).
  Proof.
    unfold select_version.
    rewrite sorted_insert_split.
    rewrite max_positions_of_split; last first.
    { apply Forall_forall. intros x Hx. unfold PyList.sorted in Hx.
      rewrite merge_sort_Permutation in Hx. apply list_elem_of_filter in Hx as [Hx _]. lia. }
    apply getitem_before_split.
  Qed.

  (** The last element of a sorted list is one of its elements and bounds
      them all. *)
Lemma last_sorted l m :
    last (PyList.sorted l) = Some m → m ∈ l ∧ ∀ v, v ∈ l → v ≤ m.
  Proof.
    intros Hlast.
    assert (StronglySorted Z.le (PyList.sorted l)) as Hsorted
      by (apply StronglySorted_merge_sort; apply _).
    assert (PyList.sorted l ≡ₚ l) as Hperm by apply merge_sort_Permutation.
    destruct (PyList.sorted l) as [|x xs] using rev_ind; [done|].
    rewrite last_snoc in Hlast. simplify_eq.
    split.
    - rewrite <-Hperm. apply elem_of_app. right. by left.
    - intros v Hv. rewrite <-Hperm in Hv.
      apply elem_of_app in Hv as [Hv|Hv].
      + eapply (StronglySorted_app_1_elem_of Z.le); [done..|by left].
      + apply list_elem_of_singleton in Hv. lia.
  Qed.

Lemma last_sorted_is_Some l : l ≠ [] → is_Some (last (PyList.sorted l)).
  Proof.
    intros Hl. rewrite last_is_Some. intros E. apply Hl.
    apply Permutation_nil_r. rewrite <-E. symmetry. apply merge_sort_Permutation.
  Qed.

  (** What [get_converter] does when some declared version is at or below
      the opset. *)
Lemma get_converter_at_or_below cls opset :
    (∃ v, v ∈ dom (cls_impl cls) ∧ v ≤ opset) →
    ∃ m, m ∈ dom (cls_impl cls) ∧ m ≤ opset ∧
         (∀ v, v ∈ dom (cls_impl cls) → v ≤ opset → v ≤ m) ∧
         selects cls opset m.
  Proof.
    intros (v & Hv & Hle).
    destruct (last_sorted_is_Some (filter (λ v, v ≤ opset) (declared_versions cls)))
      as [m Hm].
    { intros E. assert (v ∈ filter (λ v, v ≤ opset) (declared_versions cls)) as Hin.
      { apply list_elem_of_filter. split; [done|]. by apply elem_of_declared_versions. }
      rewrite E in Hin. by apply not_elem_of_nil in Hin. }
    pose proof (select_version_split cls opset) as Hsel. rewrite Hm in Hsel.
    apply last_sorted in Hm as [Hin Hmax].
    apply list_elem_of_filter in Hin as [Hmle Hin].
    apply elem_of_declared_versions in Hin.
    exists m. split_and!; [done..| |].
    - intros w Hw Hwle. apply Hmax. apply list_elem_of_filter. split; [done|].
      by apply elem_of_declared_versions.
    - split; [done|]. apply elem_of_dom in Hin as [impl Himpl].
      exists impl. split; [done|]. unfold get_converter. rewrite Hsel. simpl.
      by rewrite Himpl.
  Qed.

  (** What [get_converter] does when every declared version is above the
      opset. *)
Lemma get_converter_all_above cls opset :
    dom (cls_impl cls) ≠ ∅ →
    (∀ v, v ∈ dom (cls_impl cls) → opset < v) →
    ∃ m, m ∈ dom (cls_impl cls) ∧ opset < m ∧
         (∀ v, v ∈ dom (cls_impl cls) → v ≤ m) ∧
         selects cls opset m.
  Proof.
    intros Hne Habove.
    assert (filter (λ v, v ≤ opset) (declared_versions cls) = []) as HA.
    { apply filter_none. intros v Hv.
      apply elem_of_declared_versions, Habove in Hv. lia. }
    assert (filter (λ v, ¬ v ≤ opset) (declared_versions cls) = declared_versions cls)
      as HB.
    { apply filter_all. intros v Hv.
      apply elem_of_declared_versions, Habove in Hv. lia. }
    pose proof (select_version_split cls opset) as Hsel. rewrite HA, HB in Hsel.
    destruct (last_sorted_is_Some (declared_versions cls)) as [m Hm].
    { intros E. apply Hne. apply set_eq. intros v.
      rewrite <-elem_of_declared_versions, E. set_solver. }
    change (PyList.sorted []) with (@nil Z) in Hsel. simpl in Hsel. rewrite Hm in Hsel.
    simpl in Hsel.
    apply last_sorted in Hm as [Hin Hmax].
    apply elem_of_declared_versions in Hin.
    exists m. split_and!; [done|by apply Habove| |].
    - intros w Hw. by apply Hmax, elem_of_declared_versions.
    - split; [done|]. apply elem_of_dom in Hin as [impl Himpl].
      exists impl. split; [done|]. unfold get_converter. rewrite Hsel. simpl.
      by rewrite Himpl.
  Qed.
End resolver.

(** C1: for a converter class that declares the versions 1, 7 and 13, the
    opsets 1, 6, 7, 12, 13 and 14 resolve to the methods of the versions 1, 1,
    7, 7, 13 and 13; and whenever some declared version is at or below the
    requested opset, [get_converter] returns the method of the largest
    declared version that is at or below it. *)
Theorem get_converter_largest_at_or_below {I} (cls : ConverterClass I) :
  (dom (cls_impl cls) = {[1; 7; 13]} →
   selects cls 1 1 ∧ selects cls 6 1 ∧ selects cls 7 7 ∧
   selects cls 12 7 ∧ selects cls 13 13 ∧ selects cls 14 13) ∧
  (∀ opset,
     (∃ v, v ∈ dom (cls_impl cls) ∧ v ≤ opset) →
     ∃ m, m ∈ dom (cls_impl cls) ∧ m ≤ opset ∧
          (∀ v, v ∈ dom (cls_impl cls) → v ≤ opset → v ≤ m) ∧
          selects cls opset m).
Proof.
  split; [|apply get_converter_at_or_below].
  intros Hdom.
  assert (∀ opset m, m ∈ ({[1; 7; 13]} : gset Z) → m ≤ opset →
            (∀ v, v ∈ ({[1; 7; 13]} : gset Z) → v ≤ opset → v ≤ m) →
            selects cls opset m) as Hsel.
  { intros opset m Hm Hle Hmax.
    destruct (get_converter_at_or_below cls opset) as (m' & Hm' & Hle' & Hmax' & Hs).
    { exists m. by rewrite Hdom. }
    rewrite Hdom in Hm', Hmax'.
    by replace m with m' by (apply Z.le_antisymm; auto). }
  split_and!; apply Hsel; try set_solver by lia; try lia;
    intros v Hv; repeat (apply elem_of_union in Hv as [Hv|Hv]);
    apply elem_of_singleton in Hv; lia.
Qed.

Lemma get_converter_largest_at_or_below_witness :
  selects family_1_7_13 6 1 ∧ selects family_1_7_13 10 7.
Proof.
  split.
  - apply (get_converter_largest_at_or_below family_1_7_13). by vm_compute.
  - destruct (proj2 (get_converter_largest_at_or_below family_1_7_13) 10)
      as (m & Hm & Hle & Hmax & Hsel).
    + exists 7. split; [by vm_compute|lia].
    + replace 7 with m; [done|].
      assert (m ∈ ({[1; 7; 13]} : gset Z)) as Hin by done.
      assert (7 ≤ m) by (apply Hmax; [by vm_compute|lia]).
      set_solver by lia.
Defined.


(** C2: when every declared version of a converter class is above the
    requested opset, [get_converter] does not raise: the index before the
    position of the opset is [-1], which Python reads from the end of the
    list, and the method of the largest declared version is returned. *)
Theorem get_converter_below_all_versions {I} (cls : ConverterClass I) (opset : Z) :
  dom (cls_impl cls) ≠ ∅ →
  (∀ v, v ∈ dom (cls_impl cls) → opset < v) →
  ∃ m, m ∈ dom (cls_impl cls) ∧ opset < m ∧
       (∀ v, v ∈ dom (cls_impl cls) → v ≤ m) ∧
       selects cls opset m.
Proof. apply get_converter_all_above. Qed.

Lemma get_converter_below_all_versions_witness :
  _get_convert_map eval_externals !! "Div" = Some (native eval_externals "Div" [14]) ∧
  selects (native eval_externals "Div" [14]).2 13 14.
Proof.
  split; [reflexivity|].
  destruct (get_converter_below_all_versions (native eval_externals "Div" [14]).2 13)
    as (m & Hm & _ & _ & Hsel).
  - by vm_compute.
  - intros v Hv. apply elem_of_dom in Hv as [f Hf]. simpl in Hf.
    rewrite insert_empty in Hf. apply lookup_singleton_Some in Hf as [<- _]. lia.
  - apply elem_of_dom in Hm as [f Hf]. simpl in Hf.
    rewrite insert_empty in Hf. by apply lookup_singleton_Some in Hf as [<- _].
Defined.

(** * Node inputs *)

Section node_inputs.
  Implicit Types (self : ONNXGraphImporter) (names : list string)
    (inputs acc : onnx_input.t Expr).


Lemma collect_inputs_ok names acc self :
    (∀ name, name ∈ names → name ≠ "" → is_Some (_nodes self !! name)) →
    collect_inputs names acc self = (Ok (acc ++ (input_value self <$> names)), self).
  Proof.
    revert acc. induction names as [|name names IH]; intros acc Hbound; simpl.
    - by rewrite app_nil_r.
    - unfold input_value at 1. destruct (decide (name ≠ "")) as [Hne|Heq].
      + destruct (Hbound name) as [e He]; [by left|done|].
        unfold mbind, SE_bind, nodes_getitem. rewrite He.
        rewrite IH by (intros n Hn; apply Hbound; by right).
        by rewrite <-app_assoc.
      + rewrite IH by (intros n Hn; apply Hbound; by right).
        by rewrite <-app_assoc.
  Qed.

Lemma collect_inputs_raise names acc self :
    ¬ (∀ name, name ∈ names → name ≠ "" → is_Some (_nodes self !! name)) →
    ∃ name, name ∈ names ∧ name ≠ "" ∧ _nodes self !! name = None ∧
            collect_inputs names acc self = (Raise (KeyError name), self).
  Proof.
    revert acc. induction names as [|name names IH]; intros acc Hnot; simpl.
    - destruct Hnot. intros name Hname. by apply not_elem_of_nil in Hname.
    - destruct (decide (name ≠ "")) as [Hne|Heq].
      + unfold mbind, SE_bind, nodes_getitem.
        destruct (_nodes self !! name) as [e|] eqn:He.
        * destruct (IH (acc ++ [Some e])) as (n & Hn & Hnn & Hnone & Hr).
          { intros Hall. apply Hnot. intros n Hn Hnn.
            apply elem_of_cons in Hn as [->|Hn]; [by rewrite He|by apply Hall]. }
          exists n. split_and!; [by right|done..].
        * exists name. split_and!; [by left|done..].
      + destruct (IH (acc ++ [None])) as (n & Hn & Hnn & Hnone & Hr).
        { intros Hall. apply Hnot. intros n Hn Hnn.
          apply elem_of_cons in Hn as [->|Hn]; [done|by apply Hall]. }
        exists n. split_and!; [by right|done..].
  Qed.

Lemma getitem_int_lookup {A} (l : onnx_input.t A) (i : nat) x :
    l !! i = Some x → onnx_input.getitem_int l (Z.of_nat i) = Ok x.
  Proof.
    intros Hx. apply lookup_lt_Some in Hx as Hlt.
    unfold onnx_input.getitem_int, PyList.getitem. cbv zeta.
    destruct (decide (Z.of_nat i < Z.of_nat (length l))) as [_|]; [|lia].
    destruct (decide (Z.of_nat i < 0)) as [|_]; [lia|].
    destruct (decide _) as [_|]; [|lia].
    by rewrite Nat2Z.id, Hx.
  Qed.

Lemma getitem_int_beyond {A} (l : onnx_input.t A) (i : Z) :
    Z.of_nat (length l) ≤ i → onnx_input.getitem_int l i = Ok None.
  Proof.
    intros Hi. unfold onnx_input.getitem_int.
    destruct (decide _) as [|_]; [lia|done].
  Qed.
End node_inputs.

(** C9: reading an input position at or beyond the length of an
    [onnx_input] returns [None], with no [IndexError]; and the input list
    [_construct_nodes] builds for a node holds [None] at each position whose
    name is the empty string, whatever the symbol table binds: building it
    raises only the [KeyError] of a non-empty name that is not bound. *)
Theorem blank_or_missing_input_is_None :
  (∀ (A : Type) (inputs : onnx_input.t A) (i : Z),
     Z.of_nat (length inputs) ≤ i →
     onnx_input.getitem inputs (SubInt i) = Ok (inl None)) ∧
  (∀ (self : ONNXGraphImporter) (names : list string),
     match collect_inputs names [] self with
     | (Ok inputs, self') =>
         self' = self ∧ length inputs = length names ∧
         ∀ i : nat, names !! i = Some "" →
           inputs !! i = Some None ∧
           onnx_input.getitem inputs (SubInt (Z.of_nat i)) = Ok (inl None)
     | (Raise e, self') =>
         self' = self ∧
         ∃ name, e = KeyError name ∧ name ∈ names ∧ name ≠ "" ∧
                 _nodes self !! name = None
     end).
Proof.
  split.
  - intros A inputs i Hi. simpl. by rewrite getitem_int_beyond.
  - intros self names.
    destruct (decide (Forall (λ name, name = "" ∨ is_Some (_nodes self !! name)) names))
      as [Hbound|Hnot]; rewrite Forall_forall in *.
    + assert (∀ name, name ∈ names → name ≠ "" → is_Some (_nodes self !! name))
        by (intros name Hin Hne; by destruct (Hbound name Hin)).
      rewrite collect_inputs_ok by done. simpl.
      split_and!; [done|by rewrite length_fmap|].
      intros i Hi.
      assert ((input_value self <$> names) !! i = Some None) as Hnone.
      { rewrite list_lookup_fmap, Hi. simpl. unfold input_value.
        by rewrite decide_False by (by intros []). }
      split; [done|]. by rewrite (getitem_int_lookup _ _ _ Hnone).
    + destruct (collect_inputs_raise names [] self) as (name & Hin & Hne & Hnone & ->).
      { intros Hall. apply Hnot. intros name Hin.
        destruct (decide (name = "")); [by left|right; by apply Hall]. }
      split; [done|]. eauto.
Qed.

Lemma blank_or_missing_input_is_None_witness :
  onnx_input.getitem [Some 1; None] (SubInt 2) = Ok (inl None).
Proof.
  apply (proj1 blank_or_missing_input_is_None Z [Some 1; None] 2). simpl. lia.
Defined.

(** * The attribute parser *)

Section parse_attr.
  Implicit Types (a : AttributeProto) (attrs : Attrs).

  (** An attribute whose [graphs] field is not empty is never copied into
      the dictionary. *)
Lemma parse_one_attr_graphs a attrs :
    a_graphs a ≠ [] →
    parse_one_attr a attrs = Raise (NotImplementedError "Field graphs is not supported in relax.")
    ∨ parse_one_attr a attrs = Raise (AssertionError "Only one type of attr is allowed").
  Proof.
    intros Hg. unfold parse_one_attr.
    repeat match goal with
           | |- context [bool_decide ?P] => destruct (bool_decide P); simpl
           | |- context [match ?m !! ?k with _ => _ end] => destruct (m !! k); simpl
           end;
      try (by right); destruct (a_graphs a); try done; by left.
  Qed.

Lemma parse_attr_loop_graphs attr_proto a attrs :
    a ∈ attr_proto → a_graphs a ≠ [] →
    ∃ e, parse_attr_loop attr_proto attrs = Raise e.
  Proof.
    intros Hin Hg. revert attrs.
    induction attr_proto as [|b rest IH]; intros attrs; [by apply not_elem_of_nil in Hin|].
    simpl. apply elem_of_cons in Hin as [<-|Hin].
    - destruct (parse_one_attr_graphs a attrs Hg) as [-> | ->]; simpl; eauto.
    - destruct (parse_one_attr b attrs) as [attrs'|e]; simpl; eauto.
  Qed.
End parse_attr.

(** C7, as stated, fails: an attribute whose single-graph field [g] is
    populated is parsed without error, and the graph is in the dictionary. *)
Lemma parse_attr_accepts_single_graph :
  _parse_attr [body_attribute] = Ok {["body" := AGraph empty_graph]}.
Proof. reflexivity. Qed.

(** C7, amended: an attribute list with an attribute whose repeated [graphs]
    field is populated is never parsed into a dictionary; the error is the
    [NotImplementedError] of the [graphs] field when the attribute populates
    no other repeated field; and an attribute that populates the single
    [g] field alone is accepted, with the graph as its value. *)
Theorem parse_attr_rejects_repeated_graphs_only :
  (∀ (attr_proto : list AttributeProto) (a : AttributeProto),
     a ∈ attr_proto → a_graphs a ≠ [] → ∃ e, _parse_attr attr_proto = Raise e) ∧
  (∀ (a : AttributeProto) (attrs : Attrs),
     a_graphs a ≠ [] →
     a_floats a = [] → a_ints a = [] → a_strings a = [] → a_tensors a = [] →
     parse_one_attr a attrs =
       Raise (NotImplementedError "Field graphs is not supported in relax.")) ∧
  (∀ (name : string) (g : GraphProto) (attrs : Attrs),
     parse_one_attr
       (Build_AttributeProto name None None None (Some g) None [] [] [] [] []) attrs =
       Ok (<[name := AGraph g]> attrs)).
Proof.
  split_and!.
  - intros attr_proto a Hin Hg. by apply (parse_attr_loop_graphs attr_proto a).
  - intros a attrs Hg Hf Hi Hs Ht. unfold parse_one_attr.
    rewrite Hf, Hi, Hs, Ht. simpl. by destruct (a_graphs a).
  - intros name g attrs. unfold parse_one_attr. simpl.
    by rewrite lookup_insert_eq.
Qed.

Lemma parse_attr_rejects_repeated_graphs_only_witness :
  (∃ e, _parse_attr [body_attribute; graphs_attribute] = Raise e) ∧
  parse_one_attr graphs_attribute ∅ =
    Raise (NotImplementedError "Field graphs is not supported in relax.").
Proof.
  split.
  - apply (proj1 parse_attr_rejects_repeated_graphs_only _ graphs_attribute).
    + right. by left.
    + done.
  - by apply parse_attr_rejects_repeated_graphs_only.
Defined.

(** * Dispatch to a converter of this file *)

Section dispatch.
  Context (ext : Externals).

  (** A class with one [_impl_v] method: every opset from its version on
      resolves to this method. *)
Lemma get_converter_single name v (f : Impl) opset :
    v ≤ opset → get_converter (converter name [(v, f)]).2 opset = Ok f.
  Proof.
    intros Hle.
    destruct (get_converter_at_or_below (converter name [(v, f)]).2 opset)
      as (m & Hm & _ & _ & _ & impl & Himpl & ->).
    { exists v. split; [|done]. simpl. set_solver. }
    simpl in Hm, Himpl. rewrite insert_empty in Hm, Himpl.
    apply elem_of_dom in Hm as [f' Hf'].
    apply lookup_singleton_Some in Hf' as [<- _].
    rewrite lookup_singleton_eq in Himpl. by simplify_eq.
  Qed.

  (** [_convert_operator] on an operator whose catalog entry is such a
      class. *)
Lemma convert_operator_converter op_name name v (f : Impl) inputs attrs opset self :
    _get_convert_map ext !! op_name = Some (converter name [(v, f)]) →
    v ≤ opset →
    _convert_operator ext op_name inputs attrs opset self = call_impl f inputs attrs self.
  Proof.
    intros Hmap Hle. unfold _convert_operator. rewrite Hmap.
    change (converter name [(v, f)]) with
      (RelaxConverter, (converter name [(v, f)]).2).
    cbv beta iota. unfold mbind, SE_bind, se_lift.
    by rewrite get_converter_single.
  Qed.
End dispatch.

(** * Loops and frames *)

Lemma se_bind_unfold {S A B} (m : SE S A) (k : A → SE S B) (s : S) :
  (m ≫= k) s =
    match m s with
    | (Ok a, s') => k a s'
    | (Raise e, s') => (Raise e, s')
    end.
Proof. reflexivity. Qed.

Lemma se_fmap_unfold {S A B} (f : A → B) (m : SE S A) (s : S) :
  (f <$> m) s =
    match m s with
    | (Ok a, s') => (Ok (f a), s')
    | (Raise e, s') => (Raise e, s')
    end.
Proof. reflexivity. Qed.

Lemma se_ret_unfold {S A} (a : A) (s : S) : (mret a : SE S A) s = (Ok a, s).
Proof. reflexivity. Qed.

Ltac se_unfold :=
  repeat first
    [ rewrite se_bind_unfold in *
    | rewrite se_fmap_unfold in *
    | rewrite se_ret_unfold in * ];
  unfold se_lift, se_raise, se_get, se_gets, se_modify in *.

Section loops.
  Context {S A : Type}.
  Implicit Types (body : A → SE S unit) (l : list A) (s : S).

Lemma se_for_app l1 l2 body s :
    se_for (l1 ++ l2) body s =
      match se_for l1 body s with
      | (Ok _, s') => se_for l2 body s'
      | (Raise e, s') => (Raise e, s')
      end.
  Proof.
    revert s. induction l1 as [|x l1 IH]; intros s; simpl; [done|].
    se_unfold. destruct (body x s) as [[[]|e] s']; [apply IH|done].
  Qed.

  (** A loop that stops at the first element whose body raises. *)
Lemma se_for_raise l1 x l2 body s s1 e s2 :
    se_for l1 body s = (Ok tt, s1) →
    body x s1 = (Raise e, s2) →
    se_for (l1 ++ x :: l2) body s = (Raise e, s2).
  Proof.
    intros H1 Hx. rewrite se_for_app, H1. simpl. se_unfold. by rewrite Hx.
  Qed.

  (** A relation between the states before and after each run of the body
      holds between the states before and after the loop. *)
Lemma se_for_rel (R : relation S) `{!Reflexive R, !Transitive R} l body :
    (∀ x s r s', x ∈ l → body x s = (r, s') → R s s') →
    ∀ s r s', se_for l body s = (r, s') → R s s'.
  Proof.
    induction l as [|x l IH]; intros Hbody s r s' Hfor; simpl in Hfor.
    - se_unfold. by simplify_eq.
    - se_unfold. destruct (body x s) as [[[]|e] s1] eqn:Hx.
      + transitivity s1; [eapply Hbody; [by left|done]|].
        eapply IH; [|done]. intros y t r' t' Hy. apply Hbody. by right.
      + simplify_eq. eapply Hbody; [by left|done].
  Qed.
End loops.

Section frames.
  Context (ext : Externals).
  Implicit Types (self : ONNXGraphImporter) (graph : GraphProto).

Global Instance only_binds_refl names : Reflexive (only_binds names).
  Proof. intros self. split; [done|]. by left. Qed.

Global Instance only_binds_trans names : Transitive (only_binds names).
  Proof.
    intros s1 s2 s3 [Hb1 Hn1] [Hb2 Hn2]. split; [congruence|].
    intros k Hk. destruct (Hn2 k Hk) as [Hk'|]; [by apply Hn1|by right].
  Qed.

Lemma only_binds_set_nodes names k v self :
    k ∈ names → only_binds names self (set_nodes (<[k := v]>) self).
  Proof.
    intros Hk. split; [done|]. intros k' Hk'. simpl in Hk'.
    destruct (decide (k = k')) as [<-|Hne]; [by right|].
    rewrite lookup_insert_ne in Hk' by done. by left.
  Qed.

Lemma parse_initializer_frame names init self r self' :
    t_name init ∈ names →
    parse_initializer ext init self = (r, self') → only_binds names self self'.
  Proof.
    intros Hin. unfold parse_initializer.
    destruct (blank (t_name init)); se_unfold; [intros; simplify_eq; reflexivity|].
    destruct (_parse_array ext init); intros; simplify_eq; [|reflexivity].
    by apply only_binds_set_nodes.
  Qed.

Lemma parse_graph_initializers_frame graph self r self' :
    _parse_graph_initializers ext graph self = (r, self') →
    only_binds (t_name <$> g_initializer graph) self self'.
  Proof.
    apply se_for_rel; [apply _..|].
    intros init s r' s' Hin. apply parse_initializer_frame.
    by apply list_elem_of_fmap_2.
  Qed.

Lemma fresh_name_frame names prefix self r self' :
    fresh_name ext prefix self = (r, self') → only_binds names self self'.
  Proof.
    unfold fresh_name. simpl. intros. simplify_eq. split; [done|]. by left.
  Qed.

Lemma sanitize_name_frame names name self r self' :
    _sanitize_name ext name self = (r, self') → only_binds names self self'.
  Proof.
    unfold _sanitize_name.
    destruct (decide (name = "")); [apply fresh_name_frame|].
    cbv zeta. destruct (code_points (replace_dots name)) as [|c rest];
      [se_unfold; intros; simplify_eq; reflexivity|].
    destruct (negb (isalpha ext c) && bool_decide (c ≠ 95%N)); apply fresh_name_frame.
  Qed.

Lemma get_info_name i name shape dtype shape_name :
    get_info ext i = Ok (name, shape, dtype, shape_name) → name = vi_name i.
  Proof.
    unfold get_info.
    destruct (decide (vi_elem_type i ≠ 0)); simpl; [|by intros; simplify_eq].
    destruct (get_type ext (vi_elem_type i)); simpl; by intros; simplify_eq.
  Qed.

Lemma only_binds_set_inputs names f self :
    only_binds names self (set_inputs f self).
  Proof. split; [done|]. by left. Qed.

Lemma only_binds_count_input names i self :
    only_binds names self (count_input i self).
  Proof. split; [done|]. by left. Qed.

Lemma parse_input_frame names i self r self' :
    vi_name i ∈ names →
    parse_input ext i self = (r, self') → only_binds names self self'.
  Proof.
    intros Hname. unfold parse_input.
    rewrite se_bind_unfold. unfold se_lift at 1.
    destruct (get_info ext i) as [[[[name shape] dtype] shape_name]|e] eqn:Hinfo;
      [|intros; simplify_eq; reflexivity].
    apply get_info_name in Hinfo as ->.
    rewrite se_bind_unfold. unfold se_get at 1. rewrite se_bind_unfold.
    destruct (decide _) as [Hnone|Hsome].
    - rewrite se_bind_unfold. unfold se_modify at 1. rewrite se_bind_unfold.
      match goal with
      | |- context [(if _sanitize self then _ else _) ?s] =>
          destruct ((if _sanitize self then _sanitize_name ext (vi_name i)
                     else mret (vi_name i)) s) as [[var_name|e] s1] eqn:Hs
      end.
      + assert (only_binds names self s1) as Hs1.
        { etransitivity; [apply (only_binds_count_input _ (vi_name i))|].
          destruct (_sanitize self); [by eapply sanitize_name_frame|].
          rewrite se_ret_unfold in Hs. simplify_eq. reflexivity. }
        unfold se_modify at 1. rewrite se_bind_unfold.
        unfold nodes_getitem. simpl. rewrite lookup_insert_eq.
        unfold se_modify. intros; simplify_eq.
        etransitivity; [apply Hs1|].
        etransitivity; [by apply only_binds_set_nodes|].
        apply only_binds_set_inputs.
      + intros; simplify_eq.
        etransitivity; [apply (only_binds_count_input _ (vi_name i))|].
        destruct (_sanitize self); [by eapply sanitize_name_frame|].
        by rewrite se_ret_unfold in Hs.
    - rewrite se_ret_unfold, se_bind_unfold. unfold nodes_getitem.
      destruct (_nodes self !! vi_name i); [|done].
      unfold se_modify. intros; simplify_eq. apply only_binds_set_inputs.
  Qed.

Lemma parse_graph_input_frame graph self r self' :
    _parse_graph_input ext graph self = (r, self') →
    only_binds (vi_name <$> g_input graph) self self'.
  Proof.
    apply se_for_rel; [apply _..|].
    intros i s r' s' Hin. apply parse_input_frame.
    by apply list_elem_of_fmap_2.
  Qed.
End frames.

(** * The check for unsupported operators *)

Section unsupported.
  Context (ext : Externals).
  Implicit Types (self : ONNXGraphImporter) (graph : GraphProto).

Lemma Constant_in_convert_map : _get_convert_map ext !! "Constant" ≠ None.
  Proof.
    by rewrite (eq_refl : _get_convert_map ext !! "Constant" =
                  Some (converter "Constant" [(13, Constant._impl_v13 ext)])).
  Qed.

Lemma elem_of_unsupported_ops graph op :
    op ∈ unsupported_ops ext graph ↔
    ∃ node, node ∈ g_node graph ∧ n_op_type node = op ∧
            _get_convert_map ext !! op = None.
  Proof.
    unfold unsupported_ops.
    pose proof Constant_in_convert_map as HConstant.
    generalize dependent (_get_convert_map ext). intros convert_map HConstant.
    cbv zeta.
    assert (∀ acc : gset string,
      op ∈ foldl (λ unsupported_ops node,
                    if bool_decide (convert_map !! n_op_type node = None)
                       && bool_decide (n_op_type node ≠ "Constant")
                    then unsupported_ops ∪ {[n_op_type node]}
                    else unsupported_ops) acc (g_node graph) ↔
      op ∈ acc ∨ ∃ node, node ∈ g_node graph ∧ n_op_type node = op ∧
                          convert_map !! op = None) as Hfold.
    { induction (g_node graph) as [|node nodes IH]; intros acc.
      - cbn [foldl]. split; [by left|]. intros [?|(node & Hin & _)]; [done|].
        by apply not_elem_of_nil in Hin.
      - cbn [foldl]. rewrite IH. clear IH. split.
        + intros [Hacc|(n & Hn & Hop & Hmap)]; [|right; exists n; split; [by right|done]].
          destruct (bool_decide (convert_map !! n_op_type node = None)) eqn:Hb;
            cbn [andb] in Hacc; [|by left].
          destruct (bool_decide (n_op_type node ≠ "Constant")); cbn [andb] in Hacc;
            [|by left].
          apply elem_of_union in Hacc as [?|Hop]; [by left|].
          apply elem_of_singleton in Hop as ->. apply bool_decide_eq_true in Hb.
          right. exists node. split; [by left|done].
        + intros [Hacc|(n & Hn & Hop & Hmap)].
          * left. destruct (_ && _); [apply elem_of_union; by left|done].
          * apply elem_of_cons in Hn as [->|Hn]; [|right; by exists n].
            left. rewrite Hop. rewrite bool_decide_eq_true_2 by done.
            rewrite bool_decide_eq_true_2;
              [apply elem_of_union; right; by apply elem_of_singleton|].
            by intros ->. }
    rewrite Hfold. split; [|by right]. intros [Hin|?]; [|done].
    by apply not_elem_of_empty in Hin.
  Qed.

Lemma check_for_unsupported_ops_raise graph self :
    (∃ node, node ∈ g_node graph ∧ _get_convert_map ext !! n_op_type node = None) →
    ∃ msg, _check_for_unsupported_ops ext graph self = (Raise (OpNotImplemented msg), self).
  Proof.
    intros (node & Hin & Hmap). unfold _check_for_unsupported_ops.
    rewrite decide_True; [by eexists|].
    intros Hempty.
    assert (n_op_type node ∈ unsupported_ops ext graph) as Hop.
    { apply elem_of_unsupported_ops. exists node. split; [exact Hin|].
      split; [reflexivity|exact Hmap]. }
    rewrite Hempty in Hop. by apply not_elem_of_empty in Hop.
  Qed.

Lemma only_binds_weaken names names' self self' :
    names ⊆ names' → only_binds names self self' → only_binds names' self self'.
  Proof.
    intros Hsub [Hbb Hn]. split; [done|]. intros k Hk.
    destruct (Hn k Hk); [by left|right; by apply Hsub].
  Qed.

Lemma only_binds_set_opset names opset self :
    only_binds names self (set_opset opset self).
  Proof. split; [done|]. by left. Qed.
End unsupported.

(** C3, as stated, fails: on a graph with a node of an unknown operator and
    an initializer without a name, the import fails with the [ValueError] of
    the initializer, not with the error of the unsupported operator. *)
Lemma unsupported_operator_is_not_always_the_error :
  (∃ node, node ∈ g_node (graph unnamed_initializer_model) ∧
           _get_convert_map eval_externals !! n_op_type node = None) ∧
  (import unnamed_initializer_model).1 = Raise (ValueError "Tensor's name is required.").
Proof.
  split; [|by vm_compute].
  eexists. split; [by left|]. by vm_compute.
Qed.

(** C3, amended: an import of a graph with a node whose operator is not in
    the catalog fails before any node is converted: the block builder is
    untouched and only names of initializers and graph inputs are bound. The
    error is the one of the unsupported operators ([OpNotImplemented])
    whenever the stages before the check complete (the initializers and the
    inputs are parsed); else it is the error of the stage that failed. The
    entry point fails likewise. *)
Theorem unsupported_operator_rejected_before_conversion (ext : Externals) :
  (∀ (graph : GraphProto) (opset : Z) (self : ONNXGraphImporter),
     (∃ node, node ∈ g_node graph ∧ _get_convert_map ext !! n_op_type node = None) →
     ∃ e self',
       ONNXGraphImporter_from_onnx ext graph opset self = (Raise e, self') ∧
       only_binds ((t_name <$> g_initializer graph) ++ (vi_name <$> g_input graph))
         self self' ∧
       ∀ s1 s2,
         _parse_graph_initializers ext graph (set_opset opset self) = (Ok tt, s1) →
         _parse_graph_input ext graph s1 = (Ok tt, s2) →
         self' = s2 ∧ ∃ msg, e = OpNotImplemented msg) ∧
  (∀ (model : ModelProto) shape dtype opset target sanitize_input_names,
     (∃ node, node ∈ g_node (graph model) ∧
              _get_convert_map ext !! n_op_type node = None) →
     ∃ e, (from_onnx ext model shape dtype opset target sanitize_input_names).1 = Raise e).
Proof.
  assert (∀ graph opset self,
     (∃ node, node ∈ g_node graph ∧ _get_convert_map ext !! n_op_type node = None) →
     ∃ e self',
       ONNXGraphImporter_from_onnx ext graph opset self = (Raise e, self') ∧
       only_binds ((t_name <$> g_initializer graph) ++ (vi_name <$> g_input graph))
         self self' ∧
       ∀ s1 s2,
         _parse_graph_initializers ext graph (set_opset opset self) = (Ok tt, s1) →
         _parse_graph_input ext graph s1 = (Ok tt, s2) →
         self' = s2 ∧ ∃ msg, e = OpNotImplemented msg) as Hmethod.
  { intros graph opset self Hnode. unfold ONNXGraphImporter_from_onnx.
    rewrite se_bind_unfold. unfold se_modify at 1. rewrite se_bind_unfold.
    destruct (_parse_graph_initializers ext graph (set_opset opset self))
      as [[[]|e1] s1] eqn:H1;
      apply parse_graph_initializers_frame in H1 as Hf1.
    - rewrite se_bind_unfold.
      destruct (_parse_graph_input ext graph s1) as [[[]|e2] s2] eqn:H2;
        apply parse_graph_input_frame in H2 as Hf2.
      + rewrite se_bind_unfold.
        destruct (check_for_unsupported_ops_raise ext graph s2 Hnode) as [msg ->].
        exists (OpNotImplemented msg), s2. split_and!; [done| |].
        * etransitivity; [apply (only_binds_set_opset _ opset)|].
          etransitivity;
            [eapply only_binds_weaken; [|exact Hf1]|eapply only_binds_weaken; [|exact Hf2]];
            intros x Hx; apply elem_of_app; [by left|by right].
        * intros s1' s2' E1 E2. injection E1 as <-.
          rewrite H2 in E2. injection E2 as <-. split; [done|by eexists].
      + exists e2, s2. split_and!; [done| |].
        * etransitivity; [apply (only_binds_set_opset _ opset)|].
          etransitivity;
            [eapply only_binds_weaken; [|exact Hf1]|eapply only_binds_weaken; [|exact Hf2]];
            intros x Hx; apply elem_of_app; [by left|by right].
        * intros s1' s2' E1 E2. injection E1 as <-.
          rewrite H2 in E2. discriminate.
    - exists e1, s1. split_and!; [done| |].
      + etransitivity; [apply (only_binds_set_opset _ opset)|].
        eapply only_binds_weaken; [|exact Hf1].
        intros x Hx; apply elem_of_app; by left.
      + intros s1' s2' E1 E2. discriminate. }
  split; [done|].
  intros model shape dtype opset target sanitize_input_names Hnode.
  unfold from_onnx. destruct (decide (ir_version model < 3)); [by eexists|].
  destruct (match target with
            | TargetStr target => Target ext target
            | TargetObj target => Ok target
            end) as [target'|e]; [|by eexists].
  edestruct Hmethod as (e & self' & -> & _); [done|]. by exists e.
Qed.

Lemma unsupported_operator_rejected_before_conversion_witness :
  ∃ e self',
    ONNXGraphImporter_from_onnx eval_externals unsupported_graph 13
      (ONNXGraphImporter_init None (DtypeStr "float32") "llvm" true) = (Raise e, self') ∧
    only_binds ((t_name <$> g_initializer unsupported_graph) ++
                (vi_name <$> g_input unsupported_graph))
      (ONNXGraphImporter_init None (DtypeStr "float32") "llvm" true) self' ∧
    ∀ s1 s2,
      _parse_graph_initializers eval_externals unsupported_graph
        (set_opset 13 (ONNXGraphImporter_init None (DtypeStr "float32") "llvm" true)) =
        (Ok tt, s1) →
      _parse_graph_input eval_externals unsupported_graph s1 = (Ok tt, s2) →
      self' = s2 ∧ ∃ msg, e = OpNotImplemented msg.
Proof.
  apply (proj1 (unsupported_operator_rejected_before_conversion eval_externals)).
  eexists. split; [right; by left|]. by vm_compute.
Defined.

(** * The symbol table *)

Section bindings.
  Implicit Types (self : ONNXGraphImporter) (outputs : list string) (fields : list Expr).

Lemma set_nodes_set_nodes f g self :
    set_nodes f (set_nodes g self) = set_nodes (f ∘ g) self.
  Proof. by destruct self. Qed.

Lemma set_nodes_id self : set_nodes id self = self.
  Proof. by destruct self. Qed.

Lemma bind_outputs_loop outputs fields (n : nat) self :
    (n + length outputs ≤ length fields)%nat →
    se_for (zip outputs (seq n (length outputs)))
      (λ '(k, i), value ← se_lift (tuple_getitem (Tuple fields) i);
                  se_modify (set_nodes (<[k := value]>))) self =
      (Ok tt, set_nodes (insert_all (zip outputs (drop n fields))) self).
  Proof.
    revert n self. induction outputs as [|k outputs IH]; intros n self Hlen.
    - simpl. by rewrite se_ret_unfold, set_nodes_id.
    - simpl in Hlen. cbn [length seq zip zip_with se_for].
      destruct (lookup_lt_is_Some_2 fields n) as [v Hv]; [lia|].
      rewrite se_bind_unfold, se_bind_unfold. unfold se_lift at 1, tuple_getitem.
      rewrite Hv. unfold se_modify at 1.
      rewrite IH by lia. rewrite set_nodes_set_nodes.
      rewrite (drop_S _ _ _ Hv). done.
  Qed.
End bindings.

(** C6, as stated, fails: in the import of a graph whose node output has the
    name of the initializer [w], the name is bound to the constant of the
    initializer first, and the import completes with [w] bound to the output
    of the node: no error, and the first binding is lost. *)
Lemma output_name_collision_overwrites :
  (_nodes (_parse_graph_initializers eval_externals (graph collision_model)
             (ONNXGraphImporter_init None (DtypeStr "float32") "llvm" true)).2
     !! "w" =
   Some (Constant {| nd_dtype := "int64"; nd_shape := [2]; nd_data := [1; 2] |})) ∧
  (import collision_model).1 = Ok (returning [float_var "a0"] (float_var "a0")) ∧
  ((import collision_model).2 ≫= λ g, _nodes g !! "w") = Some (float_var "a0").
Proof. split_and!; by vm_compute. Qed.

(** C6, amended: a name of the symbol table can be bound more than once.
    Binding the outputs of a node and binding an initializer are plain
    assignments: they succeed whether or not the name is bound, and the name
    is bound to the new value afterwards; for a node with several outputs the
    assignments are made in the order of the outputs. *)
Theorem bindings_overwrite (ext : Externals) :
  (∀ (k : string) (op : Expr) (self : ONNXGraphImporter),
     bind_outputs [k] op 1 self = (Ok tt, set_nodes (<[k := op]>) self) ∧
     _nodes (bind_outputs [k] op 1 self).2 !! k = Some op) ∧
  (∀ (outputs : list string) (fields : list Expr) (self : ONNXGraphImporter),
     (length outputs ≤ length fields)%nat → length fields ≠ 1%nat →
     bind_outputs outputs (Tuple fields) (length fields) self =
       (Ok tt, set_nodes (insert_all (zip outputs fields)) self)) ∧
  (∀ (init_tensor : TensorProto) (array : NDArray) (self : ONNXGraphImporter),
     blank (t_name init_tensor) = false →
     _parse_array ext init_tensor = Ok array →
     parse_initializer ext init_tensor self =
       (Ok tt, set_nodes (<[t_name init_tensor := Constant array]>) self) ∧
     _nodes (parse_initializer ext init_tensor self).2 !! t_name init_tensor =
       Some (Constant array)).
Proof.
  split_and!.
  - intros k op self.
    assert (bind_outputs [k] op 1 self = (Ok tt, set_nodes (<[k := op]>) self)) as ->
      by reflexivity.
    split; [done|]. simpl. apply lookup_insert_eq.
  - intros outputs fields self Hlen Hne. unfold bind_outputs.
    rewrite decide_False by done.
    by rewrite (bind_outputs_loop outputs fields 0 self Hlen).
  - intros init_tensor array self Hblank Harray.
    assert (parse_initializer ext init_tensor self =
              (Ok tt, set_nodes (<[t_name init_tensor := Constant array]>) self))
      as ->.
    { unfold parse_initializer. rewrite Hblank, se_bind_unfold.
      unfold se_lift. by rewrite Harray. }
    split; [done|]. simpl. apply lookup_insert_eq.
Qed.

Lemma bindings_overwrite_witness :
  bind_outputs ["y"; "y"] (Tuple [float_var "a"; float_var "b"; float_var "c"]) 3
    (ONNXGraphImporter_init None (DtypeStr "float32") "llvm" true) =
    (Ok tt,
     set_nodes (insert_all [("y", float_var "a"); ("y", float_var "b")])
       (ONNXGraphImporter_init None (DtypeStr "float32") "llvm" true)) ∧
  parse_initializer eval_externals tensor_w
    (set_nodes (<["w" := float_var "a"]>)
       (ONNXGraphImporter_init None (DtypeStr "float32") "llvm" true)) =
    (Ok tt,
     set_nodes (<["w" := Constant
                           {| nd_dtype := "int64"; nd_shape := [2]; nd_data := [1; 2] |}]>)
       (set_nodes (<["w" := float_var "a"]>)
          (ONNXGraphImporter_init None (DtypeStr "float32") "llvm" true))).
Proof.
  split.
  - apply (proj1 (proj2 (bindings_overwrite eval_externals))
             ["y"; "y"] [float_var "a"; float_var "b"; float_var "c"]); simpl; lia.
  - apply (proj2 (proj2 (bindings_overwrite eval_externals)) tensor_w); reflexivity.
Defined.

(** * The entry point *)

(** C5: on a model whose only value is the initializer [w], the entry point
    returns the module alone; the constant of [w] is in the body of [main]
    and no mapping of parameters is returned with the module. *)
Theorem from_onnx_returns_the_module_alone :
  (import identity_model).1 =
    Ok (returning [] (Constant
                        {| nd_dtype := "int64"; nd_shape := [2]; nd_data := [1; 2] |})).
Proof. by vm_compute. Qed.

(** * Graph inputs *)

(** C8, as stated, fails: in the import of a graph with two inputs named
    with the empty string, with the names sanitized, one variable is made,
    for the first of them; the name supply is asked for one name and no
    second name ([empty_1]) is given. *)
Lemma second_blank_input_gets_no_name :
  (import two_blank_inputs_model).1 =
    Ok (returning [float_var "empty_0"] (float_var "empty_0")) ∧
  (_name_supply <$> (import two_blank_inputs_model).2) = Some ["empty_"] ∧
  (_inputs <$> (import two_blank_inputs_model).2) = Some [("", float_var "empty_0")].
Proof. split_and!; by vm_compute. Qed.

(** * What a computation keeps *)

Section keeps.
  Context {S : Type} (R : relation S) `{!Reflexive R, !Transitive R}.

Lemma se_keeps_ret {A} (a : A) : se_keeps R (mret a : SE S A).
  Proof. intros s r s' H. rewrite se_ret_unfold in H. by simplify_eq. Qed.

Lemma se_keeps_lift {A} (x : result A) : se_keeps R (se_lift x : SE S A).
  Proof. intros s r s' H. unfold se_lift in H. by simplify_eq. Qed.

Lemma se_keeps_raise {A} e : se_keeps R (se_raise e : SE S A).
  Proof. intros s r s' H. unfold se_raise in H. by simplify_eq. Qed.

Lemma se_keeps_get : se_keeps R (se_get : SE S S).
  Proof. intros s r s' H. unfold se_get in H. by simplify_eq. Qed.

Lemma se_keeps_modify f : (∀ s, R s (f s)) → se_keeps R (se_modify f).
  Proof. intros Hf s r s' H. unfold se_modify in H. by simplify_eq. Qed.

Lemma se_keeps_bind {A B} (m : SE S A) (k : A → SE S B) :
    se_keeps R m → (∀ a, se_keeps R (k a)) → se_keeps R (m ≫= k).
  Proof.
    intros Hm Hk s r s' H. rewrite se_bind_unfold in H.
    destruct (m s) as [[a|e] s1] eqn:Hms.
    - transitivity s1; [by eapply Hm|by eapply Hk].
    - simplify_eq. by eapply Hm.
  Qed.

Lemma se_keeps_fmap {A B} (f : A → B) (m : SE S A) :
    se_keeps R m → se_keeps R (f <$> m).
  Proof.
    intros Hm s r s' H. rewrite se_fmap_unfold in H.
    destruct (m s) as [[a|e] s1] eqn:Hms; simplify_eq; by eapply Hm.
  Qed.

Lemma se_keeps_for {A} (l : list A) body :
    (∀ x, se_keeps R (body x)) → se_keeps R (se_for l body).
  Proof.
    intros Hbody. induction l as [|x l IH]; simpl.
    - apply se_keeps_ret.
    - apply se_keeps_bind; [done|]. by intros _.
  Qed.

Lemma se_keeps_mapM {A B} (f : A → SE S B) (l : list A) :
    (∀ x, se_keeps R (f x)) → se_keeps R (mapM f l).
  Proof.
    intros Hf. induction l as [|x l IH]; simpl.
    - apply se_keeps_ret.
    - apply se_keeps_bind; [done|]. intros y.
      apply se_keeps_bind; [done|]. intros ys. apply se_keeps_ret.
  Qed.
End keeps.

(** * The opset of the importer *)

Section opset.
  Context (ext : Externals).
  Implicit Types (self : ONNXGraphImporter).

Global Instance same_opset_refl : Reflexive same_opset.
  Proof. by intros self. Qed.
Global Instance same_opset_trans : Transitive same_opset.
  Proof. intros s1 s2 s3. unfold same_opset. congruence. Qed.

Local Ltac keeps_step :=
    first
      [ apply se_keeps_bind
      | apply se_keeps_fmap
      | apply se_keeps_ret
      | apply se_keeps_lift
      | apply se_keeps_raise
      | apply se_keeps_get
      | apply se_keeps_modify
      | apply se_keeps_for
      | apply se_keeps_mapM
      | match goal with
        | |- se_keeps _ (match ?x with _ => _ end) => destruct x
        end ];
    try (solve [apply _ | by intros []]); intros.

Local Ltac keeps := repeat keeps_step.

Lemma nodes_getitem_unchanged name self r self' :
    nodes_getitem name self = (r, self') → self' = self.
  Proof. unfold nodes_getitem. destruct (_ !! _); by intros; simplify_eq. Qed.

Lemma collect_inputs_unchanged names acc self r self' :
    collect_inputs names acc self = (r, self') → self' = self.
  Proof.
    revert acc. induction names as [|name names IH]; intros acc; simpl.
    - rewrite se_ret_unfold. by intros; simplify_eq.
    - destruct (decide (name ≠ "")); [|apply IH].
      rewrite se_bind_unfold. unfold nodes_getitem.
      destruct (_nodes self !! name); [apply IH|by intros; simplify_eq].
  Qed.

Lemma keeps_opset_nodes_getitem name : se_keeps same_opset (nodes_getitem name).
  Proof. intros s r s' H. by apply nodes_getitem_unchanged in H as ->. Qed.

Lemma keeps_opset_collect_inputs names acc :
    se_keeps same_opset (collect_inputs names acc).
  Proof. intros s r s' H. by apply collect_inputs_unchanged in H as ->. Qed.

Lemma keeps_opset_fresh_name prefix : se_keeps same_opset (fresh_name ext prefix).
  Proof. intros s r s' H. unfold fresh_name in H. simpl in H. by simplify_eq. Qed.

Lemma keeps_opset_sanitize_name name : se_keeps same_opset (_sanitize_name ext name).
  Proof.
    unfold _sanitize_name. destruct (decide (name = "")); [apply keeps_opset_fresh_name|].
    cbv zeta. destruct (code_points (replace_dots name)) as [|c rest]; [keeps|].
    destruct (_ && _); apply keeps_opset_fresh_name.
  Qed.

Lemma keeps_opset_parse_initializer init : se_keeps same_opset (parse_initializer ext init).
  Proof. unfold parse_initializer. destruct (blank _); keeps. Qed.

Lemma keeps_opset_parse_input i : se_keeps same_opset (parse_input ext i).
  Proof.
    unfold parse_input. keeps;
      first [apply keeps_opset_sanitize_name | apply keeps_opset_nodes_getitem].
  Qed.

Lemma keeps_opset_call_impl f inputs attrs : se_keeps same_opset (call_impl f inputs attrs).
  Proof.
    intros s r s' H. unfold call_impl in H.
    destruct (f inputs _) as [sym st]. by simplify_eq.
  Qed.

Lemma keeps_opset_convert_operator op_name inputs attrs o :
    se_keeps same_opset (_convert_operator ext op_name inputs attrs o).
  Proof.
    unfold _convert_operator. generalize (_get_convert_map ext). intros convert_map.
    destruct (convert_map !! op_name) as [[base cls]|]; keeps.
    apply keeps_opset_call_impl.
  Qed.

Lemma keeps_opset_convert_without_opset op_name :
    se_keeps same_opset (convert_without_opset ext op_name).
  Proof.
    unfold convert_without_opset. generalize (_get_convert_map ext). intros convert_map.
    destruct (convert_map !! op_name) as [[base cls]|]; [destruct (decide _)|]; keeps.
  Qed.

Lemma keeps_opset_bb_emit value : se_keeps same_opset (bb_emit value).
  Proof. intros s r s' H. unfold bb_emit in H. simpl in H. by simplify_eq. Qed.

Lemma keeps_opset_bind_outputs outputs op n :
    se_keeps same_opset (bind_outputs outputs op n).
  Proof.
    unfold bind_outputs. keeps.
  Qed.

Lemma keeps_opset_construct_node node : se_keeps same_opset (construct_node ext node).
  Proof.
    unfold construct_node. keeps;
      first [ apply keeps_opset_collect_inputs
            | apply keeps_opset_convert_operator
            | apply keeps_opset_convert_without_opset
            | apply keeps_opset_bb_emit
            | apply keeps_opset_bind_outputs ].
  Qed.

Lemma reaches_opset graph o self pre node self' :
    reaches ext graph o self pre node self' → opset self' = Some o.
  Proof.
    intros (post & s1 & s2 & _ & H1 & H2 & _ & H3).
    apply (se_keeps_for same_opset _ _ keeps_opset_parse_initializer) in H1.
    apply (se_keeps_for same_opset _ _ keeps_opset_parse_input) in H2.
    apply (se_keeps_for same_opset _ _ keeps_opset_construct_node) in H3.
    unfold same_opset in *. by rewrite H3, H2, H1.
  Qed.
End opset.

(** * Converters that need constants *)

Section dynamic.
  Context (ext : Externals).
  Implicit Types (inputs : onnx_input.t Expr) (st : ConvState) (self : ONNXGraphImporter).

Lemma set_bb_bb self : set_bb (bb self) self = self.
  Proof. by destruct self. Qed.

Lemma Tile_dynamic inputs st reps :
    onnx_input.getitem_int inputs 1 = Ok reps → is_Constant reps = false →
    Tile._impl_v13 ext inputs st =
      (Raise (ValueError "Dynamic reps for Tile are supported yet."), st).
  Proof.
    intros Hreps Hdyn. unfold Tile._impl_v13.
    rewrite se_bind_unfold. unfold se_lift at 1. by rewrite Hreps, Hdyn.
  Qed.

Lemma getitem_int_total inputs (n : nat) :
    onnx_input.getitem_int inputs (Z.of_nat n) = Ok (default None (inputs !! n)).
  Proof.
    destruct (inputs !! n) as [x|] eqn:Hn.
    - by apply getitem_int_lookup.
    - apply lookup_ge_None in Hn. apply getitem_int_beyond. lia.
  Qed.

Lemma getitem_int_nonneg inputs (i : Z) :
    0 ≤ i → onnx_input.getitem_int inputs i = Ok (default None (inputs !! Z.to_nat i)).
  Proof.
    intros Hi. rewrite <-(Z2Nat.id i) at 1 by done. apply getitem_int_total.
  Qed.

Lemma Slice_dynamic inputs st (p : nat) e :
    (1 ≤ p ≤ 4)%nat → inputs !! p = Some (Some e) → is_Constant (Some e) = false →
    Slice._impl_v13 ext inputs st =
      (Raise (ValueError "Only constant Slice parameters are currently supported."), st).
  Proof.
    intros Hp He Hdyn. unfold Slice._impl_v13.
    rewrite !getitem_int_nonneg by lia.
    change (Z.to_nat 0) with 0%nat. change (Z.to_nat 1) with 1%nat.
    change (Z.to_nat 2) with 2%nat. change (Z.to_nat 3) with 3%nat.
    change (Z.to_nat 4) with 4%nat.
    repeat (rewrite se_bind_unfold; unfold se_lift at 1).
    assert (forallb (λ param, is_Constant param || bool_decide (param = None))
              [default None (inputs !! 1%nat); default None (inputs !! 2%nat);
               default None (inputs !! 3%nat); default None (inputs !! 4%nat)] = false)
      as ->; [|done].
    assert (p = 1 ∨ p = 2 ∨ p = 3 ∨ p = 4)%nat as Hcases by lia.
    destruct Hcases as [Hc|[Hc|[Hc|Hc]]]; subst p;
      rewrite He; simpl in Hdyn |- *; rewrite Hdyn;
      rewrite ?andb_false_r; done.
  Qed.

Lemma Reshape_dynamic inputs st shape :
    onnx_input.getitem_int inputs 1 = Ok shape → is_Constant shape = false →
    Reshape._impl_v13 ext inputs st = (onnx_input.getitem_int inputs 0, st).
  Proof.
    intros Hshape Hdyn. unfold Reshape._impl_v13.
    rewrite (getitem_int_nonneg inputs 0) by lia.
    rewrite se_bind_unfold. unfold se_lift at 1.
    rewrite se_bind_unfold. unfold se_lift at 1. by rewrite Hshape, Hdyn.
  Qed.

  (** A node whose converter raises: the conversion of the node raises, and
      leaves in the importer what the converter left in the block builder. *)
Lemma construct_node_converter_raises node self attr inputs o e self' :
    _parse_attr (n_attribute node) = Ok attr →
    collect_inputs (n_input node) [] self = (Ok inputs, self) →
    opset self = Some o →
    _convert_operator ext (n_op_type node) inputs
      (<["tvm_custom" := ATvmCustom (n_name node) (length (n_output node))]> attr) o self =
      (Raise e, self') →
    construct_node ext node self = (Raise e, self').
  Proof.
    intros Hattr Hinputs Hopset Hconv. unfold construct_node.
    rewrite se_bind_unfold. unfold se_lift at 1. rewrite Hattr.
    rewrite se_bind_unfold, Hinputs.
    rewrite se_bind_unfold. unfold se_get at 1.
    by rewrite se_bind_unfold, Hopset, Hconv.
  Qed.

  (** The import stops at the first node whose conversion raises. *)
Lemma from_onnx_node_raises graph o self pre node s e s' :
    reaches ext graph o self pre node s →
    construct_node ext node s = (Raise e, s') →
    ONNXGraphImporter_from_onnx ext graph o self = (Raise e, s').
  Proof.
    intros (post & s1 & s2 & Hnodes & H1 & H2 & Hsup & Hpre) Hnode.
    unfold ONNXGraphImporter_from_onnx.
    rewrite se_bind_unfold. unfold se_modify at 1.
    rewrite se_bind_unfold, H1, se_bind_unfold, H2, se_bind_unfold.
    unfold _check_for_unsupported_ops. rewrite decide_False by (by intros []).
    rewrite se_ret_unfold, se_bind_unfold.
    unfold _construct_nodes. rewrite Hnodes.
    by rewrite (se_for_raise pre node post _ s2 s e s').
  Qed.

Lemma Tile_in_convert_map :
    _get_convert_map ext !! "Tile" = Some (converter "Tile" [(13, Tile._impl_v13 ext)]).
  Proof. reflexivity. Qed.

Lemma Slice_in_convert_map :
    _get_convert_map ext !! "Slice" = Some (converter "Slice" [(13, Slice._impl_v13 ext)]).
  Proof. reflexivity. Qed.
End dynamic.

(** C4, as stated, fails: the import of a graph whose [Reshape] node takes
    its shape from a graph input completes; the output is the data input,
    not reshaped. *)
Lemma dynamic_reshape_is_imported :
  (import dynamic_reshape_model).1 =
    Ok (returning [float_var "a0"; float_var "s0"] (float_var "a0")).
Proof. by vm_compute. Qed.

(** C4, amended: from opset 13 on, an import that gets to a [Tile] node whose
    repeat counts are not a constant, or to a [Slice] node one of whose
    bounds, axes or steps is given and is not a constant, aborts there with a
    [ValueError] and returns no module; the [Reshape] converter does not
    fail on a shape that is not a constant: it returns its data input as it
    is, and emits nothing. *)
Theorem dynamic_tile_and_slice_abort_reshape_passes (ext : Externals) :
  (∀ graph opset self pre node s attr inputs reps,
     reaches ext graph opset self pre node s → 13 ≤ opset →
     n_op_type node = "Tile" →
     _parse_attr (n_attribute node) = Ok attr →
     collect_inputs (n_input node) [] s = (Ok inputs, s) →
     onnx_input.getitem_int inputs 1 = Ok reps → is_Constant reps = false →
     ONNXGraphImporter_from_onnx ext graph opset self =
       (Raise (ValueError "Dynamic reps for Tile are supported yet."), s)) ∧
  (∀ graph opset self pre node s attr inputs (p : nat) e,
     reaches ext graph opset self pre node s → 13 ≤ opset →
     n_op_type node = "Slice" →
     _parse_attr (n_attribute node) = Ok attr →
     collect_inputs (n_input node) [] s = (Ok inputs, s) →
     (1 ≤ p ≤ 4)%nat → inputs !! p = Some (Some e) → is_Constant (Some e) = false →
     ONNXGraphImporter_from_onnx ext graph opset self =
       (Raise (ValueError "Only constant Slice parameters are currently supported."), s)) ∧
  (∀ (inputs : onnx_input.t Expr) (st : ConvState) shape,
     onnx_input.getitem_int inputs 1 = Ok shape → is_Constant shape = false →
     Reshape._impl_v13 ext inputs st = (onnx_input.getitem_int inputs 0, st)).
Proof.
  split_and!.
  - intros graph opset self pre node s attr inputs reps Hreach Hopset Hop Hattr Hin Hreps Hdyn.
    apply (from_onnx_node_raises ext graph opset self pre node s); [done|].
    apply (construct_node_converter_raises ext node s attr inputs opset);
      [done|done|by eapply reaches_opset|].
    rewrite Hop.
    rewrite (convert_operator_converter ext "Tile" "Tile" 13 (Tile._impl_v13 ext))
      by (apply Tile_in_convert_map || done).
    unfold call_impl. rewrite (Tile_dynamic ext inputs _ reps) by done.
    cbn [cs_bb]. by rewrite set_bb_bb.
  - intros graph opset self pre node s attr inputs p e Hreach Hopset Hop Hattr Hin Hp He Hdyn.
    apply (from_onnx_node_raises ext graph opset self pre node s); [done|].
    apply (construct_node_converter_raises ext node s attr inputs opset);
      [done|done|by eapply reaches_opset|].
    rewrite Hop.
    rewrite (convert_operator_converter ext "Slice" "Slice" 13 (Slice._impl_v13 ext))
      by (apply Slice_in_convert_map || done).
    unfold call_impl. rewrite (Slice_dynamic ext inputs _ p e) by done.
    cbn [cs_bb]. by rewrite set_bb_bb.
  - intros inputs st shape. apply Reshape_dynamic.
Qed.

Lemma dynamic_tile_and_slice_abort_reshape_passes_witness :
  ONNXGraphImporter_from_onnx eval_externals dynamic_tile_graph 13
    (ONNXGraphImporter_init None (DtypeStr "float32") "llvm" true) =
    (Raise (ValueError "Dynamic reps for Tile are supported yet."),
     (_parse_graph_input eval_externals dynamic_tile_graph
        (set_opset 13 (ONNXGraphImporter_init None (DtypeStr "float32") "llvm" true))).2).
Proof.
  apply (proj1 (dynamic_tile_and_slice_abort_reshape_passes eval_externals)
           dynamic_tile_graph 13 _ []
           (Build_NodeProto "n0" "Tile" ["a"; "s"] ["y"] []) _
           ∅ [Some (float_var "a0"); Some (float_var "s0")] (Some (float_var "s0"))).
  - exists [], (set_opset 13 (ONNXGraphImporter_init None (DtypeStr "float32") "llvm" true)),
      (_parse_graph_input eval_externals dynamic_tile_graph
         (set_opset 13 (ONNXGraphImporter_init None (DtypeStr "float32") "llvm" true))).2.
    split_and!; by vm_compute.
  - lia.
  - reflexivity.
  - reflexivity.
  - by vm_compute.
  - reflexivity.
  - reflexivity.
Defined.

(** * More on the version resolver *)

Section resolver_more.
  Context {I : Type}.
  Implicit Types (cls : ConverterClass I) (opset v m : Z).

Lemma declared_versions_empty cls :
    cls_impl cls = ∅ → declared_versions cls = [].
  Proof. intros E. unfold declared_versions. by rewrite E, map_to_list_empty. Qed.

Lemma selects_cases cls opset :
    dom (cls_impl cls) ≠ ∅ →
    ∃ m, m ∈ dom (cls_impl cls) ∧ selects cls opset m ∧
         ((m ≤ opset ∧ ∀ v, v ∈ dom (cls_impl cls) → v ≤ opset → v ≤ m) ∨
          (opset < m ∧ ∀ v, v ∈ dom (cls_impl cls) → opset < v ∧ v ≤ m)).
  Proof.
    intros Hne.
    destruct (decide (Exists (λ v, v ≤ opset) (elements (dom (cls_impl cls)))))
      as [Hex|Hno].
    - apply Exists_exists in Hex as (v & Hv & Hle). apply elem_of_elements in Hv.
      destruct (get_converter_at_or_below cls opset) as (m & Hm & Hmle & Hmax & Hsel);
        [by exists v|].
      exists m. split_and!; [done..|]. by left.
    - assert (∀ v, v ∈ dom (cls_impl cls) → opset < v) as Habove.
      { intros v Hv. destruct (decide (opset < v)) as [|Hge]; [done|].
        destruct Hno. apply Exists_exists. exists v.
        split; [by apply elem_of_elements|lia]. }
      destruct (get_converter_all_above cls opset Hne Habove)
        as (m & Hm & Hlt & Hmax & Hsel).
      exists m. split_and!; [done..|]. right. split; [done|].
      intros v Hv. split; [by apply Habove|by apply Hmax].
  Qed.
End resolver_more.

(** X1: [get_converter] raises exactly for a class without any [_impl_v]
    method, and then for every opset; for a class with at least one, it
    returns one of the methods of the class whatever the opset. *)
Theorem get_converter_raises_iff_no_method {I} (cls : ConverterClass I) (opset : Z) :
  match get_converter cls opset with
  | Ok impl => ∃ m, cls_impl cls !! m = Some impl
  | Raise e =>
      cls_impl cls = ∅ ∧
      e = NotImplementedError
            ("opset version " +:+ pretty opset +:+ " of " +:+ cls_name cls +:+
             " not implemented")
  end.
Proof.
  destruct (decide (cls_impl cls = ∅)) as [Hempty|Hne].
  - unfold get_converter. rewrite select_version_split.
    rewrite (declared_versions_empty cls Hempty). simpl.
    change (PyList.sorted []) with (@nil Z). simpl.
    rewrite Hempty, lookup_empty. done.
  - destruct (selects_cases cls opset) as (m & _ & [_ (impl & Himpl & ->)] & _).
    + intros Hdom. apply Hne. by apply dom_empty_inv_L.
    + by exists m.
Qed.

(** X2: an opset that is itself a declared version resolves to this version;
    and among the opsets that have a declared version at or below them, a
    larger opset never resolves to a smaller version. *)
Theorem get_converter_exact_and_monotone {I} (cls : ConverterClass I) :
  (∀ v, v ∈ dom (cls_impl cls) → selects cls v v) ∧
  (∀ opset1 opset2 m1 m2,
     (∃ v, v ∈ dom (cls_impl cls) ∧ v ≤ opset1) → opset1 ≤ opset2 →
     selects cls opset1 m1 → selects cls opset2 m2 →
     m1 ≤ m2 ∧ m2 ≤ opset2).
Proof.
  split.
  - intros v Hv.
    destruct (get_converter_at_or_below cls v) as (m & Hm & Hle & Hmax & Hsel);
      [by exists v|].
    assert (m = v) as <-; [|done].
    apply Z.le_antisymm; [done|]. apply Hmax; [done|lia].
  - intros opset1 opset2 m1 m2 (v & Hv & Hle) Hopset [Hs1 _] [Hs2 _].
    destruct (get_converter_at_or_below cls opset1) as (n1 & Hn1 & Hle1 & Hmax1 & [Ht1 _]);
      [by exists v|].
    destruct (get_converter_at_or_below cls opset2) as (n2 & Hn2 & Hle2 & Hmax2 & [Ht2 _]);
      [exists v; split; [done|lia]|].
    rewrite Hs1 in Ht1. rewrite Hs2 in Ht2. simplify_eq.
    split; [|done]. apply Hmax2; [done|lia].
Qed.

Lemma get_converter_exact_and_monotone_witness :
  selects family_1_7_13 7 7.
Proof.
  apply (proj1 (get_converter_exact_and_monotone family_1_7_13)). by vm_compute.
Defined.

(** * More on onnx_input *)

Section onnx_input_more.
  Context {A : Type}.
  Implicit Types (inputs : onnx_input.t A) (i j k : Z).

Lemma mapM_getitem_int inputs (l : list nat) :
    mapM (onnx_input.getitem_int inputs) (Z.of_nat <$> l) =
      Ok ((λ n, default None (inputs !! n)) <$> l).
  Proof.
    induction l as [|n l IH]; [done|].
    cbn [fmap list_fmap mapM]. rewrite IH.
    assert (onnx_input.getitem_int inputs (Z.of_nat n) = Ok (default None (inputs !! n)))
      as ->; [|done].
    destruct (inputs !! n) as [x|] eqn:Hn.
    - by apply getitem_int_lookup.
    - apply lookup_ge_None in Hn. apply getitem_int_beyond. lia.
  Qed.

Lemma range_slice_forward j k :
    0 ≤ j → 0 ≤ k →
    onnx_input.range_slice k (Some j) (Some k) None =
      Ok (Z.of_nat <$> seq (Z.to_nat j) (Z.to_nat (k - j))).
  Proof.
    intros Hj Hk. unfold onnx_input.range_slice, onnx_input.clamp_index.
    cbv zeta. cbn [default from_option id].
    repeat case_decide; try lia; f_equal.
    - rewrite Z.div_1_r.
      replace (0 `max` ((0 `max` k) `min` k)) with k in * by lia.
      replace (0 `max` ((0 `max` k) `min` j)) with j in * by lia.
      replace (Z.to_nat (k - j - 1 + 1)) with (Z.to_nat (k - j)) by lia.
      rewrite <-(Nat.add_0_r (Z.to_nat j)) at 1.
      rewrite <-fmap_add_seq, <-!list_fmap_compose.
      apply list_fmap_ext. intros _ n _. simpl. lia.
    - replace (Z.to_nat (k - j)) with 0%nat by lia. done.
  Qed.
End onnx_input_more.

(** X3: indexing an [onnx_input] by an integer follows Python's lists up to
    the end of the list (a negative index counts from the end, and one
    below [-len] raises [IndexError]); only an index at or beyond the length
    reads [None]. *)
Theorem onnx_input_getitem_int_cases {A} (inputs : onnx_input.t A) (i : Z) :
  onnx_input.getitem inputs (SubInt i) =
    if decide (Z.of_nat (length inputs) ≤ i) then Ok (inl None)
    else if decide (0 ≤ i) then Ok (inl (default None (inputs !! Z.to_nat i)))
    else if decide (- Z.of_nat (length inputs) ≤ i)
         then Ok (inl (default None (inputs !! Z.to_nat (i + Z.of_nat (length inputs)))))
         else Raise (IndexError "list index out of range").
Proof.
  simpl. unfold onnx_input.getitem_int, PyList.getitem. cbv zeta.
  destruct (decide (Z.of_nat (length inputs) ≤ i)) as [Hge|Hlt].
  - by rewrite decide_False by lia.
  - rewrite decide_True by lia.
    destruct (decide (0 ≤ i)) as [Hnn|Hneg].
    + rewrite (decide_False (P := i < 0)) by lia. rewrite decide_True by lia.
      destruct (lookup_lt_is_Some_2 inputs (Z.to_nat i)) as [x Hx]; [lia|].
      by rewrite Hx.
    + rewrite (decide_True (P := i < 0)) by lia.
      destruct (decide (- Z.of_nat (length inputs) ≤ i)) as [Hin|Hout].
      * rewrite decide_True by lia.
        destruct (lookup_lt_is_Some_2 inputs (Z.to_nat (i + Z.of_nat (length inputs))))
          as [x Hx]; [lia|].
        by rewrite Hx.
      * by rewrite decide_False by lia.
Qed.

(** X4: a slice [inputs[j:k]] of an [onnx_input], for bounds that are not
    negative, is not cut at the end of the list as a slice of a list is: it
    has the [k - j] positions from [j] to [k], with [None] at each position
    beyond the list; and [inputs[:]] is the list itself. *)
Theorem onnx_input_slice_pads_with_None {A} (inputs : onnx_input.t A) :
  (∀ j k : Z,
     0 ≤ j → 0 ≤ k →
     onnx_input.getitem inputs (SubSlice (Some j) (Some k) None) =
       Ok (inr ((λ n, default None (inputs !! n)) <$>
                  seq (Z.to_nat j) (Z.to_nat (k - j))))) ∧
  onnx_input.getitem inputs (SubSlice None None None) = Ok (inr inputs).
Proof.
  split.
  - intros j k Hj Hk. unfold onnx_input.getitem.
    rewrite range_slice_forward by done.
    cbn [mbind result_bind]. by rewrite mapM_getitem_int.
  - unfold onnx_input.getitem.
    assert (onnx_input.range_slice (Z.of_nat (length inputs)) None None None =
              Ok (Z.of_nat <$> seq 0 (length inputs))) as ->.
    { unfold onnx_input.range_slice. cbv zeta. cbn [default from_option id].
      repeat case_decide; try lia; f_equal.
      - rewrite Z.div_1_r.
        replace (Z.to_nat (0 `max` Z.of_nat (length inputs) - 0 - 1 + 1))
          with (length inputs) by lia.
        apply list_fmap_ext. intros _ n _. lia.
      - by replace (length inputs) with 0%nat by lia. }
    cbn [mbind result_bind]. rewrite mapM_getitem_int.
    cbn [fmap result_fmap]. do 2 f_equal.
    apply list_eq. intros n. rewrite list_lookup_fmap.
    destruct (decide (n < length inputs)%nat) as [Hlt|Hge].
    + rewrite lookup_seq_lt by done. simpl.
      destruct (lookup_lt_is_Some_2 inputs n Hlt) as [x Hx]. by rewrite Hx.
    + rewrite lookup_seq_ge by lia. simpl. symmetry. apply lookup_ge_None. lia.
Qed.

Lemma onnx_input_slice_pads_with_None_witness :
  onnx_input.getitem [Some 1; Some 2] (SubSlice (Some 1) (Some 4) None) =
    Ok (inr [Some 2; None; None]).
Proof.
  apply (proj1 (onnx_input_slice_pads_with_None [Some 1; Some 2]) 1 4); lia.
Defined.

(** * More on the attribute parser *)

Section parse_attr_more.
  Implicit Types (a : AttributeProto) (attrs : Attrs) (l : list AttributeProto).

  (** One attribute adds its name to the keys of the dictionary, and
      nothing else. *)
Lemma parse_one_attr_dom a attrs attrs' :
    parse_one_attr a attrs = Ok attrs' → dom attrs' = {[a_name a]} ∪ dom attrs.
  Proof.
    unfold parse_one_attr.
    destruct (a_f a), (a_i a), (a_s a), (a_g a), (a_t a);
      repeat match goal with
             | |- context [bool_decide ?P] => destruct (bool_decide P); simpl
             | |- context [match ?m !! ?k with _ => _ end] =>
                 let E := fresh "E" in destruct (m !! k) eqn:E; simpl
             | |- context [match a_graphs a with _ => _ end] => destruct (a_graphs a)
             end;
      try done; intros [= <-];
      rewrite ?dom_insert_L;
      try (apply set_eq; intros x; rewrite ?elem_of_union, ?elem_of_singleton; tauto).
    all: apply elem_of_dom_2 in E; apply set_eq; intros x;
      rewrite ?elem_of_union, ?elem_of_singleton; split; [tauto|];
      intros [->|?]; [done|tauto].
  Qed.

Lemma parse_attr_loop_dom l attrs attrs' :
    parse_attr_loop l attrs = Ok attrs' →
    dom attrs' = list_to_set (a_name <$> l) ∪ dom attrs.
  Proof.
    revert attrs. induction l as [|a l IH]; intros attrs; simpl.
    - intros [= <-]. set_solver.
    - destruct (parse_one_attr a attrs) as [attrs1|e] eqn:Ha; simpl; [|done].
      intros Hl. apply IH in Hl. apply parse_one_attr_dom in Ha.
      rewrite Hl, Ha. set_solver.
  Qed.
End parse_attr_more.

(** X5: when [_parse_attr] returns a dictionary, its keys are the names of
    the attributes of the node: every attribute has an entry, and there is
    no other entry. *)
Theorem parse_attr_keys_are_attribute_names (attr_proto : list AttributeProto) :
  match _parse_attr attr_proto with
  | Ok attrs => dom attrs = list_to_set (a_name <$> attr_proto)
  | Raise _ => True
  end.
Proof.
  unfold _parse_attr.
  destruct (parse_attr_loop attr_proto ∅) as [attrs|e] eqn:Hl; [|done].
  apply parse_attr_loop_dom in Hl. rewrite Hl. set_solver.
Qed.

(** X6: an attribute that populates one of the repeated fields [floats],
    [ints], [strings] or [tensors] fails the assertion that only one type of
    attribute is allowed whenever its name already has an entry: from one of
    its own scalar fields [f], [i], [s] or [g], or from an earlier attribute
    of the same name. *)
Theorem parse_attr_repeated_field_conflicts (a : AttributeProto) (attrs : Attrs) :
  a_floats a ≠ [] ∨ a_ints a ≠ [] ∨ a_strings a ≠ [] ∨ a_tensors a ≠ [] →
  is_Some (a_f a) ∨ is_Some (a_i a) ∨ is_Some (a_s a) ∨ is_Some (a_g a) ∨
    is_Some (attrs !! a_name a) →
  parse_one_attr a attrs = Raise (AssertionError "Only one type of attr is allowed").
Proof.
  intros Hrep Hscalar. unfold parse_one_attr.
  set (attrs1 := match a_f a with Some v => <[a_name a := AFloat v]> attrs | None => attrs end).
  set (attrs2 := match a_i a with Some v => <[a_name a := AInt v]> attrs1 | None => attrs1 end).
  set (attrs3 := match a_s a with Some v => <[a_name a := ABytes v]> attrs2 | None => attrs2 end).
  set (attrs4 := match a_g a with Some v => <[a_name a := AGraph v]> attrs3 | None => attrs3 end).
  assert (is_Some (attrs4 !! a_name a)) as [v0 Hv0].
  { subst attrs1 attrs2 attrs3 attrs4.
    destruct (a_g a); [by rewrite lookup_insert_eq|].
    destruct (a_s a); [by rewrite lookup_insert_eq|].
    destruct (a_i a); [by rewrite lookup_insert_eq|].
    destruct (a_f a); [by rewrite lookup_insert_eq|].
    destruct Hscalar as [[? [=]]|[[? [=]]|[[? [=]]|[[? [=]]|?]]]]. done. }
  clearbody attrs4. clear attrs1 attrs2 attrs3 Hscalar.
  destruct (bool_decide (a_floats a = [])) eqn:Hf; simpl; [|by rewrite Hv0].
  destruct (bool_decide (a_ints a = [])) eqn:Hi; simpl; [|by rewrite Hv0].
  destruct (bool_decide (a_strings a = [])) eqn:Hs; simpl; [|by rewrite Hv0].
  apply bool_decide_eq_true in Hf, Hi, Hs.
  destruct Hrep as [?|[?|[?|Ht]]]; [done..|].
  rewrite bool_decide_eq_false_2 by done. simpl.
  destruct (a_t a); [by rewrite lookup_insert_eq|by rewrite Hv0].
Qed.

Lemma parse_attr_repeated_field_conflicts_witness :
  parse_one_attr
    (Build_AttributeProto "axes" None (Some 1) None None None [] [0; 1] [] [] []) ∅ =
    Raise (AssertionError "Only one type of attr is allowed").
Proof.
  apply parse_attr_repeated_field_conflicts; simpl.
  - right. by left.
  - right. left. by eexists.
Defined.

(** X7: for an attribute that populates no repeated field, the entry is the
    value of the last populated one of the fields [f], [i], [s], [g] and [t],
    in this order: a later field silently replaces an earlier one. With no
    field populated the attribute is refused with [ValueError], unless an
    earlier attribute of the same name left an entry, which is then kept. *)
Theorem parse_attr_last_scalar_field_wins (a : AttributeProto) (attrs : Attrs) :
  a_floats a = [] → a_ints a = [] → a_strings a = [] → a_tensors a = [] →
  a_graphs a = [] →
  match a_t a, a_g a, a_s a, a_i a, a_f a with
  | Some v, _, _, _, _ => parse_one_attr a attrs = Ok (<[a_name a := ATensor v]> attrs)
  | None, Some v, _, _, _ => parse_one_attr a attrs = Ok (<[a_name a := AGraph v]> attrs)
  | None, None, Some v, _, _ => parse_one_attr a attrs = Ok (<[a_name a := ABytes v]> attrs)
  | None, None, None, Some v, _ => parse_one_attr a attrs = Ok (<[a_name a := AInt v]> attrs)
  | None, None, None, None, Some v =>
      parse_one_attr a attrs = Ok (<[a_name a := AFloat v]> attrs)
  | None, None, None, None, None =>
      match attrs !! a_name a with
      | Some _ => parse_one_attr a attrs = Ok attrs
      | None => ∃ msg, parse_one_attr a attrs = Raise (ValueError msg)
      end
  end.
Proof.
  intros Hf Hi Hs Ht Hg. unfold parse_one_attr. rewrite Hf, Hi, Hs, Ht, Hg. simpl.
  destruct (a_t a), (a_g a), (a_s a), (a_i a), (a_f a);
    rewrite ?insert_insert_eq, ?lookup_insert_eq; try done.
  destruct (attrs !! a_name a); [done|by eexists].
Qed.

Lemma parse_attr_last_scalar_field_wins_witness :
  parse_one_attr
    (Build_AttributeProto "value" None (Some 1) (Some "abc") None None [] [] [] [] []) ∅ =
    Ok (<["value" := ABytes "abc"]> ∅).
Proof.
  by apply (parse_attr_last_scalar_field_wins
              (Build_AttributeProto "value" None (Some 1) (Some "abc") None None [] [] [] [] [])).
Defined.

(** * Sanitized names *)

Section sanitize.
  Context (ext : Externals).
  Implicit Types (name prefix : string) (self : ONNXGraphImporter).

Lemma replace_dots_idemp name : replace_dots (replace_dots name) = replace_dots name.
  Proof.
    induction name as [|c rest IH]; [done|]. simpl. rewrite IH. f_equal.
    destruct (decide (c = "."%char)); [done|]. by rewrite decide_False.
  Qed.

Lemma replace_dots_app name1 name2 :
    replace_dots (name1 +:+ name2) = replace_dots name1 +:+ replace_dots name2.
  Proof. induction name1 as [|c rest IH]; [done|]. simpl. rewrite IH. reflexivity. Qed.

Lemma fresh_name_eq prefix self :
    fresh_name ext prefix self =
      (Ok (supply_fresh_name ext (_name_supply self) prefix),
       set_name_supply (_name_supply self ++ [prefix]) self).
  Proof. done. Qed.

Lemma code_points_cons b rest : ∃ c cs, code_points (String b rest) = c :: cs.
  Proof.
    cbn [code_points]. cbv zeta.
    destruct (_ <? 192)%N; [by eexists _, _|].
    destruct (_ <? 224)%N; [destruct rest; by eexists _, _|].
    destruct (_ <? 240)%N.
    - destruct rest as [|b1 [|b2 rest]]; by eexists _, _.
    - destruct rest as [|b1 [|b2 [|b3 rest]]]; by eexists _, _.
  Qed.

Lemma code_points_replace_dots name :
    name ≠ "" → ∃ c cs, code_points (replace_dots name) = c :: cs.
  Proof. destruct name as [|b rest]; [done|]. intros _. apply code_points_cons. Qed.

  (** [_sanitize_name] never fails: it returns the name the supply gives
      for some prefix. *)
Lemma sanitize_name_eq name self :
    ∃ prefix,
      _sanitize_name ext name self =
        (Ok (supply_fresh_name ext (_name_supply self) prefix),
         set_name_supply (_name_supply self ++ [prefix]) self).
  Proof.
    unfold _sanitize_name. destruct (decide (name = "")) as [->|Hne]; [by eexists|].
    cbv zeta. destruct (code_points_replace_dots name Hne) as (c & cs & ->).
    destruct (negb (isalpha ext c) && bool_decide (c ≠ 95%N)); by eexists.
  Qed.
End sanitize.

(** X8: [_sanitize_name] never fails and asks the name supply for exactly
    one name, which it returns; nothing else of the importer changes. The
    prefix it asks for is [empty_] for the empty name; else it is the name
    with its dots replaced by underscores when this starts with a letter or
    an underscore, and this after [input_] when it starts with another
    character. In each case the prefix has no dot in it and starts with a
    letter or an underscore. *)
Theorem sanitize_name_requests_identifier_prefix (ext : Externals) (name : string)
    (self : ONNXGraphImporter) :
  ∃ prefix,
    _sanitize_name ext name self =
      (Ok (supply_fresh_name ext (_name_supply self) prefix),
       set_name_supply (_name_supply self ++ [prefix]) self) ∧
    (if decide (name = "") then prefix = "empty_"
     else match code_points (replace_dots name) with
          | c :: _ =>
              if isalpha ext c || bool_decide (c = 95%N)
              then prefix = replace_dots name
              else prefix = "input_" +:+ replace_dots name
          | [] => False
          end) ∧
    replace_dots prefix = prefix ∧
    match code_points prefix with
    | c :: _ => isalpha ext c = true ∨ c = 95%N
    | [] => False
    end.
Proof.
  unfold _sanitize_name. destruct (decide (name = "")) as [->|Hne].
  - exists "empty_". split_and!; [apply fresh_name_eq|done|done|by left].
  - cbv zeta. destruct (code_points_replace_dots name Hne) as (c & cs & Hc).
    rewrite Hc. destruct (isalpha ext c) eqn:Halpha; cbn [negb andb orb].
    + exists (replace_dots name).
      split_and!; [apply fresh_name_eq|done|apply replace_dots_idemp|].
      rewrite Hc. by left.
    + destruct (decide (c = 95%N)) as [->|Hne95].
      * rewrite bool_decide_eq_false_2 by (by intros []).
        rewrite bool_decide_eq_true_2 by done.
        exists (replace_dots name).
        split_and!; [apply fresh_name_eq|done|apply replace_dots_idemp|].
        rewrite Hc. by right.
      * rewrite bool_decide_eq_true_2 by done.
        rewrite bool_decide_eq_false_2 by done.
        exists ("input_" +:+ replace_dots name).
        split_and!; [apply fresh_name_eq|done| |by left].
        rewrite replace_dots_app, replace_dots_idemp. done.
Qed.

(** * More on the initializers *)

Section initializers.
  Context (ext : Externals).
  Implicit Types (self : ONNXGraphImporter) (inits : list TensorProto).

Lemma parse_initializer_ok init self self' :
    parse_initializer ext init self = (Ok tt, self') →
    blank (t_name init) = false ∧
    ∃ array, _parse_array ext init = Ok array ∧
             self' = set_nodes (<[t_name init := Constant array]>) self.
  Proof.
    unfold parse_initializer. destruct (blank (t_name init)); [done|].
    rewrite se_bind_unfold. unfold se_lift.
    destruct (_parse_array ext init) as [array|e]; [|done].
    unfold se_modify. intros [= <-]. eauto.
  Qed.

Lemma parse_initializers_ok inits self self' :
    se_for inits (parse_initializer ext) self = (Ok tt, self') →
    (∃ f, self' = set_nodes f self) ∧
    (∀ k, k ∉ t_name <$> inits → _nodes self' !! k = _nodes self !! k) ∧
    (∀ init, init ∈ inits →
       blank (t_name init) = false ∧
       ∃ init' array, init' ∈ inits ∧ t_name init' = t_name init ∧
                      _parse_array ext init' = Ok array ∧
                      _nodes self' !! t_name init = Some (Constant array)).
  Proof.
    revert self. induction inits as [|init inits IH]; intros self; simpl.
    - rewrite se_ret_unfold. intros [= <-]. split_and!.
      + exists id. by rewrite set_nodes_id.
      + done.
      + intros init Hin. by apply not_elem_of_nil in Hin.
    - rewrite se_bind_unfold.
      destruct (parse_initializer ext init self) as [[[]|e] s1] eqn:Hinit; [|done].
      apply parse_initializer_ok in Hinit as (Hblank & array & Harray & ->).
      intros Hrest. apply IH in Hrest as ([f ->] & Hother & Hbound). split_and!.
      + eexists. by rewrite set_nodes_set_nodes.
      + intros k Hk. rewrite Hother by (intros ?; apply Hk; by right).
        simpl. apply lookup_insert_ne. intros <-. apply Hk. by left.
      + intros init0 Hin.
        destruct (decide (t_name init0 ∈ t_name <$> inits)) as [Hlater|Hnot].
        * apply list_elem_of_fmap in Hlater as (init1 & Hname & Hin1).
          destruct (Hbound init1 Hin1) as (Hb1 & init' & array' & Hin' & Hn' & Ha' & Hl').
          split; [by rewrite Hname|].
          exists init', array'. rewrite Hname.
          split_and!; [by right|done..].
        * apply elem_of_cons in Hin as [->|Hin];
            [|destruct Hnot; by apply list_elem_of_fmap_2].
          split; [done|]. exists init, array.
          split_and!; [by left|done..|].
          rewrite Hother by done. simpl. apply lookup_insert_eq.
  Qed.
End initializers.

(** X9: when [_parse_graph_initializers] completes, every initializer has a
    name that is not blank and this name is bound to the constant made of an
    initializer of this name; the names of the table that are not names of
    initializers keep their binding, and only the table of the importer has
    changed. *)
Theorem parse_graph_initializers_binds_constants (ext : Externals) (graph : GraphProto)
    (self : ONNXGraphImporter) :
  match _parse_graph_initializers ext graph self with
  | (Ok _, self') =>
      (∃ f, self' = set_nodes f self) ∧
      (∀ k, k ∉ t_name <$> g_initializer graph → _nodes self' !! k = _nodes self !! k) ∧
      (∀ init, init ∈ g_initializer graph →
         blank (t_name init) = false ∧
         ∃ init' array, init' ∈ g_initializer graph ∧ t_name init' = t_name init ∧
                        _parse_array ext init' = Ok array ∧
                        _nodes self' !! t_name init = Some (Constant array))
  | (Raise _, _) => True
  end.
Proof.
  destruct (_parse_graph_initializers ext graph self) as [[[]|e] self'] eqn:H; [|done].
  by apply parse_initializers_ok.
Qed.

(** X10: [_parse_graph_initializers] stops at the first initializer whose
    name is blank (empty or white space only) with the [ValueError] that a
    name is required; the initializers before it stay bound and the ones
    after it are not read. *)
Theorem parse_graph_initializers_blank_name (ext : Externals) (graph : GraphProto)
    (self s1 : ONNXGraphImporter) (pre post : list TensorProto) (init : TensorProto) :
  g_initializer graph = pre ++ init :: post →
  se_for pre (parse_initializer ext) self = (Ok tt, s1) →
  blank (t_name init) = true →
  _parse_graph_initializers ext graph self =
    (Raise (ValueError "Tensor's name is required."), s1).
Proof.
  intros Hinits Hpre Hblank. unfold _parse_graph_initializers. rewrite Hinits.
  apply (se_for_raise pre init post _ self s1); [done|].
  unfold parse_initializer. by rewrite Hblank.
Qed.

(** The name of the second initializer is the no-break space U+00A0, in
    its two bytes of UTF-8. *)
Lemma parse_graph_initializers_blank_name_witness :
  _parse_graph_initializers eval_externals
    (Build_GraphProto []
       [tensor_w;
        {| t_name := String "194" (String "160" ""); t_dims := []; t_data_type := 7;
           t_data := [] |}] [] [])
    (ONNXGraphImporter_init None (DtypeStr "float32") "llvm" true) =
    (Raise (ValueError "Tensor's name is required."),
     set_nodes (<["w" := Constant {| nd_dtype := "int64"; nd_shape := [2];
                                     nd_data := [1; 2] |}]>)
       (ONNXGraphImporter_init None (DtypeStr "float32") "llvm" true)).
Proof.
  apply (parse_graph_initializers_blank_name eval_externals _ _ _ [tensor_w] []
           {| t_name := String "194" (String "160" ""); t_dims := []; t_data_type := 7;
              t_data := [] |});
    reflexivity.
Defined.

(** * The inputs of the graph *)

Section dict.
  Context {V : Type}.
  Implicit Types (k : string) (v : V) (d : list (string * V)).

Lemma dict_set_keys k v d :
    (dict_set k v d).*1 = if decide (k ∈ d.*1) then d.*1 else d.*1 ++ [k].
  Proof.
    induction d as [|[k' v'] d IH]; cbn [dict_set fmap list_fmap fst].
    - destruct (decide (k ∈ [])) as [Hin|]; [by apply not_elem_of_nil in Hin|done].
    - destruct (decide (k' = k)) as [->|Hne]; cbn [fmap list_fmap fst].
      + destruct (decide (k ∈ k :: d.*1)) as [|Hnot]; [done|]. destruct Hnot. by left.
      + change (list_fmap _ _ fst ?l) with (l.*1). rewrite IH.
        destruct (decide (k ∈ d.*1)) as [Hin|Hnot];
          destruct (decide (k ∈ k' :: d.*1)) as [Hin'|Hnot']; try done.
        * destruct Hnot'. by right.
        * apply elem_of_cons in Hin' as [?|?]; by simplify_eq.
  Qed.

Lemma elem_of_dict_set k v d k' v' :
    NoDup d.*1 →
    (k', v') ∈ dict_set k v d ↔ k' = k ∧ v' = v ∨ k' ≠ k ∧ (k', v') ∈ d.
  Proof.
    induction d as [|[k0 v0] d IH]; simpl; intros Hdup.
    - rewrite list_elem_of_singleton. split.
      + intros [= -> ->]. by left.
      + intros [[-> ->]|[_ Hin]]; [done|]. by apply not_elem_of_nil in Hin.
    - apply NoDup_cons in Hdup as [Hk0 Hdup].
      destruct (decide (k0 = k)) as [->|Hne].
      + rewrite !elem_of_cons. split.
        * intros [[= -> ->]|Hin]; [by left|]. right. split; [|by right].
          intros ->. apply Hk0. by apply (list_elem_of_fmap_2 fst _ (k, v')).
        * intros [[-> ->]|[Hne [?|Hin]]]; [by left|by simplify_eq|by right].
      + rewrite !elem_of_cons, IH by done. split.
        * intros [[= -> ->]|[[-> ->]|[? ?]]]; [right|by left|right];
            (split; [done|]); [by left|by right].
        * intros [[-> ->]|[? [[= -> ->]|?]]]; [right; by left|by left|right; by right].
  Qed.

Lemma NoDup_dict_set k v d : NoDup d.*1 → NoDup (dict_set k v d).*1.
  Proof.
    intros Hdup. rewrite dict_set_keys. destruct (decide _) as [|Hnot]; [done|].
    apply NoDup_app. split_and!; [done| |apply NoDup_singleton].
    intros x Hx ->%list_elem_of_singleton. done.
  Qed.
End dict.

Section inputs.
  Context (ext : Externals).
  Implicit Types (self : ONNXGraphImporter) (i : ValueInfoProto).

  (** What [parse_input] does once the information of the input is read:
      nothing fails any more. *)
Lemma parse_input_eq i self name shape dtype shape_name :
    get_info ext i = Ok (name, shape, dtype, shape_name) →
    match _nodes self !! name with
    | Some e => parse_input ext i self = (Ok tt, set_inputs (dict_set name e) self)
    | None =>
        ∃ var_name supply,
          (_sanitize self = false → var_name = name ∧ supply = _name_supply self) ∧
          parse_input ext i self =
            (Ok tt,
             set_inputs
               (dict_set name
                  (_new_var var_name (default shape (_shape self !! name))
                     (input_dtype self name dtype)))
               (set_nodes
                  (<[name := _new_var var_name (default shape (_shape self !! name))
                               (input_dtype self name dtype)]>)
                  (set_name_supply supply (count_input name self))))
    end.
  Proof.
    intros Hinfo.
    assert (∀ s, parse_input ext i s =
      (let (r, s') :=
         (if decide (_nodes s !! name = None) then
            se_modify (count_input name);;
            var_name ← (if _sanitize s then _sanitize_name ext name else mret name);
            se_modify (set_nodes (<[name := _new_var var_name
                                     (default shape (_shape s !! name))
                                     (input_dtype s name dtype)]>))
          else mret tt) s in
       match r with
       | Ok _ => (value ← nodes_getitem name;
                  se_modify (set_inputs (dict_set name value))) s'
       | Raise e => (Raise e, s')
       end)) as ->.
    { intros s. unfold parse_input.
      rewrite se_bind_unfold. unfold se_lift at 1. rewrite Hinfo.
      rewrite se_bind_unfold. unfold se_get at 1. by rewrite se_bind_unfold. }
    destruct (_nodes self !! name) as [e|] eqn:Hnode.
    - destruct (decide _) as [|_]; [done|].
      rewrite se_ret_unfold, se_bind_unfold. unfold nodes_getitem. rewrite Hnode.
      done.
    - destruct (decide _) as [_|]; [|done].
      rewrite se_bind_unfold. unfold se_modify at 1. rewrite se_bind_unfold.
      destruct (_sanitize self) eqn:Hsanitize.
      + destruct (sanitize_name_eq ext name (count_input name self)) as (prefix & ->).
        eexists _, _. split; [done|].
        unfold se_modify at 1. rewrite se_bind_unfold.
        unfold nodes_getitem. simpl. rewrite lookup_insert_eq. done.
      + exists name, (_name_supply self). split; [done|].
        rewrite se_ret_unfold.
        unfold se_modify at 1. rewrite se_bind_unfold.
        unfold nodes_getitem. simpl. rewrite lookup_insert_eq.
        unfold se_modify. do 2 f_equal.
  Qed.
End inputs.

Section inputs_loop.
  Context (ext : Externals).
  Implicit Types (self s : ONNXGraphImporter) (i : ValueInfoProto).

Lemma parse_input_raise i self e :
    get_info ext i = Raise e → parse_input ext i self = (Raise e, self).
  Proof.
    intros Hinfo. unfold parse_input.
    rewrite se_bind_unfold. unfold se_lift at 1. by rewrite Hinfo.
  Qed.

Lemma input_dtype_dtype self self' name d_type :
    _dtype self' = _dtype self →
    input_dtype self' name d_type = input_dtype self name d_type.
  Proof. unfold input_dtype. by intros ->. Qed.

Lemma inputs_parsed_init self :
    _inputs self = [] → _input_names self = [] → inputs_parsed ext self [] self.
  Proof.
    intros Hinputs Hnames. unfold inputs_parsed. rewrite Hinputs, Hnames. simpl.
    split_and!; try done.
    - apply NoDup_nil_2.
    - apply NoDup_nil_2.
    - intros k. split; [by intros ?%not_elem_of_nil|by intros [?%not_elem_of_nil _]].
    - lia.
    - by intros k v ?%not_elem_of_nil.
  Qed.

Lemma inputs_parsed_step self0 seen i s s' :
    inputs_parsed ext self0 seen s →
    parse_input ext i s = (Ok tt, s') →
    inputs_parsed ext self0 (seen ++ [i]) s'.
  Proof.
    intros ((Hshape & Hdtype & Hsanitize) & (Hdup & Hkeys) & (Hdupn & Hnames) & Hnum
            & Hbound & Hother) Hstep.
    destruct (get_info ext i) as [[[[name shape] dtype] shape_name]|e] eqn:Hinfo;
      [|by rewrite (parse_input_raise _ _ e) in Hstep].
    pose proof (get_info_name ext _ _ _ _ _ Hinfo) as Hname.
    pose proof (parse_input_eq ext i s _ _ _ _ Hinfo) as Heq.
    assert (∀ k, k ∈ vi_name <$> seen ++ [i] ↔ k ∈ vi_name <$> seen ∨ k = name) as Hseen.
    { intros k. rewrite fmap_app, elem_of_app. simpl. rewrite list_elem_of_singleton.
      by rewrite Hname. }
    assert (∀ k, k ∈ vi_name <$> seen → is_Some (_nodes s !! k)) as Hseen_bound.
    { intros k Hk. apply Hkeys in Hk.
      apply list_elem_of_fmap in Hk as ([k' v] & -> & Hin).
      apply Hbound in Hin as [Hv _]. by exists v. }
    destruct (_nodes s !! name) as [e|] eqn:Hnode.
    - rewrite Heq in Hstep. injection Hstep as <-. unfold inputs_parsed. simpl.
      split_and!; try done.
      + by apply NoDup_dict_set.
      + intros k. rewrite dict_set_keys, Hseen.
        destruct (decide (name ∈ (_inputs s).*1)) as [Hin|Hnot].
        * rewrite Hkeys. split; [by left|]. intros [?| ->]; [done|]. by apply Hkeys.
        * rewrite elem_of_app, list_elem_of_singleton, Hkeys. done.
      + intros k. rewrite Hnames, Hseen. split; [intros [? ?]; split; [by left|done]|].
        intros [[?| ->] Hnone]; [done|].
        destruct (decide (name ∈ vi_name <$> seen)) as [|Hnot]; [done|].
        rewrite <-(Hother _ Hnot), Hnode in Hnone. done.
      + intros k v Hin. apply elem_of_dict_set in Hin as [[-> ->]|[Hne Hin]]; [| |done].
        * split; [done|].
          destruct (decide (name ∈ vi_name <$> seen)) as [Hk|Hnot].
          -- apply Hkeys in Hk. apply list_elem_of_fmap in Hk as ([k' v] & Hk' & Hin).
             simpl in Hk'. subst k'.
             destruct (Hbound _ _ Hin) as [Hv Hmatch].
             rewrite Hnode in Hv. injection Hv as ->.
             destruct (_nodes self0 !! name); [done|].
             destruct Hmatch as (i0 & sh & dt & sn & vn & Hi0 & ?).
             exists i0, sh, dt, sn, vn. split; [|done]. apply elem_of_app. by left.
          -- by rewrite <-(Hother _ Hnot), Hnode.
        * destruct (Hbound _ _ Hin) as [Hv Hmatch]. split; [done|].
          destruct (_nodes self0 !! k); [done|].
          destruct Hmatch as (i0 & sh & dt & sn & vn & Hi0 & ?).
          exists i0, sh, dt, sn, vn. split; [|done]. apply elem_of_app. by left.
      + intros k Hk. apply Hother. intros ?. apply Hk, Hseen. by left.
    - destruct Heq as (var_name & supply & Hvar & Heq).
      rewrite Heq in Hstep. injection Hstep as <-.
      assert (name ∉ vi_name <$> seen) as Hnew.
      { intros [? Hk]%Hseen_bound. by rewrite Hnode in Hk. }
      assert (_nodes self0 !! name = None) as Hnone by by rewrite <-(Hother _ Hnew).
      unfold inputs_parsed. simpl.
      split_and!; try done.
      + by apply NoDup_dict_set.
      + intros k. rewrite dict_set_keys, Hseen.
        rewrite decide_False by (by rewrite Hkeys).
        rewrite elem_of_app, list_elem_of_singleton, Hkeys. done.
      + apply NoDup_app. split_and!; [done| |apply NoDup_singleton].
        intros k [Hk _]%Hnames ->%list_elem_of_singleton. done.
      + intros k. rewrite elem_of_app, list_elem_of_singleton, Hnames, Hseen. split.
        * intros [[? ?]| ->]; (split; [|done]); [by left|by right].
        * intros [[?| ->] ?]; [left|right]; done.
      + rewrite length_app. simpl. lia.
      + intros k v Hin. apply elem_of_dict_set in Hin as [[-> ->]|[Hne Hin]]; [| |done].
        * split; [apply lookup_insert_eq|]. rewrite Hnone.
          exists i, shape, dtype, shape_name, var_name. split_and!.
          -- apply elem_of_app. right. by apply list_elem_of_singleton.
          -- done.
          -- by rewrite Hshape, (input_dtype_dtype self0 s).
          -- intros Hs. apply Hvar. by rewrite Hsanitize.
        * destruct (Hbound _ _ Hin) as [Hv Hmatch].
          split; [by rewrite lookup_insert_ne|].
          destruct (_nodes self0 !! k); [done|].
          destruct Hmatch as (i0 & sh & dt & sn & vn & Hi0 & ?).
          exists i0, sh, dt, sn, vn. split; [|done]. apply elem_of_app. by left.
      + intros k Hk. rewrite lookup_insert_ne; [|intros <-; apply Hk, Hseen; by right].
        apply Hother. intros ?. apply Hk, Hseen. by left.
  Qed.

Lemma inputs_parsed_loop self0 inputs seen s s' :
    inputs_parsed ext self0 seen s →
    se_for inputs (parse_input ext) s = (Ok tt, s') →
    inputs_parsed ext self0 (seen ++ inputs) s'.
  Proof.
    revert seen s. induction inputs as [|i inputs IH]; intros seen s Hinv; simpl.
    - rewrite se_ret_unfold, app_nil_r. by intros [= <-].
    - rewrite se_bind_unfold.
      destruct (parse_input ext i s) as [[[]|e] s1] eqn:Hstep; [|done].
      intros Hrest. rewrite (assoc_L _ seen [i] inputs : seen ++ i :: inputs = _).
      eapply IH; [|done]. by eapply inputs_parsed_step.
  Qed.

Lemma parse_graph_input_parsed graph self self' :
    _inputs self = [] → _input_names self = [] →
    _parse_graph_input ext graph self = (Ok tt, self') →
    inputs_parsed ext self (g_input graph) self'.
  Proof.
    intros Hinputs Hnames Hloop.
    apply (inputs_parsed_loop self _ [] self self'); [|done].
    by apply inputs_parsed_init.
  Qed.
End inputs_loop.

(** X11: when [_parse_graph_input] completes from an importer with no input
    yet, the inputs registered in [_inputs] are the names of the inputs of
    the graph, each once, and each is bound in the table to its value. A
    name that an initializer had bound keeps the constant as its value and
    is not counted; the names counted in [_input_names] and [_num_input]
    are the ones that had no binding. The other names keep their binding. *)
Theorem parse_graph_input_registers_inputs (ext : Externals) (graph : GraphProto)
    (self self' : ONNXGraphImporter) :
  _inputs self = [] → _input_names self = [] →
  _parse_graph_input ext graph self = (Ok tt, self') →
  NoDup (_inputs self').*1 ∧
  (∀ k, k ∈ (_inputs self').*1 ↔ k ∈ vi_name <$> g_input graph) ∧
  NoDup (_input_names self') ∧
  (∀ k, k ∈ _input_names self' ↔
        k ∈ vi_name <$> g_input graph ∧ _nodes self !! k = None) ∧
  _num_input self' = _num_input self + Z.of_nat (length (_input_names self')) ∧
  (∀ k v, (k, v) ∈ _inputs self' →
     _nodes self' !! k = Some v ∧ ∀ e, _nodes self !! k = Some e → v = e) ∧
  (∀ k, k ∉ vi_name <$> g_input graph → _nodes self' !! k = _nodes self !! k).
Proof.
  intros Hinputs Hnames Hloop.
  destruct (parse_graph_input_parsed ext _ _ _ Hinputs Hnames Hloop)
    as (_ & (Hdup & Hkeys) & (Hdupn & Hcounted) & Hnum & Hbound & Hother).
  split_and!; try done.
  intros k v Hin. destruct (Hbound _ _ Hin) as [Hv Hmatch]. split; [done|].
  intros e He. by rewrite He in Hmatch.
Qed.

Lemma parse_graph_input_registers_inputs_witness :
  let graph := Build_GraphProto [] [tensor_w] [float_value "a"; float_value "w"] [] in
  let self := set_nodes (<["w" := Constant {| nd_dtype := "int64"; nd_shape := [2];
                                              nd_data := [1; 2] |}]>)
                (ONNXGraphImporter_init None (DtypeStr "float32") "llvm" true) in
  let self' := (_parse_graph_input eval_externals graph self).2 in
  NoDup (_inputs self').*1 ∧
  (∀ k, k ∈ (_inputs self').*1 ↔ k ∈ vi_name <$> g_input graph) ∧
  NoDup (_input_names self') ∧
  (∀ k, k ∈ _input_names self' ↔
        k ∈ vi_name <$> g_input graph ∧ _nodes self !! k = None) ∧
  _num_input self' = _num_input self + Z.of_nat (length (_input_names self')) ∧
  (∀ k v, (k, v) ∈ _inputs self' →
     _nodes self' !! k = Some v ∧ ∀ e, _nodes self !! k = Some e → v = e) ∧
  (∀ k, k ∉ vi_name <$> g_input graph → _nodes self' !! k = _nodes self !! k).
Proof.
  intros graph self self'.
  apply (parse_graph_input_registers_inputs eval_externals graph self self');
    reflexivity.
Defined.



(** * The check of the operators *)

(** X13: [_check_for_unsupported_ops] never changes the importer. It passes
    exactly when the operator of every node is a key of the catalog; else
    it raises [OpNotImplemented], and the message lists, after its fixed
    head and separated by commas, the operators of the graph that are not
    in the catalog, each once. *)
Theorem check_for_unsupported_ops_cases (ext : Externals) (graph : GraphProto)
    (self : ONNXGraphImporter) :
  match _check_for_unsupported_ops ext graph self with
  | (Ok _, self') =>
      self' = self ∧
      ∀ node, node ∈ g_node graph → is_Some (_get_convert_map ext !! n_op_type node)
  | (Raise e, self') =>
      self' = self ∧
      ∃ ops,
        e = OpNotImplemented
              ("The following operators are not supported for frontend ONNX: "
               +:+ String.concat ", " ops) ∧
        NoDup ops ∧ ops ≠ [] ∧
        ∀ op, op ∈ ops ↔
              ∃ node, node ∈ g_node graph ∧ n_op_type node = op ∧
                      _get_convert_map ext !! op = None
  end.
Proof.
  unfold _check_for_unsupported_ops. cbv zeta.
  pose proof (elem_of_unsupported_ops ext graph) as Hops.
  destruct (decide (unsupported_ops ext graph ≠ ∅)) as [Hne|Hempty].
  - split; [done|]. exists (elements (unsupported_ops ext graph)). split_and!.
    + done.
    + apply NoDup_elements.
    + intros Hnil. apply Hne. by apply elements_empty_inv in Hnil as ->%leibniz_equiv.
    + intros op. by rewrite elem_of_elements.
  - rewrite se_ret_unfold. split; [done|]. intros node Hnode.
    destruct (_get_convert_map ext !! n_op_type node) eqn:Hmap; [by eexists|].
    destruct Hempty. intros Hempty.
    assert (n_op_type node ∈ unsupported_ops ext graph) as Hin
      by (apply Hops; by exists node).
    rewrite Hempty in Hin. by apply not_elem_of_empty in Hin.
Qed.

(** * The conversion of a node *)

Section node.
  Context (ext : Externals).
  Implicit Types (self s : ONNXGraphImporter) (node : NodeProto).

Lemma construct_node_attr_raises node self e :
    _parse_attr (n_attribute node) = Raise e →
    construct_node ext node self = (Raise e, self).
  Proof.
    intros Hattr. unfold construct_node.
    rewrite se_bind_unfold. unfold se_lift at 1. by rewrite Hattr.
  Qed.

Lemma construct_node_input_raises node self attr e :
    _parse_attr (n_attribute node) = Ok attr →
    collect_inputs (n_input node) [] self = (Raise e, self) →
    construct_node ext node self = (Raise e, self).
  Proof.
    intros Hattr Hinputs. unfold construct_node.
    rewrite se_bind_unfold. unfold se_lift at 1. rewrite Hattr.
    by rewrite se_bind_unfold, Hinputs.
  Qed.

  (** The end of the conversion of a node whose converter returned [op]. *)
Lemma construct_node_converted node self attr inputs o op s1 :
    _parse_attr (n_attribute node) = Ok attr →
    collect_inputs (n_input node) [] self = (Ok inputs, self) →
    opset self = Some o →
    _convert_operator ext (n_op_type node) inputs
      (<["tvm_custom" := ATvmCustom (n_name node) (length (n_output node))]> attr) o self =
      (Ok (Some op), s1) →
    construct_node ext node self =
      ('(op, outputs_num) ←
         (match op with
          | Tuple fields => mret (op, length fields)
          | _ =>
              match struct_info op with
              | TupleStructInfo fields =>
                  tuple_items ← mapM (λ i, bb_emit (TupleGetItem op i))
                                  (seq 0 (length fields));
                  mret (Tuple tuple_items, length tuple_items)
              | _ => mret (op, 1%nat)
              end
          end);
       if decide (length (n_output node) ≤ outputs_num)%nat then
         bind_outputs (n_output node) op outputs_num
       else
         se_raise (AssertionError "Missing outputs during conversion.")) s1.
  Proof.
    intros Hattr Hinputs Hopset Hconv. unfold construct_node.
    rewrite se_bind_unfold. unfold se_lift at 1. rewrite Hattr.
    rewrite se_bind_unfold, Hinputs.
    rewrite se_bind_unfold. unfold se_get at 1.
    rewrite se_bind_unfold, Hopset, Hconv.
    rewrite se_bind_unfold. unfold se_lift at 1. done.
  Qed.

  (** The number of outputs of a result that needs no unpacking. *)
Lemma outputs_of_result op (n : nat) s1 :
    result_arity op = Some n →
    (match op with
     | Tuple fields => mret (op, length fields)
     | _ =>
         match struct_info op with
         | TupleStructInfo fields =>
             tuple_items ← mapM (λ i, bb_emit (TupleGetItem op i))
                             (seq 0 (length fields));
             mret (Tuple tuple_items, length tuple_items)
         | _ => mret (op, 1%nat)
         end
     end) s1 = (Ok (op, n), s1).
  Proof.
    unfold result_arity.
    destruct op as [name si|data|fields|t i|f args kwargs si]; simpl.
    - destruct si; intros; by simplify_eq.
    - intros; by simplify_eq.
    - intros; by simplify_eq.
    - destruct (match struct_info t with
                | TupleStructInfo fields => default ObjectStructInfo (fields !! i)
                | _ => ObjectStructInfo
                end); intros; by simplify_eq.
    - destruct si; intros; by simplify_eq.
  Qed.

Lemma result_arity_not_one op (n : nat) :
    result_arity op = Some n → n ≠ 1%nat → ∃ fields, op = Tuple fields ∧ n = length fields.
  Proof.
    unfold result_arity.
    destruct op as [name si|data|fields|t i|f args kwargs si]; simpl.
    - destruct si; intros; by simplify_eq.
    - intros; by simplify_eq.
    - intros [= <-] _. by eexists.
    - destruct (match struct_info t with
                | TupleStructInfo fields => default ObjectStructInfo (fields !! i)
                | _ => ObjectStructInfo
                end); intros; by simplify_eq.
    - destruct si; intros; by simplify_eq.
  Qed.
End node.

(** X14: the conversion of a node reads its attributes first, then its
    inputs: an import that gets to a node whose attributes are refused
    aborts with that error; with attributes accepted, if one of the inputs
    of the node is a name that is not empty and is not bound at this point
    (no initializer, graph input or output of an earlier node has it), the
    import aborts with the [KeyError] of such a name. In both cases the
    importer is left as it was before the node. *)
Theorem node_input_not_bound_aborts_import (ext : Externals) (graph : GraphProto)
    (o : Z) (self s : ONNXGraphImporter) (pre : list NodeProto) (node : NodeProto) :
  reaches ext graph o self pre node s →
  match _parse_attr (n_attribute node) with
  | Raise e => ONNXGraphImporter_from_onnx ext graph o self = (Raise e, s)
  | Ok _ =>
      (∃ name, name ∈ n_input node ∧ name ≠ "" ∧ _nodes s !! name = None) →
      ∃ name, name ∈ n_input node ∧ name ≠ "" ∧ _nodes s !! name = None ∧
              ONNXGraphImporter_from_onnx ext graph o self = (Raise (KeyError name), s)
  end.
Proof.
  intros Hreach. destruct (_parse_attr (n_attribute node)) as [attr|e] eqn:Hattr.
  - intros (name & Hin & Hne & Hnone).
    destruct (collect_inputs_raise (n_input node) [] s) as (name' & Hin' & Hne' & Hnone' & Hr).
    { intros Hall. destruct (Hall name Hin Hne) as [v Hv]. by rewrite Hnone in Hv. }
    exists name'. split_and!; [done..|].
    apply (from_onnx_node_raises ext graph o self pre node s); [done|].
    by apply (construct_node_input_raises ext node s attr).
  - apply (from_onnx_node_raises ext graph o self pre node s); [done|].
    by apply construct_node_attr_raises.
Qed.

Lemma node_input_not_bound_aborts_import_witness :
  ∃ name, name ∈ ["a"; "b"] ∧ name ≠ "" ∧
    _nodes (_parse_graph_input eval_externals
              (Build_GraphProto
                 [Build_NodeProto "n0" "Identity" ["a"; "b"] ["y"] []]
                 [] [float_value "a"] [float_value "y"])
              (set_opset 13 (ONNXGraphImporter_init None (DtypeStr "float32") "llvm" true))).2
      !! name = None ∧
    ONNXGraphImporter_from_onnx eval_externals
      (Build_GraphProto
         [Build_NodeProto "n0" "Identity" ["a"; "b"] ["y"] []]
         [] [float_value "a"] [float_value "y"]) 13
      (ONNXGraphImporter_init None (DtypeStr "float32") "llvm" true) =
      (Raise (KeyError name),
       (_parse_graph_input eval_externals
          (Build_GraphProto
             [Build_NodeProto "n0" "Identity" ["a"; "b"] ["y"] []]
             [] [float_value "a"] [float_value "y"])
          (set_opset 13 (ONNXGraphImporter_init None (DtypeStr "float32") "llvm" true))).2).
Proof.
  refine (node_input_not_bound_aborts_import eval_externals
            (Build_GraphProto
               [Build_NodeProto "n0" "Identity" ["a"; "b"] ["y"] []]
               [] [float_value "a"] [float_value "y"]) 13
            (ONNXGraphImporter_init None (DtypeStr "float32") "llvm" true) _ []
            (Build_NodeProto "n0" "Identity" ["a"; "b"] ["y"] []) _ _).
  - exists [], (set_opset 13 (ONNXGraphImporter_init None (DtypeStr "float32") "llvm" true)),
      (_parse_graph_input eval_externals
         (Build_GraphProto
            [Build_NodeProto "n0" "Identity" ["a"; "b"] ["y"] []]
            [] [float_value "a"] [float_value "y"])
         (set_opset 13 (ONNXGraphImporter_init None (DtypeStr "float32") "llvm" true))).2.
    split_and!; by vm_compute.
  - exists "b". split_and!; [by right; left|done|by vm_compute].
Defined.

(** X15: how the outputs of a node are bound once its converter returned
    [op], a tuple of [n] fields or a value that is not of a tuple type
    ([n = 1]). A node that declares more than [n] outputs is refused with
    [AssertionError]. With [n = 1], a node with no output is refused with
    [IndexError], and else the only output is bound to [op] itself, also
    when [op] is a tuple of one field. With [n] other than 1 the outputs
    are bound to the first fields of the tuple, in order, and the fields
    left are dropped. *)
Theorem construct_node_binds_outputs (ext : Externals) (node : NodeProto)
    (self s1 : ONNXGraphImporter) (attr : Attrs) (inputs : onnx_input.t Expr)
    (o : Z) (op : Expr) (n : nat) :
  _parse_attr (n_attribute node) = Ok attr →
  collect_inputs (n_input node) [] self = (Ok inputs, self) →
  opset self = Some o →
  _convert_operator ext (n_op_type node) inputs
    (<["tvm_custom" := ATvmCustom (n_name node) (length (n_output node))]> attr) o self =
    (Ok (Some op), s1) →
  result_arity op = Some n →
  ((n < length (n_output node))%nat →
   ∃ msg, construct_node ext node self = (Raise (AssertionError msg), s1)) ∧
  (n = 1%nat → n_output node = [] →
   ∃ msg, construct_node ext node self = (Raise (IndexError msg), s1)) ∧
  (∀ k, n = 1%nat → n_output node = [k] →
        construct_node ext node self = (Ok tt, set_nodes (<[k := op]>) s1)) ∧
  (n ≠ 1%nat → (length (n_output node) ≤ n)%nat →
   ∃ fields, op = Tuple fields ∧
     construct_node ext node self =
       (Ok tt, set_nodes (insert_all (zip (n_output node) fields)) s1)).
Proof.
  intros Hattr Hinputs Hopset Hconv Harity.
  rewrite (construct_node_converted ext node self attr inputs o op s1) by done.
  rewrite se_bind_unfold, (outputs_of_result op n s1 Harity).
  split_and!.
  - intros Hlt. destruct (decide _) as [|_]; [lia|]. by eexists.
  - intros -> ->. by eexists.
  - by intros k -> ->.
  - intros Hne Hle.
    destruct (result_arity_not_one op n Harity Hne) as (fields & -> & ->).
    exists fields. split; [done|].
    destruct (decide _) as [_|]; [|lia].
    unfold bind_outputs. destruct (decide _) as [|_]; [done|].
    by rewrite (bind_outputs_loop (n_output node) fields 0 s1 Hle).
Qed.

Lemma construct_node_binds_outputs_witness :
  construct_node eval_externals (Build_NodeProto "n0" "Identity" ["a"] ["y"] [])
    (set_opset 13
       (set_nodes (<["a" := float_var "a0"]>)
          (ONNXGraphImporter_init None (DtypeStr "float32") "llvm" true))) =
    (Ok tt,
     set_nodes (<["y" := float_var "a0"]>)
       (set_opset 13
          (set_nodes (<["a" := float_var "a0"]>)
             (ONNXGraphImporter_init None (DtypeStr "float32") "llvm" true)))).
Proof.
  refine (proj1 (proj2 (proj2
            (construct_node_binds_outputs eval_externals
               (Build_NodeProto "n0" "Identity" ["a"] ["y"] []) _ _ ∅
               [Some (float_var "a0")] 13 (float_var "a0") 1 _ _ _ _ _))) "y" _ _);
    try reflexivity; by vm_compute.
Defined.

(** * The outputs of the graph *)

Section outputs.
  Context (ext : Externals).
  Implicit Types (self s : ONNXGraphImporter) (outs : list ValueInfoProto).

Lemma outputs_getitem_raise pre out post s :
    (∀ i, i ∈ pre → is_Some (_nodes s !! vi_name i)) →
    _nodes s !! vi_name out = None →
    mapM (λ i, nodes_getitem (vi_name i)) (pre ++ out :: post) s =
      (Raise (KeyError (vi_name out)), s).
  Proof.
    intros Hpre Hout. induction pre as [|i pre IH]; cbn [app mapM].
    - rewrite se_bind_unfold. unfold nodes_getitem at 1. by rewrite Hout.
    - rewrite se_bind_unfold. unfold nodes_getitem at 1.
      destruct (Hpre i) as [v ->]; [by left|].
      rewrite se_bind_unfold, IH; [done|]. intros i' Hi'. apply Hpre. by right.
  Qed.

  (** The import once the nodes are converted. *)
Lemma from_onnx_nodes_done graph o self s1 s2 s3 :
    _parse_graph_initializers ext graph (set_opset o self) = (Ok tt, s1) →
    _parse_graph_input ext graph s1 = (Ok tt, s2) →
    unsupported_ops ext graph = ∅ →
    _construct_nodes ext graph s2 = (Ok tt, s3) →
    ONNXGraphImporter_from_onnx ext graph o self =
      (let (r, s') := mapM (λ i, nodes_getitem (vi_name i)) (g_output graph) s3 in
       match r with
       | Ok outputs =>
           (outputs ← (match outputs with
                       | [output] => mret output
                       | _ => mret (Tuple outputs)
                       end);
            self ← se_get;
            let param_list := (filter (λ kv, is_Var kv.2) (_inputs self)).*2 in
            output_var ← bb_emit_output outputs;
            se_modify (λ self,
              set_bb (BlockBuilder.emit_func_output "main" output_var param_list (bb self))
                self);;
            se_gets (λ self, BlockBuilder.get (bb self))) s'
       | Raise e => (Raise e, s')
       end).
  Proof.
    intros H1 H2 Hsup H3. unfold ONNXGraphImporter_from_onnx.
    rewrite se_bind_unfold. unfold se_modify at 1.
    rewrite se_bind_unfold, H1, se_bind_unfold, H2, se_bind_unfold.
    unfold _check_for_unsupported_ops. rewrite decide_False by (by intros []).
    rewrite se_ret_unfold, se_bind_unfold, H3.
    by rewrite se_bind_unfold.
  Qed.
End outputs.

(** X16: the outputs of the graph are read after all the nodes are
    converted: if an output of the graph has a name that no initializer,
    graph input or node output has bound, the import raises the [KeyError]
    of the first such name and returns no module; the importer is left as
    the conversion of the nodes left it. *)
Theorem graph_output_not_bound_is_KeyError (ext : Externals) (graph : GraphProto)
    (o : Z) (self s1 s2 s3 : ONNXGraphImporter) (pre post : list ValueInfoProto)
    (out : ValueInfoProto) :
  _parse_graph_initializers ext graph (set_opset o self) = (Ok tt, s1) →
  _parse_graph_input ext graph s1 = (Ok tt, s2) →
  unsupported_ops ext graph = ∅ →
  _construct_nodes ext graph s2 = (Ok tt, s3) →
  g_output graph = pre ++ out :: post →
  (∀ i, i ∈ pre → is_Some (_nodes s3 !! vi_name i)) →
  _nodes s3 !! vi_name out = None →
  ONNXGraphImporter_from_onnx ext graph o self = (Raise (KeyError (vi_name out)), s3).
Proof.
  intros H1 H2 Hsup H3 Houts Hpre Hout.
  rewrite (from_onnx_nodes_done ext graph o self s1 s2 s3) by done.
  by rewrite Houts, outputs_getitem_raise.
Qed.

Lemma graph_output_not_bound_is_KeyError_witness :
  ONNXGraphImporter_from_onnx eval_externals
    (Build_GraphProto [Build_NodeProto "n0" "Identity" ["a"] ["y"] []]
       [] [float_value "a"] [float_value "y"; float_value "z"]) 13
    (ONNXGraphImporter_init None (DtypeStr "float32") "llvm" true) =
    (Raise (KeyError "z"),
     (_construct_nodes eval_externals
        (Build_GraphProto [Build_NodeProto "n0" "Identity" ["a"] ["y"] []]
           [] [float_value "a"] [float_value "y"; float_value "z"])
        (_parse_graph_input eval_externals
           (Build_GraphProto [Build_NodeProto "n0" "Identity" ["a"] ["y"] []]
              [] [float_value "a"] [float_value "y"; float_value "z"])
           (set_opset 13
              (ONNXGraphImporter_init None (DtypeStr "float32") "llvm" true))).2).2).
Proof.
  refine (graph_output_not_bound_is_KeyError eval_externals
            (Build_GraphProto [Build_NodeProto "n0" "Identity" ["a"] ["y"] []]
               [] [float_value "a"] [float_value "y"; float_value "z"]) 13
            (ONNXGraphImporter_init None (DtypeStr "float32") "llvm" true)
            (set_opset 13 (ONNXGraphImporter_init None (DtypeStr "float32") "llvm" true))
            (_parse_graph_input eval_externals
               (Build_GraphProto [Build_NodeProto "n0" "Identity" ["a"] ["y"] []]
                  [] [float_value "a"] [float_value "y"; float_value "z"])
               (set_opset 13
                  (ONNXGraphImporter_init None (DtypeStr "float32") "llvm" true))).2
            _ [float_value "y"] [] (float_value "z") _ _ _ _ _ _ _);
    try (by vm_compute).
  intros i ->%list_elem_of_singleton. vm_compute. by eexists.
Defined.

(** * The entry point *)

Section entry.
  Context (ext : Externals).
  Implicit Types (self s : ONNXGraphImporter).

Local Ltac frame_step :=
    first
      [ apply se_keeps_bind
      | apply se_keeps_fmap
      | apply se_keeps_ret
      | apply se_keeps_lift
      | apply se_keeps_raise
      | apply se_keeps_get
      | apply se_keeps_modify
      | apply se_keeps_for
      | apply se_keeps_mapM
      | match goal with
        | |- se_keeps _ (match ?x with _ => _ end) => destruct x
        end ];
    try (solve [apply _ | by intros []]); intros.

Lemma keeps_opset_check graph :
    se_keeps same_opset (_check_for_unsupported_ops ext graph).
  Proof.
    unfold _check_for_unsupported_ops. cbv zeta.
    destruct (decide _); repeat frame_step.
  Qed.

Lemma keeps_opset_bb_emit_output value : se_keeps same_opset (bb_emit_output value).
  Proof. intros s r s' H. unfold bb_emit_output in H. simpl in H. by simplify_eq. Qed.

Lemma keeps_opset_gets {A} (f : ONNXGraphImporter → A) : se_keeps same_opset (se_gets f).
  Proof. intros s r s' H. unfold se_gets in H. by simplify_eq. Qed.

  (** Whatever the import does, the importer holds the opset it was given. *)
Lemma from_onnx_opset graph o self r self' :
    ONNXGraphImporter_from_onnx ext graph o self = (r, self') → opset self' = Some o.
  Proof.
    unfold ONNXGraphImporter_from_onnx. rewrite se_bind_unfold. unfold se_modify at 1.
    intros Hrest.
    assert (same_opset (set_opset o self) self') as Hsame; [|by rewrite Hsame].
    revert Hrest. generalize (set_opset o self). intros s Hrest.
    refine (_ s r self' Hrest). clear.
    repeat first
      [ apply keeps_opset_parse_initializer
      | apply keeps_opset_parse_input
      | apply keeps_opset_check
      | apply keeps_opset_construct_node
      | apply keeps_opset_nodes_getitem
      | apply keeps_opset_bb_emit_output
      | apply keeps_opset_gets
      | frame_step ].
  Qed.
End entry.

(** X17: the entry point refuses a model whose IR version is below 3 with
    [ValueError] before anything else. From version 3 on, a target given as
    a string is first made into a [Target]: when this fails, its error is
    the error of the entry point and no importer is made. Else the import
    runs on the graph of the model, on an importer made with this target,
    with the opset given as argument when there is one (also one below the
    opset of the model), else with the opset of the model; whether the
    import completes or not, this is the opset the importer holds
    afterwards. *)
Theorem from_onnx_version_and_opset (ext : Externals) (model : ModelProto)
    (shape : option (gmap string (list PrimExpr))) (dtype : DtypeArg)
    (opset_arg : option Z) (target : TargetArg) (sanitize_input_names : bool) :
  if decide (ir_version model < 3) then
    ∃ msg, from_onnx ext model shape dtype opset_arg target sanitize_input_names =
             (Raise (ValueError msg), None)
  else
    match (match target with
           | TargetStr target => Target ext target
           | TargetObj target => Ok target
           end) with
    | Raise e =>
        from_onnx ext model shape dtype opset_arg target sanitize_input_names =
          (Raise e, None)
    | Ok target_object =>
        ∃ g,
          from_onnx ext model shape dtype opset_arg target sanitize_input_names =
            ((ONNXGraphImporter_from_onnx ext (graph model)
                (default (opset_in_model (opset_import model)) opset_arg)
                (ONNXGraphImporter_init shape dtype target_object
                   sanitize_input_names)).1,
             Some g) ∧
          opset g = Some (default (opset_in_model (opset_import model)) opset_arg)
    end.
Proof.
  unfold from_onnx. destruct (decide (ir_version model < 3)) as [Hold|Hnew].
  - by eexists.
  - destruct (match target with
              | TargetStr target => Target ext target
              | TargetObj target => Ok target
              end) as [target_object|e]; [|done].
    cbv zeta.
    destruct (ONNXGraphImporter_from_onnx ext (graph model) _ _) as [r g] eqn:Himport.
    exists g. split; [done|]. by eapply from_onnx_opset.
Qed.

(** * Nodes of the converters of this file *)

Section single_version.
  Context (ext : Externals).
  Implicit Types (self : ONNXGraphImporter) (node : NodeProto) (f : Impl).

  (** A class with one method: the method is selected for every opset. *)
Lemma get_converter_one_method name v f opset :
    get_converter (converter name [(v, f)]).2 opset = Ok f.
  Proof.
    destruct (selects_cases (converter name [(v, f)]).2 opset)
      as (m & Hm & [_ (impl & Himpl & ->)] & _).
    { simpl. rewrite insert_empty, dom_singleton_L. set_solver. }
    simpl in Himpl. rewrite insert_empty in Himpl.
    apply lookup_singleton_Some in Himpl as [_ <-]. done.
  Qed.

Lemma convert_operator_one_method op_name name v f inputs attrs opset self :
    _get_convert_map ext !! op_name = Some (converter name [(v, f)]) →
    _convert_operator ext op_name inputs attrs opset self = call_impl f inputs attrs self.
  Proof.
    intros Hmap. unfold _convert_operator. rewrite Hmap.
    change (converter name [(v, f)]) with
      (RelaxConverter, (converter name [(v, f)]).2).
    cbv beta iota. unfold mbind, SE_bind, se_lift.
    by rewrite get_converter_one_method.
  Qed.

Lemma Identity_in_convert_map :
    _get_convert_map ext !! "Identity" =
      Some (converter "Identity" [(1, Identity._impl_v1)]).
  Proof. reflexivity. Qed.


Lemma construct_node_one_output node self attr inputs o op k :
    _parse_attr (n_attribute node) = Ok attr →
    collect_inputs (n_input node) [] self = (Ok inputs, self) →
    opset self = Some o →
    _convert_operator ext (n_op_type node) inputs
      (<["tvm_custom" := ATvmCustom (n_name node) (length (n_output node))]> attr) o self =
      (Ok (Some op), self) →
    result_arity op = Some 1%nat →
    n_output node = [k] →
    construct_node ext node self = (Ok tt, set_nodes (<[k := op]>) self).
  Proof.
    intros Hattr Hinputs Hopset Hconv Harity Hout.
    rewrite (construct_node_converted ext node self attr inputs o op self) by done.
    rewrite se_bind_unfold, (outputs_of_result op 1 self Harity). by rewrite Hout.
  Qed.
End single_version.



(** X19: an [Identity] node makes its output a second name of the value of
    its first input: the output is bound to the very expression the input
    name is bound to, under any opset, and nothing is emitted to the
    function under construction. *)
Theorem Identity_node_aliases_its_input (ext : Externals) (node : NodeProto)
    (self : ONNXGraphImporter) (attr : Attrs) (inputs : onnx_input.t Expr) (o : Z)
    (e : Expr) (k : string) :
  n_op_type node = "Identity" →
  n_output node = [k] →
  _parse_attr (n_attribute node) = Ok attr →
  collect_inputs (n_input node) [] self = (Ok inputs, self) →
  inputs !! 0%nat = Some (Some e) →
  result_arity e = Some 1%nat →
  opset self = Some o →
  construct_node ext node self = (Ok tt, set_nodes (<[k := e]>) self).
Proof.
  intros Hop Hout Hattr Hinputs He Harity Hopset.
  apply (construct_node_one_output ext node self attr inputs o e k); try done.
  rewrite Hop.
  rewrite (convert_operator_one_method ext "Identity" "Identity" 1 Identity._impl_v1)
    by apply Identity_in_convert_map.
  unfold call_impl, Identity._impl_v1, se_lift.
  rewrite (getitem_int_nonneg inputs 0) by lia. change (Z.to_nat 0) with 0%nat.
  rewrite He. cbn [default cs_bb].
  by rewrite set_bb_bb.
Qed.

Lemma Identity_node_aliases_its_input_witness :
  construct_node eval_externals (Build_NodeProto "n0" "Identity" ["a"] ["y"] [])
    (set_opset 0
       (set_nodes (<["a" := float_var "a0"]>)
          (ONNXGraphImporter_init None (DtypeStr "float32") "llvm" true))) =
    (Ok tt,
     set_nodes (<["y" := float_var "a0"]>)
       (set_opset 0
          (set_nodes (<["a" := float_var "a0"]>)
             (ONNXGraphImporter_init None (DtypeStr "float32") "llvm" true)))).
Proof.
  refine (Identity_node_aliases_its_input eval_externals
            (Build_NodeProto "n0" "Identity" ["a"] ["y"] []) _ ∅
            [Some (float_var "a0")] 0 (float_var "a0") "y" _ _ _ _ _ _ _);
    reflexivity.
Defined.

(** * Reshape and Slice on constants *)

Section constant_parameters.
  Context (ext : Externals).
  Implicit Types (inputs : onnx_input.t Expr) (st : ConvState) (data : list Z).

Lemma head_take_drop data (k : nat) x :
    data !! k = Some x → default 0 (head (take 1 (drop (k * 1) data))) = x.
  Proof. intros Hx. by rewrite Nat.mul_1_r, (drop_S _ _ _ Hx). Qed.

  (** [tolist()] of an array of one dimension is the list of its elements. *)
Lemma tolist_vector (array : NDArray) :
    nd_shape array = [Z.of_nat (length (nd_data array))] →
    tolist array = PyList (PyInt <$> nd_data array).
  Proof.
    intros Hshape. unfold tolist. rewrite Hshape. cbn [nested foldr].
    change (Z.to_nat 1) with 1%nat. rewrite Nat2Z.id. f_equal.
    apply list_eq. intros k. rewrite !list_lookup_fmap.
    destruct (decide (k < length (nd_data array))%nat) as [Hlt|Hge].
    - rewrite lookup_seq_lt by done.
      destruct (lookup_lt_is_Some_2 (nd_data array) k Hlt) as [x Hx]. rewrite Hx.
      simpl. by rewrite (head_take_drop _ _ _ Hx).
    - rewrite lookup_seq_ge by lia. rewrite (lookup_ge_None_2 (nd_data array) k) by lia.
      done.
  Qed.

Lemma tolist_scalar (array : NDArray) :
    nd_shape array = [] → ∃ z, tolist array = PyInt z.
  Proof. intros Hshape. unfold tolist. rewrite Hshape. by eexists. Qed.

Lemma count_minus_one data :
    existsb (py_eq (-1)) (PyInt <$> data) = true ↔
    length (filter (λ dim, dim = -1) data) ≠ 0%nat.
  Proof.
    induction data as [|x data IH]; [done|].
    cbn [fmap list_fmap existsb py_eq]. rewrite filter_cons.
    destruct (decide (x = -1)) as [->|Hne].
    - by rewrite bool_decide_eq_true_2.
    - rewrite bool_decide_eq_false_2 by done. exact IH.
  Qed.

Lemma count_py_eq data :
    length (filter (λ dim, py_eq (-1) dim = true) (PyInt <$> data)) =
    length (filter (λ dim, dim = -1) data).
  Proof.
    induction data as [|x data IH]; [done|].
    cbn [fmap list_fmap]. rewrite !filter_cons. cbn [py_eq].
    destruct (decide (x = -1)) as [->|Hne].
    - rewrite decide_True by (by rewrite bool_decide_eq_true_2).
      cbn [length]. by rewrite <-IH.
    - rewrite decide_False by (by rewrite bool_decide_eq_false_2). exact IH.
  Qed.

Lemma new_product_from (acc : Z) data :
    foldl (λ new_product dim,
             new_product ← new_product;
             match dim with
             | PyInt dim => Ok (if decide (dim > 0) then new_product * dim else new_product)
             | PyList _ =>
                 Raise (TypeError "'>' not supported between instances of 'list' and 'int'")
             end)
          (Ok acc) (PyInt <$> data) =
      Ok (foldl (λ acc dim, if decide (dim > 0) then acc * dim else acc) acc data).
  Proof.
    revert acc. induction data as [|x data IH]; intros acc; [done|].
    cbn [fmap list_fmap foldl mbind result_bind]. apply IH.
  Qed.

Lemma new_product_vector data :
    Reshape.new_product (PyInt <$> data) =
      Ok (foldl (λ acc dim, if decide (dim > 0) then acc * dim else acc) 1 data).
  Proof. apply new_product_from. Qed.

Lemma replace_minus_one data (q : Z) :
    (λ dim, if py_eq (-1) dim then PyInt q else dim) <$> (PyInt <$> data) =
    PyInt <$> ((λ dim, if decide (dim = -1) then q else dim) <$> data).
  Proof.
    rewrite <-!list_fmap_compose. apply list_fmap_ext. intros _ x _. simpl.
    destruct (decide (x = -1)) as [->|Hne];
      [by rewrite bool_decide_eq_true_2|by rewrite bool_decide_eq_false_2].
  Qed.

  (** [Reshape] once the shape is known to be a constant. *)
Lemma Reshape_on_constant inputs st (shape : NDArray) :
    inputs !! 1%nat = Some (Some (Constant shape)) →
    Reshape._impl_v13 ext inputs st =
      (new_shape ←
         (match tolist shape with
          | PyInt _ => se_raise (TypeError "argument of type 'int' is not iterable")
          | PyList dims =>
              if existsb (py_eq (-1)) dims then
                if bool_decide (length (filter (λ dim, py_eq (-1) dim = true) dims) ≠ 1%nat)
                then se_raise (ValueError "Reshape with multiple -1 is not supported.")
                else
                  data_shape ← se_lift (shape_values (default None (inputs !! 0%nat)));
                  new_product ← se_lift (Reshape.new_product dims);
                  quotient ← se_lift (np_prod_div ext data_shape new_product);
                  mret (PyList ((λ dim, if py_eq (-1) dim then PyInt quotient else dim)
                                  <$> dims))
              else mret (tolist shape)
          end);
       Some <$> emit_te ext "topi.reshape"
                  [arg_of (default None (inputs !! 0%nat)); ArgPy new_shape] []) st.
  Proof.
    intros Hshape. unfold Reshape._impl_v13.
    rewrite (getitem_int_nonneg inputs 0), (getitem_int_nonneg inputs 1) by lia.
    change (Z.to_nat 0) with 0%nat. change (Z.to_nat 1) with 1%nat.
    rewrite Hshape.
    rewrite se_bind_unfold. unfold se_lift at 1.
    rewrite se_bind_unfold. unfold se_lift at 1.
    cbn [default from_option id is_Constant negb].
    rewrite se_bind_unfold. unfold se_lift at 1, data_tolist. done.
  Qed.

  (** [Slice] once its parameters have passed the check of the constants. *)
Lemma Slice_checked inputs st starts ends axes steps :
    default None (inputs !! 1%nat) = starts → default None (inputs !! 2%nat) = ends →
    default None (inputs !! 3%nat) = axes → default None (inputs !! 4%nat) = steps →
    forallb (λ param, is_Constant param || bool_decide (param = None))
      [starts; ends; axes; steps] = true →
    Slice._impl_v13 ext inputs st =
      (starts ← se_lift (data_tolist starts);
       ends ← se_lift (data_tolist ends);
       axes ← (match axes with
               | Some _ => se_lift (data_tolist axes)
               | None =>
                   n ← se_lift (py_len starts);
                   mret (PyList (PyInt <$> (Z.of_nat <$> seq 0 n)))
               end);
       steps ← (match steps with
                | Some _ => se_lift (data_tolist steps)
                | None =>
                    n ← se_lift (py_len axes);
                    mret (PyList (replicate n (PyInt 1)))
                end);
       Some <$> emit_te ext "topi.strided_slice"
                  [arg_of (default None (inputs !! 0%nat)); ArgPy starts; ArgPy ends]
                  [("strides", ArgPy steps); ("axes", ArgPy axes)]) st.
  Proof.
    intros H1 H2 H3 H4 Hall. unfold Slice._impl_v13.
    rewrite !getitem_int_nonneg by lia.
    change (Z.to_nat 0) with 0%nat. change (Z.to_nat 1) with 1%nat.
    change (Z.to_nat 2) with 2%nat. change (Z.to_nat 3) with 3%nat.
    change (Z.to_nat 4) with 4%nat.
    rewrite H1, H2, H3, H4.
    repeat (rewrite se_bind_unfold; unfold se_lift at 1).
    by rewrite Hall.
  Qed.
End constant_parameters.

(** X20: [Reshape] with a constant shape. A shape constant of no dimension
    is refused with [TypeError], its [tolist()] being a number. For a shape
    constant of one dimension: without [-1] its elements are passed to
    [topi.reshape] as they are, whatever the data is (no entry is
    interpreted, also not [0], and the shape of the data is not read); with
    more than one [-1] it is refused with [ValueError], with nothing
    emitted; with one [-1] the shape of the data is needed: when it cannot
    be read (the data is missing, or has an unknown or a symbolic dimension)
    the converter fails with that error, and else the [-1] is replaced by
    the quotient numpy gives for the number of elements of the data and the
    product of the positive entries, or the converter fails with the error
    of this division. *)
Theorem Reshape_constant_shape (ext : Externals) (inputs : onnx_input.t Expr)
    (st : ConvState) (shape : NDArray) :
  inputs !! 1%nat = Some (Some (Constant shape)) →
  (nd_shape shape = [] →
   Reshape._impl_v13 ext inputs st =
     (Raise (TypeError "argument of type 'int' is not iterable"), st)) ∧
  (nd_shape shape = [Z.of_nat (length (nd_data shape))] →
   (length (filter (λ dim, dim = -1) (nd_data shape)) = 0%nat →
    Reshape._impl_v13 ext inputs st =
      (Some <$> emit_te ext "topi.reshape"
                  [arg_of (default None (inputs !! 0%nat));
                   ArgPy (PyList (PyInt <$> nd_data shape))] []) st) ∧
   ((2 ≤ length (filter (λ dim, (dim = -1)%Z) (nd_data shape)))%nat →
    Reshape._impl_v13 ext inputs st =
      (Raise (ValueError "Reshape with multiple -1 is not supported."), st)) ∧
   (length (filter (λ dim, dim = -1) (nd_data shape)) = 1%nat →
    match shape_values (default None (inputs !! 0%nat)) with
    | Raise e => Reshape._impl_v13 ext inputs st = (Raise e, st)
    | Ok data_shape =>
        match np_prod_div ext data_shape
                (foldl (λ acc dim, if decide (dim > 0) then acc * dim else acc) 1
                   (nd_data shape)) with
        | Raise e => Reshape._impl_v13 ext inputs st = (Raise e, st)
        | Ok quotient =>
            Reshape._impl_v13 ext inputs st =
              (Some <$> emit_te ext "topi.reshape"
                          [arg_of (default None (inputs !! 0%nat));
                           ArgPy (PyList (PyInt <$>
                                    ((λ dim, if decide (dim = -1) then quotient else dim)
                                       <$> nd_data shape)))] []) st
        end
    end)).
Proof.
  intros Hshape. rewrite (Reshape_on_constant ext inputs st shape Hshape). split.
  - intros [z ->]%tolist_scalar. by rewrite se_bind_unfold.
  - intros ->%tolist_vector.
    pose proof (count_minus_one (nd_data shape)) as Hcount.
    rewrite count_py_eq. split_and!.
    + intros Hzero.
      destruct (existsb _ _); [by destruct (proj1 Hcount eq_refl)|].
      by rewrite se_bind_unfold, se_ret_unfold.
    + intros Hmany. rewrite (proj2 Hcount) by lia.
      rewrite bool_decide_eq_true_2 by lia. by rewrite se_bind_unfold.
    + intros Hone. rewrite (proj2 Hcount) by lia.
      rewrite bool_decide_eq_false_2 by lia. rewrite new_product_vector.
      destruct (shape_values _) as [data_shape|e] eqn:Hshape_values.
      * destruct (np_prod_div ext data_shape _) as [quotient|e] eqn:Hquotient;
          unfold mbind, SE_bind, se_lift; cbv beta iota; rewrite Hquotient;
          cbv beta iota; [|done].
        by rewrite se_ret_unfold, replace_minus_one.
      * by unfold mbind, SE_bind, se_lift.
Qed.

Lemma Reshape_constant_shape_witness :
  Reshape._impl_v13 eval_externals
    [Some (Constant {| nd_dtype := "float32"; nd_shape := [2; 3];
                       nd_data := [1; 2; 3; 4; 5; 6] |});
     Some (Constant {| nd_dtype := "int64"; nd_shape := [2]; nd_data := [3; -1] |})]
    {| cs_bb := BlockBuilder.create; cs_attr := ∅ |} =
    (Some <$> emit_te eval_externals "topi.reshape"
                [ArgExpr (Constant {| nd_dtype := "float32"; nd_shape := [2; 3];
                                      nd_data := [1; 2; 3; 4; 5; 6] |});
                 ArgPy (PyList [PyInt 3; PyInt 2])] [])
      {| cs_bb := BlockBuilder.create; cs_attr := ∅ |}.
Proof.
  refine (proj2 (proj2 (proj2 (Reshape_constant_shape eval_externals
            [Some (Constant {| nd_dtype := "float32"; nd_shape := [2; 3];
                               nd_data := [1; 2; 3; 4; 5; 6] |});
             Some (Constant {| nd_dtype := "int64"; nd_shape := [2];
                               nd_data := [3; -1] |})]
            {| cs_bb := BlockBuilder.create; cs_attr := ∅ |}
            {| nd_dtype := "int64"; nd_shape := [2]; nd_data := [3; -1] |} _) _)) _);
    reflexivity.
Defined.

(** X21: [Slice] with constant [starts] and [ends] and neither [axes] nor
    [steps]. For [starts] of one dimension the slice is taken on the axes
    [0 .. len(starts) - 1], in order, with step 1 on each; for [starts] of
    no dimension the converter fails with [TypeError], its [tolist()] being
    a number that has no length. A [Slice] without [starts] passes the check
    of the constants (a missing input counts as constant) and then fails
    with [AttributeError]. *)
Theorem Slice_defaults (ext : Externals) (inputs : onnx_input.t Expr) (st : ConvState) :
  (∀ starts ends : NDArray,
     inputs !! 1%nat = Some (Some (Constant starts)) →
     inputs !! 2%nat = Some (Some (Constant ends)) →
     default None (inputs !! 3%nat) = None →
     default None (inputs !! 4%nat) = None →
     (nd_shape starts = [Z.of_nat (length (nd_data starts))] →
      Slice._impl_v13 ext inputs st =
        (Some <$> emit_te ext "topi.strided_slice"
                    [arg_of (default None (inputs !! 0%nat));
                     ArgPy (PyList (PyInt <$> nd_data starts)); ArgPy (tolist ends)]
                    [("strides", ArgPy (PyList (replicate (length (nd_data starts))
                                                  (PyInt 1))));
                     ("axes", ArgPy (PyList (PyInt <$>
                                       (Z.of_nat <$> seq 0 (length (nd_data starts))))))])
          st) ∧
     (nd_shape starts = [] →
      Slice._impl_v13 ext inputs st =
        (Raise (TypeError "object of type 'int' has no len()"), st))) ∧
  (default None (inputs !! 1%nat) = None →
   (∀ p, (2 ≤ p ≤ 4)%nat →
         is_Constant (default None (inputs !! p)) = true ∨
         default None (inputs !! p) = None) →
   ∃ msg, Slice._impl_v13 ext inputs st = (Raise (AttributeError msg), st)).
Proof.
  split.
  - intros starts ends Hstarts Hends Haxes Hsteps.
    rewrite (Slice_checked ext inputs st
               (Some (Constant starts)) (Some (Constant ends)) None None);
      [|by rewrite ?Hstarts, ?Hends..|done].
    split.
    + intros Hvector. unfold mbind, SE_bind, se_lift, data_tolist. cbv beta iota.
      rewrite (tolist_vector starts Hvector). unfold py_len. cbv beta iota.
      rewrite !se_ret_unfold. cbv beta iota.
      by rewrite !length_fmap, length_seq.
    + intros [z Hz]%tolist_scalar. unfold mbind, SE_bind, se_lift, data_tolist.
      cbv beta iota. by rewrite Hz.
  - intros Hstarts Hothers.
    rewrite (Slice_checked ext inputs st None _ _ _ Hstarts eq_refl eq_refl eq_refl).
    + rewrite se_bind_unfold. unfold se_lift at 1, data_tolist at 1. by eexists.
    + cbn [forallb is_Constant orb]. rewrite bool_decide_eq_true_2 by done.
      cbn [andb].
      destruct (Hothers 2%nat ltac:(lia)) as [-> | ->],
        (Hothers 3%nat ltac:(lia)) as [-> | ->],
        (Hothers 4%nat ltac:(lia)) as [-> | ->]; done.
Qed.

Lemma Slice_defaults_witness :
  Slice._impl_v13 eval_externals
    [Some (float_var "a0");
     Some (Constant {| nd_dtype := "int64"; nd_shape := [2]; nd_data := [0; 1] |});
     Some (Constant {| nd_dtype := "int64"; nd_shape := [2]; nd_data := [2; 2] |})]
    {| cs_bb := BlockBuilder.create; cs_attr := ∅ |} =
    (Some <$> emit_te eval_externals "topi.strided_slice"
                [ArgExpr (float_var "a0"); ArgPy (PyList [PyInt 0; PyInt 1]);
                 ArgPy (PyList [PyInt 2; PyInt 2])]
                [("strides", ArgPy (PyList [PyInt 1; PyInt 1]));
                 ("axes", ArgPy (PyList [PyInt 0; PyInt 1]))])
      {| cs_bb := BlockBuilder.create; cs_attr := ∅ |}.
Proof.
  refine (proj1 (proj1 (Slice_defaults eval_externals
            [Some (float_var "a0");
             Some (Constant {| nd_dtype := "int64"; nd_shape := [2]; nd_data := [0; 1] |});
             Some (Constant {| nd_dtype := "int64"; nd_shape := [2]; nd_data := [2; 2] |})]
            {| cs_bb := BlockBuilder.create; cs_attr := ∅ |})
            {| nd_dtype := "int64"; nd_shape := [2]; nd_data := [0; 1] |}
            {| nd_dtype := "int64"; nd_shape := [2]; nd_data := [2; 2] |} _ _ _ _) _);
    reflexivity.
Defined.

(** * get_info *)

(** X22: [get_info] fails only on an element type that is not 0 and is not
    in the table of the types, with the [KeyError] of this type. Else it
    returns the name of the value, no type for the element type 0 and the
    type of the table otherwise, and one entry per dimension: a dimension
    with a value other than 0 (also a negative one) is this number, a
    dimension with no value or the value 0 is a symbolic variable [dyn],
    recorded under its parameter name. *)
Theorem get_info_cases (ext : Externals) (i : ValueInfoProto) :
  match get_info ext i with
  | Ok (name, shape, dtype, shape_name) =>
      name = vi_name i ∧
      length shape = length (vi_dim i) ∧ length shape_name = length (vi_dim i) ∧
      (∀ (k : nat) dim, vi_dim i !! k = Some dim →
         match dim_value dim with
         | Some v =>
             if decide (v = 0)
             then shape !! k = Some (TirVar "dyn" "int64") ∧
                  shape_name !! k = Some (inl (dim_param dim))
             else shape !! k = Some (IntImm v) ∧ shape_name !! k = Some (inr v)
         | None =>
             shape !! k = Some (TirVar "dyn" "int64") ∧
             shape_name !! k = Some (inl (dim_param dim))
         end) ∧
      match dtype with
      | None => vi_elem_type i = 0
      | Some t =>
          vi_elem_type i ≠ 0 ∧ TENSOR_TYPE_TO_NP_TYPE ext !! vi_elem_type i = Some t
      end
  | Raise e =>
      vi_elem_type i ≠ 0 ∧ TENSOR_TYPE_TO_NP_TYPE ext !! vi_elem_type i = None ∧
      e = KeyError (pretty (vi_elem_type i))
  end.
Proof.
  unfold get_info. cbv zeta.
  assert (∀ (k : nat) dim, vi_dim i !! k = Some dim →
    match dim_value dim with
    | Some v =>
        if decide (v = 0)
        then ((λ dim, if decide (dim_value dim = None ∨ dim_value dim = Some 0)
                      then (TirVar "dyn" "int64", inl (dim_param dim))
                      else (IntImm (default 0 (dim_value dim)),
                            inr (default 0 (dim_value dim)))) <$> vi_dim i).*1 !! k =
               Some (TirVar "dyn" "int64") ∧
             ((λ dim, if decide (dim_value dim = None ∨ dim_value dim = Some 0)
                      then (TirVar "dyn" "int64", inl (dim_param dim))
                      else (IntImm (default 0 (dim_value dim)),
                            inr (default 0 (dim_value dim)))) <$> vi_dim i).*2 !! k =
               Some (inl (dim_param dim))
        else ((λ dim, if decide (dim_value dim = None ∨ dim_value dim = Some 0)
                      then (TirVar "dyn" "int64", inl (dim_param dim))
                      else (IntImm (default 0 (dim_value dim)),
                            inr (default 0 (dim_value dim)))) <$> vi_dim i).*1 !! k =
               Some (IntImm v) ∧
             ((λ dim, if decide (dim_value dim = None ∨ dim_value dim = Some 0)
                      then (TirVar "dyn" "int64", inl (dim_param dim))
                      else (IntImm (default 0 (dim_value dim)),
                            inr (default 0 (dim_value dim)))) <$> vi_dim i).*2 !! k =
               Some (inr v)
    | None =>
        ((λ dim, if decide (dim_value dim = None ∨ dim_value dim = Some 0)
                 then (TirVar "dyn" "int64", inl (dim_param dim))
                 else (IntImm (default 0 (dim_value dim)),
                       inr (default 0 (dim_value dim)))) <$> vi_dim i).*1 !! k =
          Some (TirVar "dyn" "int64") ∧
        ((λ dim, if decide (dim_value dim = None ∨ dim_value dim = Some 0)
                 then (TirVar "dyn" "int64", inl (dim_param dim))
                 else (IntImm (default 0 (dim_value dim)),
                       inr (default 0 (dim_value dim)))) <$> vi_dim i).*2 !! k =
          Some (inl (dim_param dim))
    end) as Hdims.
  { intros k dim Hk. rewrite !list_lookup_fmap, Hk. cbn [fmap option_fmap option_map].
    destruct (dim_value dim) as [v|] eqn:Hv.
    - destruct (decide (v = 0)) as [->|Hne].
      + rewrite decide_True by (by right). done.
      + rewrite decide_False; [done|]. intros [?|?]; by simplify_eq.
    - rewrite decide_True by (by left). done. }
  destruct (decide (vi_elem_type i ≠ 0)) as [Hne|Hzero].
  - unfold get_type. destruct (TENSOR_TYPE_TO_NP_TYPE ext !! vi_elem_type i) as [t|] eqn:Ht.
    + cbn [fmap result_fmap mbind result_bind]. rewrite !length_fmap. done.
    + cbn [fmap result_fmap mbind result_bind]. done.
  - cbn [mbind result_bind]. rewrite !length_fmap. split_and!; try done.
    by destruct (decide (vi_elem_type i = 0)).
Qed.

(** * What an import keeps *)

Section import_keeps.
  Context (ext : Externals).
  Implicit Types (self s : ONNXGraphImporter).

Global Instance import_keeps_refl : Reflexive import_keeps.
  Proof. by intros self. Qed.
Global Instance import_keeps_trans : Transitive import_keeps.
  Proof.
    intros s1 s2 s3 (Hb1 & ? & ? & ? & ?) (Hb2 & ? & ? & ? & ?).
    split; [by intros k ?; apply Hb2, Hb1|]. split_and!; congruence.
  Qed.

Lemma import_keeps_insert k v s : import_keeps s (set_nodes (<[k := v]>) s).
  Proof.
    split; [|done]. intros k' Hk'. simpl.
    destruct (decide (k = k')) as [->|Hne];
      [rewrite lookup_insert_eq; by eexists|by rewrite lookup_insert_ne].
  Qed.

Lemma import_keeps_same_nodes s s' :
    _nodes s' = _nodes s → _shape s' = _shape s → _dtype s' = _dtype s →
    _target s' = _target s → _sanitize s' = _sanitize s → import_keeps s s'.
  Proof. intros Hn ? ? ? ?. split; [by rewrite Hn|done]. Qed.

Local Ltac keep_step :=
    first
      [ apply se_keeps_bind
      | apply se_keeps_fmap
      | apply se_keeps_ret
      | apply se_keeps_lift
      | apply se_keeps_raise
      | apply se_keeps_get
      | apply se_keeps_modify;
          first [ intros ?; apply import_keeps_insert
                | intros ?; by apply import_keeps_same_nodes ]
      | apply se_keeps_for
      | apply se_keeps_mapM
      | match goal with
        | |- se_keeps _ (match ?x with _ => _ end) => destruct x
        end ];
    try (solve [apply _ | by intros []]); intros.

Lemma keeps_nodes_getitem name : se_keeps import_keeps (nodes_getitem name).
  Proof. intros s r s' H. by apply nodes_getitem_unchanged in H as ->. Qed.

Lemma keeps_collect_inputs names acc : se_keeps import_keeps (collect_inputs names acc).
  Proof. intros s r s' H. by apply collect_inputs_unchanged in H as ->. Qed.

Lemma keeps_fresh_name prefix : se_keeps import_keeps (fresh_name ext prefix).
  Proof.
    intros s r s' H. unfold fresh_name in H. simpl in H. simplify_eq.
    by apply import_keeps_same_nodes.
  Qed.

Lemma keeps_sanitize_name name : se_keeps import_keeps (_sanitize_name ext name).
  Proof.
    unfold _sanitize_name. destruct (decide (name = "")); [apply keeps_fresh_name|].
    cbv zeta. destruct (code_points (replace_dots name)) as [|c rest]; [repeat keep_step|].
    destruct (_ && _); apply keeps_fresh_name.
  Qed.

Lemma keeps_parse_initializer init : se_keeps import_keeps (parse_initializer ext init).
  Proof. unfold parse_initializer. destruct (blank _); repeat keep_step. Qed.

Lemma keeps_parse_input i : se_keeps import_keeps (parse_input ext i).
  Proof.
    unfold parse_input.
    repeat first [apply keeps_sanitize_name | apply keeps_nodes_getitem | keep_step].
  Qed.

Lemma keeps_parse_graph_input_from graph s s' :
    _parse_graph_input ext graph s = (Ok tt, s') → import_keeps s s'.
  Proof. apply (se_keeps_for import_keeps _ _ keeps_parse_input). Qed.

Lemma keeps_check graph : se_keeps import_keeps (_check_for_unsupported_ops ext graph).
  Proof.
    unfold _check_for_unsupported_ops. cbv zeta. destruct (decide _); repeat keep_step.
  Qed.

Lemma keeps_call_impl f inputs attrs : se_keeps import_keeps (call_impl f inputs attrs).
  Proof.
    intros s r s' H. unfold call_impl in H.
    destruct (f inputs _) as [sym st]. simplify_eq. by apply import_keeps_same_nodes.
  Qed.

Lemma keeps_convert_operator op_name inputs attrs o :
    se_keeps import_keeps (_convert_operator ext op_name inputs attrs o).
  Proof.
    unfold _convert_operator. generalize (_get_convert_map ext). intros convert_map.
    destruct (convert_map !! op_name) as [[base cls]|];
      repeat first [apply keeps_call_impl | keep_step].
  Qed.

Lemma keeps_convert_without_opset op_name :
    se_keeps import_keeps (convert_without_opset ext op_name).
  Proof.
    unfold convert_without_opset. generalize (_get_convert_map ext). intros convert_map.
    destruct (convert_map !! op_name) as [[base cls]|]; [destruct (decide _)|];
      repeat keep_step.
  Qed.

Lemma keeps_bb_emit value : se_keeps import_keeps (bb_emit value).
  Proof.
    intros s r s' H. unfold bb_emit in H. simpl in H. simplify_eq.
    by apply import_keeps_same_nodes.
  Qed.

Lemma keeps_bb_emit_output value : se_keeps import_keeps (bb_emit_output value).
  Proof.
    intros s r s' H. unfold bb_emit_output in H. simpl in H. simplify_eq.
    by apply import_keeps_same_nodes.
  Qed.

Lemma keeps_gets {A} (f : ONNXGraphImporter → A) : se_keeps import_keeps (se_gets f).
  Proof. intros s r s' H. unfold se_gets in H. by simplify_eq. Qed.

Lemma keeps_bind_outputs outputs op n : se_keeps import_keeps (bind_outputs outputs op n).
  Proof. unfold bind_outputs. repeat keep_step. Qed.

Lemma keeps_construct_node node : se_keeps import_keeps (construct_node ext node).
  Proof.
    unfold construct_node.
    repeat first
      [ apply keeps_collect_inputs
      | apply keeps_convert_operator
      | apply keeps_convert_without_opset
      | apply keeps_bb_emit
      | apply keeps_bind_outputs
      | keep_step ].
  Qed.

Lemma keeps_from_onnx graph o :
    se_keeps import_keeps (ONNXGraphImporter_from_onnx ext graph o).
  Proof.
    unfold ONNXGraphImporter_from_onnx, _parse_graph_initializers, _parse_graph_input,
      _construct_nodes.
    repeat first
      [ apply keeps_parse_initializer
      | apply keeps_parse_input
      | apply keeps_check
      | apply keeps_construct_node
      | apply keeps_nodes_getitem
      | apply keeps_bb_emit_output
      | apply keeps_gets
      | keep_step ].
  Qed.
End import_keeps.

(** X23: an import, whether it completes or raises, never takes a name out
    of the symbol table of the importer (a binding may be replaced, not
    removed), and it leaves the settings the importer was made with (the
    shapes and types given for the inputs, the target, the sanitizing of the
    names) as they are. *)
Theorem import_never_unbinds (ext : Externals) (graph : GraphProto) (o : Z)
    (self self' : ONNXGraphImporter) (r : result IRModule) :
  ONNXGraphImporter_from_onnx ext graph o self = (r, self') →
  (∀ k, is_Some (_nodes self !! k) → is_Some (_nodes self' !! k)) ∧
  _shape self' = _shape self ∧ _dtype self' = _dtype self ∧
  _target self' = _target self ∧ _sanitize self' = _sanitize self.
Proof. apply keeps_from_onnx. Qed.

Lemma import_never_unbinds_witness :
  (∀ k, is_Some (_nodes (set_nodes (<["old" := float_var "x"]>)
                           (ONNXGraphImporter_init None (DtypeStr "float32") "llvm" true))
                   !! k) →
        is_Some (_nodes (ONNXGraphImporter_from_onnx eval_externals unsupported_graph 13
                           (set_nodes (<["old" := float_var "x"]>)
                              (ONNXGraphImporter_init None (DtypeStr "float32") "llvm"
                                 true))).2 !! k)) ∧
  _shape (ONNXGraphImporter_from_onnx eval_externals unsupported_graph 13
            (set_nodes (<["old" := float_var "x"]>)
               (ONNXGraphImporter_init None (DtypeStr "float32") "llvm" true))).2 = ∅ ∧
  _dtype (ONNXGraphImporter_from_onnx eval_externals unsupported_graph 13
            (set_nodes (<["old" := float_var "x"]>)
               (ONNXGraphImporter_init None (DtypeStr "float32") "llvm" true))).2 =
    DtypeStr "float32" ∧
  _target (ONNXGraphImporter_from_onnx eval_externals unsupported_graph 13
             (set_nodes (<["old" := float_var "x"]>)
                (ONNXGraphImporter_init None (DtypeStr "float32") "llvm" true))).2 =
    "llvm" ∧
  _sanitize (ONNXGraphImporter_from_onnx eval_externals unsupported_graph 13
               (set_nodes (<["old" := float_var "x"]>)
                  (ONNXGraphImporter_init None (DtypeStr "float32") "llvm" true))).2 =
    true.
Proof.
  apply (import_never_unbinds eval_externals unsupported_graph 13
           (set_nodes (<["old" := float_var "x"]>)
              (ONNXGraphImporter_init None (DtypeStr "float32") "llvm" true))
           _ (ONNXGraphImporter_from_onnx eval_externals unsupported_graph 13
                (set_nodes (<["old" := float_var "x"]>)
                   (ONNXGraphImporter_init None (DtypeStr "float32") "llvm" true))).1).
  by vm_compute.
Defined.

(** * The names bound by an import that completes *)

Section bound.
  Context (ext : Externals).
  Implicit Types (self s : ONNXGraphImporter).

Lemma se_bind_ok {T A B} (m : SE T A) (k : A → SE T B) (t t' : T) (b : B) :
    (m ≫= k) t = (Ok b, t') → ∃ a t1, m t = (Ok a, t1) ∧ k a t1 = (Ok b, t').
  Proof.
    rewrite se_bind_unfold. destruct (m t) as [[a|e] t1]; [|done]. by exists a, t1.
  Qed.

  (** A loop that completes has bound what each of its steps binds. *)
Lemma se_for_ok_binds {A} (l : list A) (body : A → Method unit) (names : A → list string)
      s s' :
    (∀ x, se_keeps import_keeps (body x)) →
    (∀ x s s', body x s = (Ok tt, s') → ∀ k, k ∈ names x → is_Some (_nodes s' !! k)) →
    se_for l body s = (Ok tt, s') →
    ∀ x k, x ∈ l → k ∈ names x → is_Some (_nodes s' !! k).
  Proof.
    intros Hkeeps Hbody. revert s. induction l as [|x l IH]; intros s Hloop x' k Hx' Hk.
    - by apply not_elem_of_nil in Hx'.
    - simpl in Hloop. apply se_bind_ok in Hloop as ([] & s1 & Hstep & Hrest).
      apply elem_of_cons in Hx' as [->|Hx']; [|by eapply IH].
      assert (import_keeps s1 s') as [Hbound _]
        by (by eapply (se_keeps_for import_keeps l body Hkeeps)).
      apply Hbound. by eapply Hbody.
  Qed.

Lemma parse_initializer_ok_binds init s s' :
    parse_initializer ext init s = (Ok tt, s') →
    ∀ k, k ∈ [t_name init] → is_Some (_nodes s' !! k).
  Proof.
    intros (_ & array & _ & ->)%parse_initializer_ok k ->%list_elem_of_singleton.
    simpl. rewrite lookup_insert_eq. by eexists.
  Qed.

Lemma parse_input_ok_binds i s s' :
    parse_input ext i s = (Ok tt, s') →
    ∀ k, k ∈ [vi_name i] → is_Some (_nodes s' !! k).
  Proof.
    intros Hstep k ->%list_elem_of_singleton.
    destruct (get_info ext i) as [[[[name shape] dtype] shape_name]|e] eqn:Hinfo;
      [|by rewrite (parse_input_raise ext i s e) in Hstep].
    pose proof (get_info_name ext _ _ _ _ _ Hinfo) as ->.
    pose proof (parse_input_eq ext i s _ _ _ _ Hinfo) as Heq.
    destruct (_nodes s !! vi_name i) as [v|] eqn:Hnode.
    - rewrite Heq in Hstep. injection Hstep as <-. simpl. rewrite Hnode. by eexists.
    - destruct Heq as (var_name & supply & _ & Heq).
      rewrite Heq in Hstep. injection Hstep as <-. simpl.
      rewrite lookup_insert_eq. by eexists.
  Qed.

Lemma bind_outputs_loop_binds outputs op (n : nat) s s' :
    se_for (zip outputs (seq n (length outputs)))
      (λ '(k, i), value ← se_lift (tuple_getitem op i);
                  se_modify (set_nodes (<[k := value]>))) s = (Ok tt, s') →
    ∀ k, k ∈ outputs → is_Some (_nodes s' !! k).
  Proof.
    intros Hloop k Hk.
    apply list_elem_of_lookup in Hk as [j Hj].
    refine (se_for_ok_binds (zip outputs (seq n (length outputs))) _ (λ ki, [ki.1])
              s s' _ _ Hloop (k, (n + j)%nat) k _ _).
    - intros [k' i]. apply se_keeps_bind; [apply _|apply se_keeps_lift; apply _|].
      intros value. apply se_keeps_modify. intros s0. apply import_keeps_insert.
    - intros [k' i] s0 s0' Hstep k0 ->%list_elem_of_singleton.
      apply se_bind_ok in Hstep as (value & s1 & Hvalue & Hset).
      unfold se_lift in Hvalue. unfold se_modify in Hset. simplify_eq.
      simpl. rewrite lookup_insert_eq. by eexists.
    - apply list_elem_of_lookup. exists j. apply lookup_zip_with_Some.
      exists k, (n + j)%nat. split_and!; [done..|].
      apply lookup_seq. split; [done|]. by apply lookup_lt_Some in Hj.
    - by apply list_elem_of_singleton.
  Qed.

Lemma bind_outputs_ok_binds outputs op (n : nat) s s' :
    (length outputs ≤ n)%nat →
    bind_outputs outputs op n s = (Ok tt, s') →
    ∀ k, k ∈ outputs → is_Some (_nodes s' !! k).
  Proof.
    intros Hlen. unfold bind_outputs. destruct (decide (n = 1%nat)) as [->|Hne].
    - intros Hbind k Hk. apply se_bind_ok in Hbind as (k0 & s1 & Hk0 & Hset).
      unfold se_modify in Hset. simplify_eq.
      destruct outputs as [|k1 [|k2 outputs]]; [by apply not_elem_of_nil in Hk| |simpl in Hlen; lia].
      apply list_elem_of_singleton in Hk as ->.
      unfold se_lift in Hk0. vm_compute in Hk0. simplify_eq.
      simpl. rewrite lookup_insert_eq. by eexists.
    - apply bind_outputs_loop_binds.
  Qed.

Lemma construct_node_ok_binds node s s' :
    construct_node ext node s = (Ok tt, s') →
    ∀ k, k ∈ n_output node → is_Some (_nodes s' !! k).
  Proof.
    unfold construct_node. intros Hnode.
    apply se_bind_ok in Hnode as (attr & s1 & _ & Hnode).
    apply se_bind_ok in Hnode as (inputs & s2 & _ & Hnode).
    apply se_bind_ok in Hnode as (self & s3 & _ & Hnode).
    apply se_bind_ok in Hnode as (op & s5 & _ & Hnode).
    apply se_bind_ok in Hnode as (op' & s6 & _ & Hnode).
    apply se_bind_ok in Hnode as ([op'' n] & s7 & _ & Hnode).
    destruct (decide (length (n_output node) ≤ n)%nat) as [Hlen|]; [|done].
    by apply (bind_outputs_ok_binds _ op'' n s7).
  Qed.

Lemma outputs_getitem_ok (outs : list ValueInfoProto) s values s' :
    mapM (λ i, nodes_getitem (vi_name i)) outs s = (Ok values, s') →
    s' = s ∧ ∀ i, i ∈ outs → is_Some (_nodes s !! vi_name i).
  Proof.
    revert values. induction outs as [|i0 outs IH]; intros values; cbn [mapM].
    - rewrite se_ret_unfold. intros [= _ <-]. split; [done|].
      by intros i ?%not_elem_of_nil.
    - intros Houts.
      apply se_bind_ok in Houts as (v & s1 & Hv & Houts).
      apply se_bind_ok in Houts as (vs & s2 & Hvs & Hret).
      rewrite se_ret_unfold in Hret. simplify_eq.
      pose proof (nodes_getitem_unchanged _ _ _ _ Hv) as ->.
      destruct (IH vs Hvs) as [-> Hbound]. split; [done|].
      intros i [->|Hi]%elem_of_cons; [|by apply Hbound].
      unfold nodes_getitem in Hv. destruct (_nodes s !! vi_name i0); [by eexists|done].
  Qed.
End bound.

(** X24: when an import completes, the symbol table of the importer binds
    the name of every initializer, of every input of the graph, of every
    declared output of every node and of every output of the graph. *)
Theorem completed_import_binds_every_name (ext : Externals) (graph : GraphProto) (o : Z)
    (self self' : ONNXGraphImporter) (ir_mod : IRModule) :
  ONNXGraphImporter_from_onnx ext graph o self = (Ok ir_mod, self') →
  (∀ init, init ∈ g_initializer graph → is_Some (_nodes self' !! t_name init)) ∧
  (∀ i, i ∈ g_input graph → is_Some (_nodes self' !! vi_name i)) ∧
  (∀ node k, node ∈ g_node graph → k ∈ n_output node → is_Some (_nodes self' !! k)) ∧
  (∀ i, i ∈ g_output graph → is_Some (_nodes self' !! vi_name i)).
Proof.
  unfold ONNXGraphImporter_from_onnx. intros Himport.
  apply se_bind_ok in Himport as ([] & s0 & _ & Himport).
  apply se_bind_ok in Himport as ([] & s1 & Hinits & Himport).
  apply se_bind_ok in Himport as ([] & s2 & Hinputs & Himport).
  apply se_bind_ok in Himport as ([] & s2' & Hcheck & Himport).
  apply se_bind_ok in Himport as ([] & s3 & Hnodes & Himport).
  apply se_bind_ok in Himport as (outputs & s4 & Houtputs & Himport).
  pose proof (keeps_parse_graph_input_from ext graph s1 s2 Hinputs) as [K12 _].
  pose proof (keeps_check ext graph s2 _ s2' Hcheck) as [K22 _].
  pose proof (se_keeps_for import_keeps _ _ (keeps_construct_node ext) s2' _ s3 Hnodes)
    as [K23 _].
  pose proof (se_keeps_mapM import_keeps _ _
                (λ i, keeps_nodes_getitem (vi_name i)) s3 _ s4 Houtputs) as [K34 _].
  assert (import_keeps s4 self') as [K4 _].
  { revert Himport. generalize s4. intros s Himport.
    refine (_ s (Ok ir_mod) self' Himport). clear.
    apply se_keeps_bind; [apply _| |intros output].
    { destruct outputs as [|? [|? ?]]; apply se_keeps_ret; apply _. }
    apply se_keeps_bind; [apply _|apply se_keeps_get; apply _|intros self0].
    apply se_keeps_bind; [apply _|apply keeps_bb_emit_output|intros output_var].
    apply se_keeps_bind; [apply _| |intros _; apply keeps_gets].
    apply se_keeps_modify. intros s0. by apply import_keeps_same_nodes. }
  split_and!.
  - intros init Hinit. apply K4, K34, K23, K22, K12.
    by apply (se_for_ok_binds _ (parse_initializer ext) (λ init, [t_name init]) s0 s1
                (keeps_parse_initializer ext) (parse_initializer_ok_binds ext) Hinits
                init (t_name init) Hinit), list_elem_of_singleton.
  - intros i Hi. apply K4, K34, K23, K22.
    by apply (se_for_ok_binds _ (parse_input ext) (λ i, [vi_name i]) s1 s2
                (keeps_parse_input ext) (parse_input_ok_binds ext) Hinputs
                i (vi_name i) Hi), list_elem_of_singleton.
  - intros node k Hnode Hk. apply K4, K34.
    by apply (se_for_ok_binds _ (construct_node ext) n_output s2' s3
                (keeps_construct_node ext) (construct_node_ok_binds ext) Hnodes node k).
  - intros i Hi. apply K4.
    destruct (outputs_getitem_ok _ _ _ _ Houtputs) as [-> Hbound]. by apply Hbound.
Qed.

Lemma completed_import_binds_every_name_witness :
  (∀ init, init ∈ g_initializer (graph identity_model) →
           is_Some (_nodes (ONNXGraphImporter_from_onnx eval_externals
                              (graph identity_model) 13
                              (ONNXGraphImporter_init None (DtypeStr "float32") "llvm"
                                 true)).2 !! t_name init)) ∧
  (∀ i, i ∈ g_input (graph identity_model) →
        is_Some (_nodes (ONNXGraphImporter_from_onnx eval_externals
                           (graph identity_model) 13
                           (ONNXGraphImporter_init None (DtypeStr "float32") "llvm"
                              true)).2 !! vi_name i)) ∧
  (∀ node k, node ∈ g_node (graph identity_model) → k ∈ n_output node →
             is_Some (_nodes (ONNXGraphImporter_from_onnx eval_externals
                                (graph identity_model) 13
                                (ONNXGraphImporter_init None (DtypeStr "float32") "llvm"
                                   true)).2 !! k)) ∧
  (∀ i, i ∈ g_output (graph identity_model) →
        is_Some (_nodes (ONNXGraphImporter_from_onnx eval_externals
                           (graph identity_model) 13
                           (ONNXGraphImporter_init None (DtypeStr "float32") "llvm"
                              true)).2 !! vi_name i)).
Proof.
  apply (completed_import_binds_every_name eval_externals (graph identity_model) 13
           (ONNXGraphImporter_init None (DtypeStr "float32") "llvm" true) _
           (returning [] (Constant {| nd_dtype := "int64"; nd_shape := [2];
                                      nd_data := [1; 2] |}))).
  by vm_compute.
Defined.

(** * Graph inputs named with the empty string *)

Section blank_inputs.
  Context (ext : Externals).
  Implicit Types (self s : ONNXGraphImporter) (i : ValueInfoProto)
    (inputs : list ValueInfoProto).

  (** A name that is not bound and is not a name of the inputs read is not
      bound afterwards. *)
Lemma parse_inputs_unbound inputs self r self' k :
    k ∉ vi_name <$> inputs → _nodes self !! k = None →
    se_for inputs (parse_input ext) self = (r, self') → _nodes self' !! k = None.
  Proof.
    intros Hk Hnone Hloop.
    assert (only_binds (vi_name <$> inputs) self self') as [_ Hbinds].
    { revert Hloop. apply se_for_rel; [apply _..|].
      intros i s r' s' Hin. apply parse_input_frame. by apply list_elem_of_fmap_2. }
    destruct (_nodes self' !! k) as [v|] eqn:Hv; [|done].
    destruct (Hbinds k) as [[? Hbound]|Hin]; [by eexists| |done].
    by rewrite Hnone in Hbound.
  Qed.

  (** Reading an input leaves the value of a name that is bound. *)
Lemma parse_input_keeps_value i s r s' k v :
    _nodes s !! k = Some v → parse_input ext i s = (r, s') → _nodes s' !! k = Some v.
  Proof.
    intros Hk Hstep.
    destruct (get_info ext i) as [[[[name shape] dtype] shape_name]|e] eqn:Hinfo;
      [|rewrite (parse_input_raise ext i s e Hinfo) in Hstep; by simplify_eq].
    pose proof (parse_input_eq ext i s _ _ _ _ Hinfo) as Heq.
    destruct (_nodes s !! name) as [e|] eqn:Hname.
    - rewrite Heq in Hstep. by simplify_eq.
    - destruct Heq as (var_name & supply & _ & Heq). rewrite Heq in Hstep. simplify_eq.
      simpl. rewrite lookup_insert_ne; [done|]. intros <-. by rewrite Hname in Hk.
  Qed.

Lemma parse_inputs_keep_value inputs s r s' k v :
    _nodes s !! k = Some v → se_for inputs (parse_input ext) s = (r, s') →
    _nodes s' !! k = Some v.
  Proof.
    revert s. induction inputs as [|i inputs IH]; intros s Hk; simpl.
    - rewrite se_ret_unfold. by intros; simplify_eq.
    - rewrite se_bind_unfold.
      destruct (parse_input ext i s) as [[[]|e] s1] eqn:Hstep.
      + apply IH. by eapply parse_input_keeps_value.
      + intros; simplify_eq. by eapply parse_input_keeps_value.
  Qed.
End blank_inputs.

(** C8, amended: with the names sanitized, in every import with two graph
    inputs named with the empty string, whatever the other inputs are: the
    first input of this name is renamed to the name the supply returns for
    the prefix [empty_]; the second is not renamed: when it is read the name
    is bound, so no name is requested for it, no variable is made, nothing
    is counted, and it stands for the variable of the first. *)
Theorem only_first_blank_input_is_renamed (ext : Externals)
    (graph : GraphProto) (pre mid post : list ValueInfoProto) (i1 i2 : ValueInfoProto)
    (self s_pre : ONNXGraphImporter)
    (shape1 shape2 : list PrimExpr) (dtype1 dtype2 : option string)
    (names1 names2 : list (string + Z)) :
  g_input graph = pre ++ i1 :: mid ++ i2 :: post →
  (∀ i, i ∈ pre → vi_name i ≠ "") →
  get_info ext i1 = Ok ("", shape1, dtype1, names1) →
  get_info ext i2 = Ok ("", shape2, dtype2, names2) →
  _sanitize self = true →
  _nodes self !! "" = None →
  se_for pre (parse_input ext) self = (Ok tt, s_pre) →
  let var := _new_var (supply_fresh_name ext (_name_supply s_pre) "empty_")
               (default shape1 (_shape self !! "")) (input_dtype self "" dtype1) in
  let s1 := set_inputs (dict_set "" var)
              (set_nodes (<["" := var]>)
                 (set_name_supply (_name_supply s_pre ++ ["empty_"])
                    (count_input "" s_pre))) in
  parse_input ext i1 s_pre = (Ok tt, s1) ∧
  ∀ s_mid,
    se_for mid (parse_input ext) s1 = (Ok tt, s_mid) →
    _nodes s_mid !! "" = Some var ∧
    parse_input ext i2 s_mid = (Ok tt, set_inputs (dict_set "" var) s_mid) ∧
    _parse_graph_input ext graph self =
      se_for post (parse_input ext) (set_inputs (dict_set "" var) s_mid).
Proof.
  intros Hinput Hpre Hinfo1 Hinfo2 Hsanitize Hnone Hloop var s1.
  assert (_nodes s_pre !! "" = None) as Hnone_pre.
  { apply (parse_inputs_unbound ext pre self (Ok tt) s_pre); [|done..].
    intros (i & Hname & Hi)%list_elem_of_fmap. by apply (Hpre i). }
  destruct (se_keeps_for import_keeps pre _ (keeps_parse_input ext) self _ s_pre Hloop)
    as (_ & Hshape & Hdtype & _ & Hsan).
  assert (parse_input ext i1 s_pre = (Ok tt, s1)) as Hstep1.
  { unfold parse_input. rewrite se_bind_unfold. unfold se_lift at 1. rewrite Hinfo1.
    rewrite se_bind_unfold. unfold se_get at 1. rewrite se_bind_unfold.
    rewrite decide_True by done.
    rewrite se_bind_unfold. unfold se_modify at 1. rewrite Hsan, Hsanitize.
    rewrite se_bind_unfold.
    unfold _sanitize_name. rewrite decide_True by done.
    unfold fresh_name, NameSupply.fresh_name. cbn [_name_supply count_input].
    unfold se_modify at 1. rewrite se_bind_unfold.
    unfold nodes_getitem. cbn [_nodes set_nodes]. rewrite lookup_insert_eq.
    unfold se_modify. subst s1 var.
    by rewrite Hshape, (input_dtype_dtype self s_pre). }
  split; [done|]. intros s_mid Hmid.
  assert (_nodes s1 !! "" = Some var) as Hbound1 by apply lookup_insert_eq.
  pose proof (parse_inputs_keep_value ext mid s1 _ s_mid "" var Hbound1 Hmid) as Hbound.
  assert (parse_input ext i2 s_mid = (Ok tt, set_inputs (dict_set "" var) s_mid))
    as Hstep2.
  { pose proof (parse_input_eq ext i2 s_mid _ _ _ _ Hinfo2) as Heq.
    by rewrite Hbound in Heq. }
  split_and!; [done..|].
  unfold _parse_graph_input. rewrite Hinput.
  rewrite se_for_app, Hloop. cbn [se_for].
  rewrite se_bind_unfold, Hstep1.
  rewrite se_for_app, Hmid. cbn [se_for].
  by rewrite se_bind_unfold, Hstep2.
Qed.

Lemma only_first_blank_input_is_renamed_witness :
  let self := ONNXGraphImporter_init None (DtypeStr "float32") "llvm" true in
  let graph := Build_GraphProto [] []
                 [float_value "a"; float_value ""; float_value "b"; float_value "";
                  float_value "c"] [] in
  let s_pre := (parse_input eval_externals (float_value "a") self).2 in
  let var := float_var "empty_0" in
  let s1 := set_inputs (dict_set "" var)
              (set_nodes (<["" := var]>)
                 (set_name_supply (_name_supply s_pre ++ ["empty_"])
                    (count_input "" s_pre))) in
  parse_input eval_externals (float_value "") s_pre = (Ok tt, s1) ∧
  ∀ s_mid,
    se_for [float_value "b"] (parse_input eval_externals) s1 = (Ok tt, s_mid) →
    _nodes s_mid !! "" = Some var ∧
    parse_input eval_externals (float_value "") s_mid =
      (Ok tt, set_inputs (dict_set "" var) s_mid) ∧
    _parse_graph_input eval_externals graph self =
      se_for [float_value "c"] (parse_input eval_externals)
        (set_inputs (dict_set "" var) s_mid).
Proof.
  intros self graph s_pre var s1.
  refine (only_first_blank_input_is_renamed eval_externals graph
            [float_value "a"] [float_value "b"] [float_value "c"]
            (float_value "") (float_value "") self s_pre
            [IntImm 2] [IntImm 2] (Some "float32") (Some "float32") [inr 2] [inr 2]
            _ _ _ _ _ _ _); try reflexivity.
  intros i ->%list_elem_of_singleton. done.
Defined.

(** * The Constant converter *)



